(** * myDARN: the frequency-band occupancy histograms

    A shallow embedding of [Histogram.plot_freq_scan_hist] and
    [Histogram.plot_freq_scan_2d_hist] (src/mydarn/histogram.py, lines
    848-1395) and the properties of the band table, the sample extractor,
    the ranking and the normalisation.

    Conventions of the embedding.
    - Python raises; the embedding returns [Err e] with the exception class
      and message.  Messages of exceptions raised by the interpreter itself
      (comparing a string with a number, [min] of an empty sequence, ...)
      are abbreviated; messages of the [raise] statements of the source are
      literal.
    - Numbers of the band table and of the boundary are exact rationals
      ([Q]); Python's integers are the rationals of denominator 1.  Rounding
      of floating-point division is not modelled.  [tfreq] may in addition
      be NaN or infinite, which the source tests for.
    - Counters ([num_pts], the cells of [hist] and of [hist2d] before the
      normalisation) are natural numbers: they start at zero and only grow
      by a number of flagged positions.
    - The rendering calls (matplotlib, pydarn's radar table, strftime) are
      opaque and succeed, and [cmap] names a colormap; what is handed to
      [ax.bar] and [ax.imshow] is kept in a record next to the returned
      value.  Indexing the record list and the band list and building the
      dates of the titles are modelled, since they can raise. *)

From Stdlib Require Import QArith ZArith String Ascii List Lia Lqa DecimalString.
From Stdlib Require Import Sorted Permutation.
From stdpp Require Import base list strings sorting.

Local Open Scope string_scope.
Local Open Scope Z_scope.

(** ** Exceptions and the error monad *)

Inductive exn :=
  | TypeError (msg : string)
  | ValueError (msg : string)
  | IndexError (msg : string)
  | UnboundLocalError (msg : string).

Inductive result (A : Type) :=
  | Ok (a : A)
  | Err (e : exn).
Arguments Ok {A} a.
Arguments Err {A} e.

Definition bind {A B} (m : result A) (k : A -> result B) : result B :=
  match m with
  | Ok a => k a
  | Err e => Err e
  end.

Global Instance result_fmap : FMap result := fun A B f r =>
  match r with
  | Ok a => Ok (f a)
  | Err e => Err e
  end.

Notation "'let*' x := m 'in' k" := (bind m (fun x => k))
  (at level 10, x name, m at level 100, k at level 200, only parsing).
Notation "'let*' ' p := m 'in' k" := (bind m (fun p => k))
  (at level 10, p pattern, m at level 100, k at level 200, only parsing).

(** ** Python values that occur in the arguments *)

(** An element of a band list: [None], a number or a string. *)
Inductive atom :=
  | ANone
  | ANum (q : Q)
  | AStr (s : string).

(** A value of the band table. *)
Inductive pyval :=
  | VAtom (a : atom)
  | VList (l : list atom)
  | VTuple (l : list atom).

(** A key of the band table, and an identifier of [omit_bands]. *)
Inductive pykey :=
  | KInt (z : Z)
  | KStr (s : string).

(** The [freq_bands] argument: a dict, in insertion order, or anything else. *)
Inductive pyobj :=
  | ODict (items : list (pykey * pyval))
  | OOther (v : pyval).

(** The transmitted frequency of a record. *)
Inductive pyfloat :=
  | Fin (q : Q)
  | NaN
  | Inf (negative : bool).

(** A FITACF record, with the fields the two functions read.  [gflg] is
    [None] when the record has no such key. *)
Record fitacf := {
  channel : Z;
  tfreq : pyfloat;
  gflg : option (list Z);
  time_yr : Z;
  time_mo : Z;
  time_dy : Z;
  time_hr : Z
}.

(** The [omit_bands] argument, when it is not [None]. *)
Inductive omit_arg :=
  | OmitInt (z : Z)
  | OmitList (l : list pykey)
  | OmitStr (s : string).

(** ** Operators on atoms, as Python evaluates them *)

Definition Qlt_bool (x y : Q) : bool := negb (Qle_bool y x).

Definition py_eq (a b : atom) : bool :=
  match a, b with
  | ANone, ANone => true
  | ANum x, ANum y => Qeq_bool x y
  | AStr s, AStr t => String.eqb s t
  | _, _ => false
  end.

Definition cmp_error (op : string) : exn :=
  TypeError (op ++ " not supported between instances").

Definition py_lt (a b : atom) : result bool :=
  match a, b with
  | ANum x, ANum y => Ok (Qlt_bool x y)
  | AStr s, AStr t => Ok (String.ltb s t)
  | _, _ => Err (cmp_error "'<'")
  end.

Definition py_gt (a b : atom) : result bool :=
  match a, b with
  | ANum x, ANum y => Ok (Qlt_bool y x)
  | AStr s, AStr t => Ok (String.ltb t s)
  | _, _ => Err (cmp_error "'>'")
  end.

Definition py_le (a b : atom) : result bool :=
  match a, b with
  | ANum x, ANum y => Ok (Qle_bool x y)
  | AStr s, AStr t => Ok (String.leb s t)
  | _, _ => Err (cmp_error "'<='")
  end.

Definition py_ge (a b : atom) : result bool :=
  match a, b with
  | ANum x, ANum y => Ok (Qle_bool y x)
  | AStr s, AStr t => Ok (String.leb t s)
  | _, _ => Err (cmp_error "'>='")
  end.

Definition py_add (a b : atom) : result atom :=
  match a, b with
  | ANum x, ANum y => Ok (ANum (x + y))
  | AStr s, AStr t => Ok (AStr (s ++ t))
  | _, _ => Err (TypeError "unsupported operand type(s) for +")
  end.

Definition py_sub (a b : atom) : result atom :=
  match a, b with
  | ANum x, ANum y => Ok (ANum (x - y))
  | _, _ => Err (TypeError "unsupported operand type(s) for -")
  end.

(** [a / 2] *)
Definition py_half (a : atom) : result atom :=
  match a with
  | ANum x => Ok (ANum (x / 2))
  | _ => Err (TypeError "unsupported operand type(s) for /")
  end.

(** A band is a two-element list; comparing two of them is lexicographic:
    the first position where the elements differ decides. *)
Definition band := (atom * atom)%type.

Definition band_lt (a b : band) : result bool :=
  if negb (py_eq (fst a) (fst b)) then py_lt (fst a) (fst b)
  else if negb (py_eq (snd a) (snd b)) then py_lt (snd a) (snd b)
  else Ok false.

Definition band_gt (a b : band) : result bool :=
  if negb (py_eq (fst a) (fst b)) then py_gt (fst a) (fst b)
  else if negb (py_eq (snd a) (snd b)) then py_gt (snd a) (snd b)
  else Ok false.

(** [min] and [max] of a sequence: the first extremal element is kept. *)
Fixpoint extremum_from {A} (better : A -> A -> result bool) (cur : A) (l : list A)
  : result A :=
  match l with
  | [] => Ok cur
  | x :: l' =>
      let* c := better x cur in
      extremum_from better (if c then x else cur) l'
  end.

Definition py_min {A} (lt : A -> A -> result bool) (l : list A) : result A :=
  match l with
  | [] => Err (ValueError "min() arg is an empty sequence")
  | x :: l' => extremum_from lt x l'
  end.

Definition py_max {A} (gt : A -> A -> result bool) (l : list A) : result A :=
  match l with
  | [] => Err (ValueError "max() arg is an empty sequence")
  | x :: l' => extremum_from gt x l'
  end.

(** ** [str] and [int] on keys *)

Definition py_str (k : pykey) : string :=
  match k with
  | KInt z => NilZero.string_of_int (Z.to_int z)
  | KStr s => s
  end.

(** The blanks [int] skips at both ends of an ASCII string: the space and
    the characters 9 to 13 (tab, line feed, vertical tab, form feed,
    carriage return). *)
Definition is_space (c : ascii) : bool :=
  let n := nat_of_ascii c in
  ((9 <=? n) && (n <=? 13) || (n =? 32))%nat.

Fixpoint lstrip (l : list ascii) : list ascii :=
  match l with
  | c :: l' => if is_space c then lstrip l' else l
  | [] => []
  end.

Definition strip (l : list ascii) : list ascii := rev (lstrip (rev (lstrip l))).

Definition digit_val (c : ascii) : option Z :=
  let n := nat_of_ascii c in
  if ((48 <=? n) && (n <=? 57))%nat then Some (Z.of_nat (n - 48)) else None.

(** Decimal digits, with single underscores allowed between two digits. *)
Fixpoint parse_digits (acc : Z) (after_digit : bool) (l : list ascii) : option Z :=
  match l with
  | [] => if after_digit then Some acc else None
  | c :: l' =>
      if Ascii.eqb c "_"
      then (if after_digit then parse_digits acc false l' else None)
      else match digit_val c with
           | Some d => parse_digits (10 * acc + d) true l'
           | None => None
           end
  end.

Definition int_of_str (s : string) : option Z :=
  match strip (list_ascii_of_string s) with
  | "+"%char :: l => parse_digits 0 false l
  | "-"%char :: l => Z.opp <$> parse_digits 0 false l
  | l => parse_digits 0 false l
  end.

Definition py_int (k : pykey) : result Z :=
  match k with
  | KInt z => Ok z
  | KStr s =>
      match int_of_str s with
      | Some z => Ok z
      | None => Err (ValueError "invalid literal for int() with base 10")
      end
  end.

(** ** Check Frequency Bands (lines 895-903 and 1115-1123) *)

Fixpoint check_bands (items : list (pykey * pyval)) : result (list (pykey * band)) :=
  match items with
  | [] => Ok []
  | (key, v) :: items' =>
      match v with
      | VList l =>
          match l with
          | [lo; hi] =>
              let* rest := check_bands items' in
              Ok ((key, (lo, hi)) :: rest)
          | _ => Err (TypeError "Invalid frequency band format")
          end
      | _ => Err (TypeError "Invalid frequency band format")
      end
  end.

Definition check_freq_bands (freq_bands : pyobj) : result (list (pykey * band)) :=
  match freq_bands with
  | ODict items => check_bands items
  | OOther _ => Err (TypeError "Invalid frequency bands format")
  end.

(** ** Generate Boundary (lines 909-910 and 1129-1130) *)

Definition generate_boundary (boundary : option band) (freq_bands : list (pykey * band))
  : result band :=
  match boundary with
  | Some b => Ok b
  | None =>
      let* lowest := py_min band_lt (map snd freq_bands) in
      let* lo := py_min py_lt [fst lowest; snd lowest] in
      let* highest := py_max band_gt (map snd freq_bands) in
      let* hi := py_max py_gt [fst highest; snd highest] in
      Ok (lo, hi)
  end.

(** ** Gather Bands of [plot_freq_scan_hist] (lines 916-928)

    The three lists [keys], [bands] and [bin_centers] are filled together. *)

Fixpoint gather_bands (boundary : band) (items : list (pykey * band))
  : result (list pykey * list band * list atom) :=
  match items with
  | [] => Ok ([], [], [])
  | (key, value) :: items' =>
      let* total := py_add (fst value) (snd value) in
      let* center := py_half total in
      let* below := py_le center (fst boundary) in
      let* outside := (if below then Ok true else py_ge center (snd boundary)) in
      let* '(keys, bands, bin_centers) := gather_bands boundary items' in
      if outside then Ok (keys, bands, bin_centers)
      else Ok (key :: keys, value :: bands, center :: bin_centers)
  end.

(** ** Remove Bands (lines 934-942 and 1151-1159) *)

Definition pykey_eqb (a b : pykey) : bool :=
  match a, b with
  | KInt x, KInt y => x =? y
  | KStr s, KStr t => String.eqb s t
  | _, _ => false
  end.

(** [d[k]] on a dict kept as its list of items. *)
Fixpoint dict_get {V} (k : pykey) (d : list (pykey * V)) : option V :=
  match d with
  | [] => None
  | (k', v) :: d' => if pykey_eqb k' k then Some v else dict_get k d'
  end.

(** What [for band in omit_bands] runs over, an integer having been wrapped
    in a list; a string is iterated character by character. *)
Definition omit_ids (omit_bands : omit_arg) : list pykey :=
  match omit_bands with
  | OmitInt z => [KInt z]
  | OmitList l => l
  | OmitStr s => map (fun c => KStr (String c EmptyString)) (list_ascii_of_string s)
  end.

Fixpoint lookup_bands (freq_bands : list (pykey * band)) (ids : list pykey)
  : option (list band) :=
  match ids with
  | [] => Some []
  | id :: ids' =>
      match dict_get (KStr (py_str id)) freq_bands with
      | Some v => cons v <$> lookup_bands freq_bands ids'
      | None => None
      end
  end.

Definition remove_bands (freq_bands : list (pykey * band)) (omit_bands : option omit_arg)
  : result (option (list band)) :=
  match omit_bands with
  | None => Ok None
  | Some o =>
      match lookup_bands freq_bands (omit_ids o) with
      | Some l => Ok (Some l)
      | None => Err (TypeError "Invalid frequency bands to omit")
      end
  end.

(** ** Generate Histogram of [plot_freq_scan_hist] (lines 948-985) *)

(** [band[0] <= freq <= band[1]] *)
Definition between (b : band) (freq : Q) : result bool :=
  let* c := py_le (fst b) (ANum freq) in
  if c then py_le (ANum freq) (snd b) else Ok false.

(** [any(band[0] <= freq <= band[1] for band in remove_bands)] *)
Fixpoint any_between (freq : Q) (l : list band) : result bool :=
  match l with
  | [] => Ok false
  | b :: l' =>
      let* c := between b freq in
      if c then Ok true else any_between freq l'
  end.

(** [freq <= boundary[0] or freq >= boundary[1]] *)
Definition out_of_range (boundary : band) (freq : Q) : result bool :=
  let* below := py_le (ANum freq) (fst boundary) in
  if below then Ok true else py_ge (ANum freq) (snd boundary).

(** The loop over [gflg] that counts the ionospheric scatter points. *)
Definition count_ionospheric (g : list Z) : nat :=
  fold_left (fun num_pts flag => if flag =? 0 then S num_pts else num_pts) g 0%nat.

(** The loop over [bands] that stops at the first band holding [freq]. *)
Fixpoint find_band (freq : Q) (bands : list band) (i : nat) : result (option nat) :=
  match bands with
  | [] => Ok None
  | b :: bands' =>
      let* c := between b freq in
      if c then Ok (Some i) else find_band freq bands' (S i)
  end.

(** The filters shared by the two functions, up to the count of the record:
    [None] stands for [continue]. *)
Definition sample (boundary : band) (remove : option (list band)) (r : fitacf)
  : result (option (Q * nat)) :=
  if negb (channel r =? 2) then Ok None
  else match tfreq r with
       | NaN | Inf _ => Ok None
       | Fin freq =>
           let* out := out_of_range boundary freq in
           if out then Ok None
           else
             let* omitted := match remove with
                             | None => Ok false
                             | Some rb => any_between freq rb
                             end in
             if omitted then Ok None
             else match gflg r with
                  | None => Ok None
                  | Some g => Ok (Some (freq, count_ionospheric g))
                  end
       end.

(** One iteration of the loop over [data]. *)
Definition hist_step (boundary : band) (remove : option (list band)) (bands : list band)
    (hist : list nat) (r : fitacf) : result (list nat) :=
  let* s := sample boundary remove r in
  match s with
  | None => Ok hist
  | Some (freq, num_pts) =>
      let* owner := find_band freq bands 0 in
      match owner with
      | Some i => Ok (alter (fun c => (c + num_pts)%nat) i hist)
      | None => Ok hist
      end
  end.

Fixpoint for_each {S A} (step : S -> A -> result S) (s : S) (l : list A) : result S :=
  match l with
  | [] => Ok s
  | a :: l' =>
      let* s' := step s a in
      for_each step s' l'
  end.

Definition generate_hist (boundary : band) (remove : option (list band))
    (bands : list band) (data : list fitacf) : result (list nat) :=
  for_each (hist_step boundary remove bands) (replicate (length bands) 0%nat) data.

(** ** Ordered Frequency Bands (lines 991-995 and 1262-1267) *)

(** [np.argsort]: the indices of the array, ordered by ascending value.
    NumPy leaves the order of equal values to its sorting routine, which
    differs from one platform to another; this definition is one of the
    orders it may give, the one where equal values keep the order of their
    indices.  Nothing proved below depends on that choice: the general
    statements about the ranked list say that it holds every band once, by
    descending count, and the lists written out in full have counts that
    are all different. *)
Fixpoint insert_index (value : nat -> nat) (i : nat) (l : list nat) : list nat :=
  match l with
  | [] => [i]
  | j :: l' =>
      if (value i <? value j)%nat then i :: j :: l'
      else j :: insert_index value i l'
  end.

Definition argsort (a : list nat) : list nat :=
  fold_left (fun sorted i => insert_index (fun k => nth k a 0%nat) i sorted)
            (seq 0 (length a)) [].

Record band_entry := {
  Band : Z;
  Freq_Range : band;
  Count : Z
}.

Definition index_error : exn := IndexError "list index out of range".

Fixpoint entries (bands : list band) (totals : list nat) (ordered_keys : list nat)
  : result (list band_entry) :=
  match ordered_keys with
  | [] => Ok []
  | i :: rest =>
      match bands !! i, totals !! i with
      | Some b, Some c =>
          let* tail := entries bands totals rest in
          Ok ({| Band := Z.of_nat i; Freq_Range := b; Count := Z.of_nat c |} :: tail)
      | _, _ => Err index_error
      end
  end.

Definition ordered_bands (bands : list band) (totals : list nat) : result (list band_entry) :=
  entries bands totals (rev (argsort totals)).

(** ** Normalize of [plot_freq_scan_hist] (lines 1001-1002) *)

Definition of_count (c : nat) : Q := inject_Z (Z.of_nat c).

Definition normalize_hist (normalize : bool) (hist : list nat) : list Q :=
  if normalize && negb (sum_list hist =? 0)%nat
  then map (fun c => (of_count c / of_count (sum_list hist))%Q) hist
  else map of_count hist.

(** ** Dates

    [datetime] objects, as the titles and the time buckets build them. *)

Record datetime := {
  year : Z;
  month : Z;
  day : Z;
  hour : Z
}.

Definition datetime_eqb (a b : datetime) : bool :=
  (year a =? year b) && (month a =? month b) && (day a =? day b) && (hour a =? hour b).

Definition is_leap (y : Z) : bool :=
  (y mod 4 =? 0) && (negb (y mod 100 =? 0) || (y mod 400 =? 0)).

Definition days_in_month (y m : Z) : Z :=
  if m =? 2 then (if is_leap y then 29 else 28)
  else if (m =? 4) || (m =? 6) || (m =? 9) || (m =? 11) then 30
  else 31.

(** The constructor [datetime(year, month, day, hour)], with its range
    checks. *)
Definition py_datetime (y m d h : Z) : result datetime :=
  if negb ((1 <=? y) && (y <=? 9999)) then Err (ValueError "year is out of range")
  else if negb ((1 <=? m) && (m <=? 12)) then Err (ValueError "month must be in 1..12")
  else if negb ((1 <=? d) && (d <=? days_in_month y m))
       then Err (ValueError "day is out of range for month")
  else if negb ((0 <=? h) && (h <=? 23)) then Err (ValueError "hour must be in 0..23")
  else Ok {| year := y; month := m; day := d; hour := h |}.

(** ** Plot Histogram and titles of [plot_freq_scan_hist] (lines 1008-1047) *)

Definition first_item {A} (l : list A) : result A :=
  match l with
  | x :: _ => Ok x
  | [] => Err index_error
  end.

(** [l[-1]] *)
Definition last_item {A} (l : list A) : result A :=
  match last l with
  | Some x => Ok x
  | None => Err index_error
  end.

(** The start and end dates of the title, from the first and the last
    record: year and month (lines 1020-1022, 1315-1316 and 1333-1334). *)
Definition month_titles (data : list fitacf) : result unit :=
  let* first := first_item data in
  let* _ := py_datetime (time_yr first) (time_mo first) 1 0 in
  let* final := last_item data in
  let* _ := py_datetime (time_yr final) (time_mo final) 1 0 in
  Ok tt.

(** What [ax.bar] and [ax.bar_label] receive. *)
Record bar_chart := {
  bar_x : list atom;
  bar_height : list Q;
  bar_width : atom;
  bar_red : Z;
  bar_labels : option (list (option pykey))
}.

Definition plot_freq_scan_hist (data : list fitacf) (freq_bands : pyobj)
    (normalize : bool) (boundary : option band) (omit_bands : option omit_arg)
    (show_txt : bool) : result (bar_chart * list band_entry) :=
  let* table := check_freq_bands freq_bands in
  let* boundary := generate_boundary boundary table in
  let* '(keys, bands, bin_centers) := gather_bands boundary table in
  let* remove := remove_bands table omit_bands in
  let* hist := generate_hist boundary remove bands data in
  let* ranked := ordered_bands bands hist in
  let heights := normalize_hist normalize hist in
  let* widest := py_max band_gt bands in
  let* width := py_sub (snd widest) (fst widest) in
  let* best := first_item ranked in
  let* _ := month_titles data in
  let labels := zip_with (fun h key => if Qlt_bool 0 h then Some key else None)
                         heights keys in
  Ok ({| bar_x := bin_centers; bar_height := heights; bar_width := width;
         bar_red := Band best;
         bar_labels := if show_txt then Some labels else None |},
      ranked).

(** ** Gather Bands of [plot_freq_scan_2d_hist] (lines 1136-1145) *)

Fixpoint gather_bands_2d (boundary : band) (items : list (pykey * band))
  : result (list Z * list band) :=
  match items with
  | [] => Ok ([], [])
  | (key, value) :: items' =>
      let* below := py_lt (fst value) (fst boundary) in
      let* outside := (if below then Ok true else py_gt (snd value) (snd boundary)) in
      if outside then gather_bands_2d boundary items'
      else
        let* k := py_int key in
        let* '(keys, bands) := gather_bands_2d boundary items' in
        Ok (k :: keys, value :: bands)
  end.

(** ** Gather Dates (lines 1165-1189) *)

Definition unbound_date : exn :=
  UnboundLocalError "cannot access local variable 'date'".

(** The local variable [date] lives across iterations and across the two
    loops: it is [None] until its first assignment. *)
Definition use_date (date : option datetime) : result datetime :=
  match date with
  | Some d => Ok d
  | None => Err unbound_date
  end.

(** The [if]/[elif] chain of the first loop, with its [else: raise]. *)
Definition assign_date (date_bin : string) (r : fitacf) (date : option datetime)
  : result (option datetime) :=
  if String.eqb date_bin "year" then
    let* d := py_datetime (time_yr r) 1 1 0 in Ok (Some d)
  else if String.eqb date_bin "month" then
    let* d := py_datetime 1 (time_mo r) 1 0 in Ok (Some d)
  else if String.eqb date_bin "day" then
    let* d := py_datetime (time_yr r) (time_mo r) (time_dy r) 0 in Ok (Some d)
  else if String.eqb date_bin "hour" then
    if time_hr r mod 2 =? 0 then
      let* d := py_datetime 1 1 1 (time_hr r) in Ok (Some d)
    else Ok date
  else Err (ValueError ("Invalid date bin type: " ++ date_bin)).

Definition dates_step (date_bin : string) (st : list datetime * option datetime)
    (r : fitacf) : result (list datetime * option datetime) :=
  if negb (channel r =? 2) then Ok st
  else
    let* date := assign_date date_bin r (snd st) in
    let* d := use_date date in
    if existsb (datetime_eqb d) (fst st) then Ok (fst st, date)
    else Ok ((fst st ++ [d])%list, date).

Definition gather_dates (date_bin : string) (data : list fitacf)
  : result (list datetime * option datetime) :=
  for_each (dates_step date_bin) ([], None) data.

(** ** Generate Histogram of [plot_freq_scan_2d_hist] (lines 1195-1256) *)

(** The [if]/[elif] chain of the second loop, which has no [else]. *)
Definition reassign_date (date_bin : string) (r : fitacf) (date : option datetime)
  : result (option datetime) :=
  if String.eqb date_bin "year" then
    let* d := py_datetime (time_yr r) 1 1 0 in Ok (Some d)
  else if String.eqb date_bin "month" then
    let* d := py_datetime 1 (time_mo r) 1 0 in Ok (Some d)
  else if String.eqb date_bin "day" then
    let* d := py_datetime (time_yr r) (time_mo r) (time_dy r) 0 in Ok (Some d)
  else if String.eqb date_bin "hour" then
    if time_hr r mod 2 =? 0 then
      let* d := py_datetime 1 1 1 (time_hr r) in Ok (Some d)
    else Ok date
  else Ok date.

(** [dates.index(date)] *)
Fixpoint index_of (d : datetime) (dates : list datetime) (i : nat) : result nat :=
  match dates with
  | [] => Err (ValueError "datetime is not in list")
  | d' :: dates' => if datetime_eqb d' d then Ok i else index_of d dates' (S i)
  end.

Definition hist2d_step (date_bin : string) (boundary : band)
    (remove : option (list band)) (bands : list band) (dates : list datetime)
    (st : list (list nat) * option datetime) (r : fitacf)
  : result (list (list nat) * option datetime) :=
  let* s := sample boundary remove r in
  match s with
  | None => Ok st
  | Some (freq, num_pts) =>
      let* band_index := find_band freq bands 0 in
      match band_index with
      | None => Ok st
      | Some bi =>
          let* date := reassign_date date_bin r (snd st) in
          let* d := use_date date in
          let* date_index := index_of d dates 0 in
          Ok (alter (alter (fun c => (c + num_pts)%nat) date_index) bi (fst st), date)
      end
  end.

Definition generate_hist2d (date_bin : string) (boundary : band)
    (remove : option (list band)) (bands : list band) (dates : list datetime)
    (date : option datetime) (data : list fitacf)
  : result (list (list nat) * option datetime) :=
  for_each (hist2d_step date_bin boundary remove bands dates)
           (replicate (length bands) (replicate (length dates) 0%nat), date) data.

(** ** Normalize Columns (lines 1273-1278) *)

Definition Qsum (l : list Q) : Q := fold_left Qplus l 0%Q.

(** [hist2d[:, column]] *)
Definition column_of (m : list (list Q)) (column : nat) : list Q :=
  map (fun row => nth column row 0%Q) m.

Definition normalize_column (m : list (list Q)) (column : nat) : list (list Q) :=
  let column_sum := Qsum (column_of m column) in
  if Qlt_bool 0 column_sum
  then map (alter (fun x => (x / column_sum)%Q) column) m
  else m.

Definition normalize_columns (normalize : bool) (ncols : nat) (m : list (list Q))
  : list (list Q) :=
  if normalize then fold_left normalize_column (seq 0 ncols) m else m.

(** ** Color Map (lines 1284-1291)

    The cells under the display threshold are replaced by NaN, which the
    colormap draws in white. *)

(** [hist2d[hist2d > 0]]: the positive cells, row after row. *)
Definition positive_cells (m : list (list Q)) : list Q :=
  List.filter (Qlt_bool 0) (concat m).

Fixpoint insert_cell (x : Q) (l : list Q) : list Q :=
  match l with
  | [] => [x]
  | y :: l' => if Qle_bool x y then x :: y :: l' else y :: insert_cell x l'
  end.

Definition sort_cells (l : list Q) : list Q := fold_right insert_cell [] l.

(** [np.percentile(a, 0.5)] with its default linear interpolation, for an
    array that is not empty: the position [(n - 1) * 0.5 / 100] in the
    sorted array, between the element below it and the next one. *)
Definition percentile_half (a : list Q) : Q :=
  let sorted := sort_cells a in
  let last_index := Z.of_nat (length a) - 1 in
  let below := Z.to_nat (last_index / 200) in
  let above := Nat.min (S below) (length a - 1) in
  let gamma := ((last_index mod 200) # 200)%Q in
  (nth below sorted 0 + gamma * (nth above sorted 0 - nth below sorted 0))%Q.

Definition color_map (m : list (list Q)) : list (list pyfloat) :=
  match positive_cells m with
  | _ :: _ =>
      let threshold := percentile_half (positive_cells m) in
      map (map (fun x => if Qlt_bool x threshold then NaN else Fin x)) m
  | [] => map (map (fun x => if Qeq_bool x 0 then NaN else Fin x)) m
  end.

(** ** The rest of [plot_freq_scan_2d_hist] (lines 1293-1395)

    What [ax.imshow] and the tick labels receive; the colormap is taken
    to be a valid one. *)
Record heat_map := {
  image : list (list pyfloat);
  xticks : list datetime;
  yticks : list Z
}.

(** Format Dates (lines 1305-1339): the start and end dates of the title;
    an unknown [date_bin] takes no branch. *)
Definition format_dates (date_bin : string) (data : list fitacf) : result unit :=
  if String.eqb date_bin "year" then
    let* first := first_item data in
    let* _ := py_datetime (time_yr first) 1 1 0 in
    let* final := last_item data in
    let* _ := py_datetime (time_yr final) 1 1 0 in
    Ok tt
  else if String.eqb date_bin "month" then month_titles data
  else if String.eqb date_bin "day" then
    let* first := first_item data in
    let* _ := py_datetime (time_yr first) (time_mo first) (time_dy first) 0 in
    let* final := last_item data in
    let* _ := py_datetime (time_yr final) (time_mo final) (time_dy final) 0 in
    Ok tt
  else if String.eqb date_bin "hour" then month_titles data
  else Ok tt.

Definition known_date_bin (date_bin : string) : bool :=
  String.eqb date_bin "year" || String.eqb date_bin "month"
  || String.eqb date_bin "day" || String.eqb date_bin "hour".

Definition plot_freq_scan_2d_hist (data : list fitacf) (freq_bands : pyobj)
    (date_bin : string) (normalize : bool) (boundary : option band)
    (omit_bands : option omit_arg) (show_txt : bool)
  : result (heat_map * list band_entry) :=
  let* table := check_freq_bands freq_bands in
  let* boundary := generate_boundary boundary table in
  let* '(keys, bands) := gather_bands_2d boundary table in
  let* remove := remove_bands table omit_bands in
  let* '(dates, date) := gather_dates date_bin data in
  let* '(hist2d, _) := generate_hist2d date_bin boundary remove bands dates date data in
  let band_sums := map sum_list hist2d in
  let* ranked := ordered_bands bands band_sums in
  let img := color_map (normalize_columns normalize (length dates)
                                          (map (map of_count) hist2d)) in
  let* _ := format_dates date_bin data in
  let* _ := first_item data in
  let* _ := (if known_date_bin date_bin then Ok tt
             else Err (UnboundLocalError "cannot access local variable 'start_date'")) in
  let* _ := (if show_txt then let* _ := first_item ranked in Ok tt else Ok tt) in
  Ok ({| image := img; xticks := dates; yticks := keys |}, ranked).

(** * Numeric band tables and the contract of the extractor

    The data model of the specification: a band table whose values are
    pairs of numbers, a numeric boundary, numeric omitted intervals.  The
    definitions of this part follow the words of the specification
    ([contribution], [owner], [credit], [band_total]) or restate a function
    of the source on numbers alone ([qband_lt], [default_boundary],
    [lookup_intervals]); the properties below compare them with the
    functions above, which follow the source. *)

Definition qband := (Q * Q)%type.

Definition nband (v : qband) : band := (ANum v.1, ANum v.2).

Definition nvalue (v : qband) : pyval := VList [ANum v.1; ANum v.2].

Definition ntable (tb : list (pykey * qband)) : list (pykey * band) :=
  map (fun kv => (kv.1, nband kv.2)) tb.

(** The dict [{key: [low, high], ...}]. *)
Definition dict_of (tb : list (pykey * qband)) : pyobj :=
  ODict (map (fun kv => (kv.1, nvalue kv.2)) tb).

(** [low <= f <= high] *)
Definition holds (v : qband) (f : Q) : bool := Qle_bool v.1 f && Qle_bool f v.2.

(** [low < x < high] *)
Definition strictly_inside (b : qband) (x : Q) : bool := Qlt_bool b.1 x && Qlt_bool x b.2.

Definition center (v : qband) : Q := ((v.1 + v.2) / 2)%Q.

(** [boundary.low <= low] and [high <= boundary.high] *)
Definition within (b v : qband) : bool := Qle_bool b.1 v.1 && Qle_bool v.2 b.2.

(** The number of positions where [gflg == 0]. *)
Definition zeros (g : list Z) : nat := length (filter (fun flag => flag = 0) g).

(** The first band, in list order, whose closed interval holds [f]. *)
Fixpoint owner (bands : list qband) (f : Q) : option nat :=
  match bands with
  | [] => None
  | v :: bands' => if holds v f then Some 0%nat else S <$> owner bands' f
  end.

(** A record takes part when its channel is 2, its frequency is a finite
    number strictly inside the boundary and inside no omitted interval, and
    it has a [gflg] sequence; it then brings its frequency and the number
    of its ionospheric points. *)
Definition contribution (b : qband) (omitted : list qband) (r : fitacf)
  : option (Q * nat) :=
  if channel r =? 2 then
    match tfreq r, gflg r with
    | Fin f, Some g =>
        if strictly_inside b f && negb (existsb (fun v => holds v f) omitted)
        then Some (f, zeros g) else None
    | _, _ => None
    end
  else None.

(** What a record adds to the accumulator of the band of index [i]. *)
Definition credit (b : qband) (omitted : list qband) (bands : list qband)
    (i : nat) (r : fitacf) : nat :=
  match contribution b omitted r with
  | Some (f, n) => if decide (owner bands f = Some i) then n else 0%nat
  | None => 0%nat
  end.

Definition band_total (b : qband) (omitted : list qband) (bands : list qband)
    (data : list fitacf) (i : nat) : nat :=
  sum_list (map (credit b omitted bands i) data).

Definition expected_hist (b : qband) (omitted : list qband) (bands : list qband)
    (data : list fitacf) : list nat :=
  map (band_total b omitted bands data) (seq 0 (length bands)).

(** No ionospheric point of the record reaches a band: the record does not
    take part, or it has no position with [gflg == 0], or no band of the
    list holds its frequency. *)
Definition no_sample (b : qband) (omitted : list qband) (bands : list qband)
    (r : fitacf) : Prop :=
  match contribution b omitted r with
  | Some (f, n) => n = 0%nat \/ owner bands f = None
  | None => True
  end.

(** [remove_bands] once resolved, and the intervals it stands for. *)
Definition nremove (omitted : option (list qband)) : option (list band) :=
  map nband <$> omitted.

Definition omitted_of (omitted : option (list qband)) : list qband :=
  default [] omitted.

(** [int(key)] over a list of keys, in order. *)
Fixpoint int_keys (keys : list pykey) : result (list Z) :=
  match keys with
  | [] => Ok []
  | key :: keys' =>
      let* k := py_int key in
      let* ks := int_keys keys' in
      Ok (k :: ks)
  end.

(** [m[i, j]], when the cell exists. *)
Definition cell {A} (m : list (list A)) (i j : nat) : option A :=
  match m !! i with
  | Some row => row !! j
  | None => None
  end.

(** A cell of column [j] divided by the sum of the column, unless that sum
    is not positive. *)
Definition scaled (m : list (list Q)) (j : nat) (x : Q) : Q :=
  if Qlt_bool 0 (Qsum (column_of m j)) then (x / Qsum (column_of m j))%Q else x.

(** The sum of column [j] of a matrix of counts. *)
Definition column_count (h : list (list nat)) (j : nat) : nat :=
  sum_list (map (fun row => nth j row 0%nat) h).

(** The default boundary on a numeric table: the comparisons of
    [generate_boundary] on pairs of numbers. *)
Definition qband_lt (a b : qband) : bool :=
  if negb (Qeq_bool a.1 b.1) then Qlt_bool a.1 b.1
  else if negb (Qeq_bool a.2 b.2) then Qlt_bool a.2 b.2
  else false.

Definition qband_gt (a b : qband) : bool :=
  if negb (Qeq_bool a.1 b.1) then Qlt_bool b.1 a.1
  else if negb (Qeq_bool a.2 b.2) then Qlt_bool b.2 a.2
  else false.

Definition pick (better : qband -> qband -> bool) (cur : qband) (l : list qband) : qband :=
  fold_left (fun cur x => if better x cur then x else cur) l cur.

Definition default_boundary (v : qband) (l : list qband) : qband :=
  let lowest := pick qband_lt v l in
  let highest := pick qband_gt v l in
  (if Qlt_bool lowest.2 lowest.1 then lowest.2 else lowest.1,
   if Qlt_bool highest.1 highest.2 then highest.2 else highest.1).

(** The order in which Python compares two bands. *)
Definition lex_le (x y : qband) : Prop :=
  (x.1 < y.1)%Q \/ ((x.1 == y.1)%Q /\ (x.2 <= y.2)%Q).

Definition boundary_of (boundary : option qband) (tb : list (pykey * qband)) : qband :=
  match boundary with
  | Some b => b
  | None =>
      match map snd tb with
      | v :: l => default_boundary v l
      | [] => (0%Q, 0%Q)
      end
  end.

(** The intervals of the omitted identifiers on a numeric table; the outer
    [None] stands for an identifier that is not a key. *)
Fixpoint lookup_intervals (tb : list (pykey * qband)) (ids : list pykey)
  : option (list qband) :=
  match ids with
  | [] => Some []
  | id :: ids' =>
      match dict_get (KStr (py_str id)) tb with
      | Some v => cons v <$> lookup_intervals tb ids'
      | None => None
      end
  end.

Definition resolved (tb : list (pykey * qband)) (omit_bands : option omit_arg)
  : option (option (list qband)) :=
  match omit_bands with
  | None => Some None
  | Some o => Some <$> lookup_intervals tb (omit_ids o)
  end.

(** A table whose keys are integers. *)
Definition int_keyed (tb : list (Z * qband)) : list (pykey * qband) :=
  map (fun kv => (KInt kv.1, kv.2)) tb.

(** What the validation accepts: a dict whose values are lists of two
    elements. *)
Definition two_element_list (v : pyval) : bool :=
  match v with
  | VList [_; _] => true
  | _ => false
  end.

Definition accepted (freq_bands : pyobj) : bool :=
  match freq_bands with
  | ODict items => forallb (fun kv => two_element_list kv.2) items
  | OOther _ => false
  end.

Definition format_error (freq_bands : pyobj) : exn :=
  match freq_bands with
  | ODict _ => TypeError "Invalid frequency band format"
  | OOther _ => TypeError "Invalid frequency bands format"
  end.

(** A two-element numeric sequence, in the words of the specification. *)
Definition numeric_pair (v : pyval) : bool :=
  match v with
  | VList [ANum _; ANum _] | VTuple [ANum _; ANum _] => true
  | _ => false
  end.

(** The entry of the ranked list for the band of index [i]. *)
Definition entry_of (bands : list band) (totals : list nat) (i : nat) : band_entry :=
  {| Band := Z.of_nat i;
     Freq_Range := nth i bands (ANone, ANone);
     Count := Z.of_nat (nth i totals 0%nat) |}.

(** One entry for each band of a list of kept bands, with its position,
    its frequency range and the count 0. *)
Definition empty_entries (kept : list (pykey * qband)) : list band_entry :=
  imap (fun i kv => {| Band := Z.of_nat i; Freq_Range := nband kv.2; Count := 0 |}) kept.

(** The value of the variable [date] is one of the collected dates. *)
Definition known (dates : list datetime) (date : option datetime) : Prop :=
  exists d, date = Some d /\ d ∈ dates.

(** What the second loop does to [date] at a record: it assigns a
    collected date, or it leaves the variable as it is. *)
Definition settles (date_bin : string) (dates : list datetime) (r : fitacf) : Prop :=
  (exists d, d ∈ dates /\ forall date, reassign_date date_bin r date = Ok (Some d))
  \/ (forall date, reassign_date date_bin r date = Ok date).

(** The invariant of the second loop of [plot_freq_scan_2d_hist]: the
    matrix keeps its shape, the variable [date] is still the one left by
    the first loop or a collected date, and each row sums to the credits
    of its band. *)
Definition hist2d_inv (b : qband) (omitted : option (list qband)) (bands : list qband)
    (dates : list datetime) (date0 : option datetime)
    (seen : list fitacf) (st : list (list nat) * option datetime) : Prop :=
  length st.1 = length bands
  /\ Forall (fun row => length row = length dates) st.1
  /\ (st.2 = date0 \/ known dates st.2)
  /\ forall i, (i < length bands)%nat ->
       sum_list <$> st.1 !! i = Some (band_total b (omitted_of omitted) bands seen i).

(** The value a call returns, and what it draws. *)
Definition returned {A B} (r : result (A * B)) : result B :=
  let* out := r in Ok out.2.

Definition drawn {A B} (r : result (A * B)) : result A :=
  let* out := r in Ok out.1.

(** ** Sample inputs *)

Definition khz (low high : Z) : qband := (inject_Z low, inject_Z high).

(** A record of 17 May 2024 with a finite [tfreq] and a [gflg] list. *)
Definition record_at (ch : Z) (freq : Z) (flags : list Z) (hr : Z) : fitacf :=
  {| channel := ch; tfreq := Fin (inject_Z freq); gflg := Some flags;
     time_yr := 2024; time_mo := 5; time_dy := 17; time_hr := hr |}.

(** [{'0': [8000, 10000], '1': [10000, 12000], '2': [12000, 14000]}] *)
Definition three_bands : list (pykey * qband) :=
  [(KStr "0", khz 8000 10000); (KStr "1", khz 10000 12000); (KStr "2", khz 12000 14000)].

(** [{'0': [8000, 10000]}] *)
Definition one_band : list (pykey * qband) := [(KStr "0", khz 8000 10000)].

(** [{'5': [8000, 10000], '7': [10000, 12000]}] *)
Definition bands_5_7 : list (pykey * qband) :=
  [(KStr "5", khz 8000 10000); (KStr "7", khz 10000 12000)].

(** [{'0': [8000, 12000], '1': [9000, 10000]}]: the second band lies inside
    the first. *)
Definition nested_bands : list (pykey * qband) :=
  [(KStr "0", khz 8000 12000); (KStr "1", khz 9000 10000)].

(** [{0: [8000, 10000], 1: [10000, 12000]}], with integer keys. *)
Definition int_bands : list (Z * qband) := [(0, khz 8000 10000); (1, khz 10000 12000)].

(** [{'0': ['a', 'b']}] *)
Definition letter_bands : pyobj := ODict [(KStr "0", VList [AStr "a"; AStr "b"])].

(** [{'0': [8000, 10000], '1': [10000, 12000, 14000]}] *)
Definition triple_bands : pyobj :=
  ODict [(KStr "0", nvalue (khz 8000 10000));
         (KStr "1", VList [ANum 10000; ANum 12000; ANum 14000])].

Definition three_records : list fitacf :=
  [record_at 2 9000 [0; 0; 1] 14; record_at 2 11000 [0] 16; record_at 2 13000 [0; 0; 0] 18].

(** A record of channel 2 at 14 h whose [tfreq] is NaN. *)
Definition nan_record : fitacf :=
  {| channel := 2; tfreq := NaN; gflg := Some [0];
     time_yr := 2024; time_mo := 5; time_dy := 17; time_hr := 14 |}.

Definition at_hour (h : Z) : datetime := {| year := 1; month := 1; day := 1; hour := h |}.

(** * Records of vector fields

    [plot_vector_hist] and [plot_2d_hist] of histogram.py,
    [plot_range_scatter] of scatter.py and [filter_fitacf_gates] of
    filter.py read the records key by key. *)

(** A value of a record: an integer scalar, a one-dimensional NumPy array
    of numbers, or a Python list of numbers. *)
Inductive pyfield :=
  | Scalar (z : Z)
  | Array (a : list pyfloat)
  | Listed (l : list pyfloat).

Module Scan.
(** A record as pyDARN reads it.  Of the keys the functions name, [bmnum]
    is an integer and [slist] and [gflg] are arrays of integers; each is
    [None] when the record has no such key.  [fields] holds the other
    keys, in the order of the dict. *)
Record t := make {
  bmnum : option Z;
  slist : option (list Z);
  gflg : option (list Z);
  fields : list (pykey * pyfield)
}.
End Scan.

Definition of_int (z : Z) : pyfloat := Fin (inject_Z z).

(** [data[i][key]], [None] when [key not in data[i]]. *)
Definition item (key : string) (r : Scan.t) : option pyfield :=
  if String.eqb key "bmnum" then Scalar <$> Scan.bmnum r
  else if String.eqb key "slist" then (fun l => Array (map of_int l)) <$> Scan.slist r
  else if String.eqb key "gflg" then (fun l => Array (map of_int l)) <$> Scan.gflg r
  else dict_get (KStr key) (Scan.fields r).

(** The exceptions of these functions: [KeyError], which they also catch,
    and the others. *)
Inductive raised :=
  | KeyError (msg : string)
  | Raised (e : exn).

Inductive outcome (A : Type) :=
  | Returns (a : A)
  | Raises (e : raised).
Arguments Returns {A} a.
Arguments Raises {A} e.

Definition and_then {A B} (m : outcome A) (k : A -> outcome B) : outcome B :=
  match m with
  | Returns a => k a
  | Raises e => Raises e
  end.

Notation "'let+' x := m 'in' k" := (and_then m (fun x => k))
  (at level 10, x name, m at level 100, k at level 200, only parsing).

(** The texts of these two messages are abridged: NumPy and Python name
    the type and the index. *)
Definition no_len : exn := TypeError "object has no len()".
Definition out_of_bounds : exn := IndexError "index is out of bounds".

(** ** Check Parameter (lines 142-150, 652-660; scatter.py 66-74) *)

(** [parameter in data[i] and type(data[i][parameter]) is np.ndarray] *)
Definition is_array (f : option pyfield) : bool :=
  match f with
  | Some (Array _) => true
  | _ => false
  end.

Definition check_parameter (parameter : string) (data : list Scan.t) : outcome unit :=
  if existsb (fun r => is_array (item parameter r)) data then Returns tt
  else Raises (KeyError ("Unknown vector feild parameter: " ++ parameter)).

(** ** Check Ground Scatter (lines 156-173, 666-683; scatter.py 80-97) *)

Definition py_len (f : pyfield) : result nat :=
  match f with
  | Scalar _ => Err no_len
  | Array a => Ok (length a)
  | Listed l => Ok (length l)
  end.

(** The body of the [try] of the second loop. *)
Definition compare_lengths (parameter : string) (r : Scan.t) : outcome unit :=
  match item parameter r with
  | None => Raises (KeyError parameter)
  | Some f =>
      match py_len f with
      | Err e => Raises (Raised e)
      | Ok n =>
          match Scan.gflg r with
          | None => Raises (KeyError "gflg")
          | Some g =>
              if negb (n =? length g)%nat
              then Raises (KeyError ("Ground scatter unavailable for parameter: "
                                     ++ parameter))
              else Returns tt
          end
      end
  end.

(** [try: ... except KeyError: continue], for a body that changes nothing. *)
Definition except_key_error (body : outcome unit) : result unit :=
  match body with
  | Returns _ => Ok tt
  | Raises (KeyError _) => Ok tt
  | Raises (Raised e) => Err e
  end.

Definition check_lengths (parameter : string) (data : list Scan.t) : result unit :=
  for_each (fun _ r => except_key_error (compare_lengths parameter r)) tt data.

Definition check_ground_scatter (parameter : string) (data : list Scan.t) : outcome unit :=
  if existsb (fun r => bool_decide (is_Some (Scan.gflg r))) data then
    match check_lengths parameter data with
    | Ok _ => Returns tt
    | Err e => Raises (Raised e)
    end
  else Raises (KeyError "Ground scatter unavailable").

(** ** Check Beam and Gate Number (lines 179-180, 689-690; scatter.py 103-104) *)

(** The [beam_num] and [gate_num] arguments: an int or a str. *)
Inductive selector :=
  | SelInt (n : Z)
  | SelStr (s : string).

(** [sel in range(0, stop)] *)
Definition in_range (sel : selector) (stop : Z) : bool :=
  match sel with
  | SelInt n => (0 <=? n) && (n <? stop)
  | SelStr _ => false
  end.

(** [sel == 'all'] *)
Definition is_all (sel : selector) : bool :=
  match sel with
  | SelInt _ => false
  | SelStr s => String.eqb s "all"
  end.

Definition check_beam_gate (beam_num gate_num : selector) : outcome unit :=
  if (negb (in_range beam_num 16) && negb (is_all beam_num))
     || (negb (in_range gate_num 75) && negb (is_all gate_num))
  then Raises (Raised (ValueError "Beam or gate number invalid"))
  else Returns tt.

Definition check_beam (beam_num : selector) : outcome unit :=
  if negb (in_range beam_num 16) && negb (is_all beam_num)
  then Raises (Raised (ValueError "Beam number invalid"))
  else Returns tt.

(** ** Gather Data of [plot_vector_hist] (lines 186-209) *)

(** [sel != z], for an integer [z] of the record. *)
Definition differs (sel : selector) (z : Z) : bool :=
  match sel with
  | SelInt n => negb (n =? z)
  | SelStr _ => true
  end.

(** [not (np.isnan(value) or np.isinf(value))] *)
Definition is_finite (value : pyfloat) : bool :=
  match value with
  | Fin _ => true
  | _ => false
  end.

(** [beam_num != 'all' and beam_num != data[i]['bmnum']] *)
Definition other_beam (beam_num : selector) (r : Scan.t) : outcome bool :=
  if is_all beam_num then Returns false
  else match Scan.bmnum r with
       | None => Raises (KeyError "bmnum")
       | Some beam => Returns (differs beam_num beam)
       end.

(** [gate_num != 'all' and gate_num != data[i]['slist'][j]] *)
Definition other_gate (gate_num : selector) (r : Scan.t) (j : nat) : outcome bool :=
  if is_all gate_num then Returns false
  else match Scan.slist r with
       | None => Raises (KeyError "slist")
       | Some l =>
           match l !! j with
           | None => Raises (Raised out_of_bounds)
           | Some gate => Returns (differs gate_num gate)
           end
       end.

(** [groundscatter and data[i]['gflg'][j] == 1] *)
Definition flagged (groundscatter : bool) (r : Scan.t) (j : nat) : outcome bool :=
  if groundscatter then
    match Scan.gflg r with
    | None => Raises (KeyError "gflg")
    | Some g =>
        match g !! j with
        | None => Raises (Raised out_of_bounds)
        | Some flag => Returns (flag =? 1)
        end
    end
  else Returns false.

(** The lists [vals] and [vals_gs]. *)
Definition points : Type := list pyfloat * list pyfloat.

(** The loop over [j], from index [j] on, [values] being what is left of
    [data[i][parameter]].  The lists are appended to in place: the loop
    gives them as it leaves them, with the exception that stopped it, if
    any. *)
Fixpoint gather_values (groundscatter : bool) (gate_num : selector) (r : Scan.t)
    (values : list pyfloat) (j : nat) (st : points) : points * option raised :=
  match values with
  | [] => (st, None)
  | value :: rest =>
      match other_gate gate_num r j with
      | Raises e => (st, Some e)
      | Returns true => gather_values groundscatter gate_num r rest (S j) st
      | Returns false =>
          if negb (is_finite value)
          then gather_values groundscatter gate_num r rest (S j) st
          else
            match flagged groundscatter r j with
            | Raises e => (st, Some e)
            | Returns true =>
                gather_values groundscatter gate_num r rest (S j)
                              (st.1, (st.2 ++ [value])%list)
            | Returns false =>
                gather_values groundscatter gate_num r rest (S j)
                              ((st.1 ++ [value])%list, st.2)
            end
      end
  end.

(** The body of the [try] for one record. *)
Definition gather_record (parameter : string) (groundscatter : bool)
    (beam_num gate_num : selector) (st : points) (r : Scan.t)
  : points * option raised :=
  match other_beam beam_num r with
  | Raises e => (st, Some e)
  | Returns true => (st, None)
  | Returns false =>
      match item parameter r with
      | None => (st, Some (KeyError parameter))
      | Some (Scalar _) => (st, Some (Raised no_len))
      | Some (Array values) | Some (Listed values) =>
          gather_values groundscatter gate_num r values 0 st
      end
  end.

(** [try: ... except KeyError: continue] around a body that appends to the
    lists: what was appended stays. *)
Definition continue_on_key_error {S} (body : S * option raised) : result S :=
  match body with
  | (st, None) => Ok st
  | (st, Some (KeyError _)) => Ok st
  | (_, Some (Raised e)) => Err e
  end.

Definition gather_data (parameter : string) (groundscatter : bool)
    (beam_num gate_num : selector) (data : list Scan.t) : result points :=
  for_each (fun st r => continue_on_key_error
                          (gather_record parameter groundscatter beam_num gate_num st r))
           ([], []) data.

(** ** Check Data (lines 215-220, 727-732; scatter.py 141-146) *)

Definition is_nan (value : pyfloat) : bool :=
  match value with
  | NaN => true
  | _ => false
  end.

(** [np.all(np.isnan(vals)) or len(vals) == 0] *)
Definition no_data (values : list pyfloat) : bool :=
  forallb is_nan values || (length values =? 0)%nat.

Definition check_data (groundscatter : bool) (ionospheric ground : list pyfloat)
  : outcome unit :=
  if no_data ionospheric then Raises (Raised (ValueError "No data to plot"))
  else if groundscatter && no_data ground
       then Raises (Raised (ValueError "No data to plot"))
       else Returns tt.

(** [plot_vector_hist] up to Check Data (lines 142-220): the lists [vals]
    and [vals_gs] that the histograms and the statistics are made of. *)
Definition plot_vector_hist_data (parameter : string) (data : list Scan.t)
    (groundscatter : bool) (beam_num gate_num : selector) : outcome points :=
  let+ _ := check_parameter parameter data in
  let+ _ := (if groundscatter then check_ground_scatter parameter data else Returns tt) in
  let+ _ := check_beam_gate beam_num gate_num in
  match gather_data parameter groundscatter beam_num gate_num data with
  | Err e => Raises (Raised e)
  | Ok st =>
      let+ _ := check_data groundscatter st.1 st.2 in
      Returns st
  end.

(** The entries ['num_pts'], ['num_pts_gs'] and ['pct_gs'] of the returned
    dictionary (lines 271-272 and 359-365). *)
Definition num_pts (st : points) : nat := length st.1.
Definition num_pts_gs (st : points) : nat := length st.2.
Definition pct_gs (st : points) : Q :=
  (of_count (length st.2) / of_count (length st.1 + length st.2) * 100)%Q.

(** ** Gather Data of [plot_2d_hist] and [plot_range_scatter]
       (lines 696-721; scatter.py 110-135) *)

(** The lists [vals], [gates], [vals_gs] and [gates_gs]. *)
Record scatter_lists := {
  vals : list pyfloat;
  gates : list Z;
  vals_gs : list pyfloat;
  gates_gs : list Z
}.

Definition no_points : scatter_lists :=
  {| vals := []; gates := []; vals_gs := []; gates_gs := [] |}.

Fixpoint gather_gated (groundscatter : bool) (r : Scan.t)
    (values : list pyfloat) (j : nat) (st : scatter_lists)
  : scatter_lists * option raised :=
  match values with
  | [] => (st, None)
  | value :: rest =>
      match Scan.slist r with
      | None => (st, Some (KeyError "slist"))
      | Some l =>
          match l !! j with
          | None => (st, Some (Raised out_of_bounds))
          | Some gate =>
              if negb (is_finite value) then gather_gated groundscatter r rest (S j) st
              else
                match flagged groundscatter r j with
                | Raises e => (st, Some e)
                | Returns true =>
                    gather_gated groundscatter r rest (S j)
                                 {| vals := vals st; gates := gates st;
                                    vals_gs := (vals_gs st ++ [value])%list;
                                    gates_gs := (gates_gs st ++ [gate])%list |}
                | Returns false =>
                    gather_gated groundscatter r rest (S j)
                                 {| vals := (vals st ++ [value])%list;
                                    gates := (gates st ++ [gate])%list;
                                    vals_gs := vals_gs st; gates_gs := gates_gs st |}
                end
          end
      end
  end.

Definition gather_gated_record (parameter : string) (groundscatter : bool)
    (beam_num : selector) (st : scatter_lists) (r : Scan.t)
  : scatter_lists * option raised :=
  match other_beam beam_num r with
  | Raises e => (st, Some e)
  | Returns true => (st, None)
  | Returns false =>
      match item parameter r with
      | None => (st, Some (KeyError parameter))
      | Some (Scalar _) => (st, Some (Raised no_len))
      | Some (Array values) | Some (Listed values) =>
          gather_gated groundscatter r values 0 st
      end
  end.

Definition gather_gated_data (parameter : string) (groundscatter : bool)
    (beam_num : selector) (data : list Scan.t) : result scatter_lists :=
  for_each (fun st r => continue_on_key_error
                          (gather_gated_record parameter groundscatter beam_num st r))
           no_points data.

(** [plot_range_scatter] and [plot_2d_hist] up to Check Data: the points
    that the scatter plot draws and the 2D histogram bins. *)
Definition plot_range_scatter_data (parameter : string) (data : list Scan.t)
    (groundscatter : bool) (beam_num : selector) : outcome scatter_lists :=
  let+ _ := check_parameter parameter data in
  let+ _ := (if groundscatter then check_ground_scatter parameter data else Returns tt) in
  let+ _ := check_beam beam_num in
  match gather_gated_data parameter groundscatter beam_num data with
  | Err e => Raises (Raised e)
  | Ok st =>
      let+ _ := check_data groundscatter (vals st) (vals_gs st) in
      Returns st
  end.

(** ** The checks of [plot_vector_time_series] (rtp.py, lines 76-114) *)

(** The body of the [try] of the second loop of Check Ground Scatter: here
    the mismatch raises a ValueError. *)
Definition compare_lengths_or_stop (parameter : string) (r : Scan.t) : outcome unit :=
  match item parameter r with
  | None => Raises (KeyError parameter)
  | Some f =>
      match py_len f with
      | Err e => Raises (Raised e)
      | Ok n =>
          match Scan.gflg r with
          | None => Raises (KeyError "gflg")
          | Some g =>
              if negb (n =? length g)%nat
              then Raises (Raised (ValueError "Ground scatter plot unavailable"))
              else Returns tt
          end
      end
  end.

Definition check_ground_scatter_or_stop (parameter : string) (data : list Scan.t)
  : outcome unit :=
  if existsb (fun r => bool_decide (is_Some (Scan.gflg r))) data then
    match for_each (fun _ r => except_key_error (compare_lengths_or_stop parameter r))
                   tt data with
    | Ok _ => Returns tt
    | Err e => Raises (Raised e)
    end
  else Raises (KeyError "Ground scatter unavailable").

(** [beam_num not in range(0, 16) or gate_num not in range(0, 75)] *)
Definition check_beam_and_gate (beam_num gate_num : selector) : outcome unit :=
  if negb (in_range beam_num 16) || negb (in_range gate_num 75)
  then Raises (Raised (ValueError "Beam or gate number invalid"))
  else Returns tt.

(** [plot_vector_time_series] up to Check Beam and Gate Number. *)
Definition plot_vector_time_series_checks (parameter : string) (data : list Scan.t)
    (beam_num gate_num : selector) (groundscatter : bool) : outcome unit :=
  let+ _ := check_parameter parameter data in
  let+ _ := (if groundscatter then check_ground_scatter_or_stop parameter data
             else Returns tt) in
  check_beam_and_gate beam_num gate_num.

(** The parameter and [gflg] of the record differ in length. *)
Definition mismatched (parameter : string) (r : Scan.t) : bool :=
  match item parameter r, Scan.gflg r with
  | Some (Array values), Some g | Some (Listed values), Some g =>
      negb (length values =? length g)%nat
  | _, _ => false
  end.

(** ** [filter_fitacf_gates] (filter.py, lines 20-83) *)

(** [vector_field[slist_mask]] *)
Fixpoint masked {A} (mask : list bool) (l : list A) : list A :=
  match mask, l with
  | keep :: mask', x :: l' => if keep then x :: masked mask' l' else masked mask' l'
  | _, _ => []
  end.

(** [(slist >= gate_min) & (slist <= gate_max)] *)
Definition slist_mask (gate_min gate_max : Z) (gate_list : list Z) : list bool :=
  map (fun gate => (gate_min <=? gate) && (gate <=? gate_max)) gate_list.

(** A list or an array whose length is that of [slist] is masked. *)
Definition filter_sequence {A} (mask : list bool) (l : list A) : list A :=
  if (length l =? length mask)%nat then masked mask l else l.

Definition filter_field (mask : list bool) (f : pyfield) : pyfield :=
  match f with
  | Scalar z => Scalar z
  | Array a => Array (filter_sequence mask a)
  | Listed l => Listed (filter_sequence mask l)
  end.

(** [if 'nrang' in data_copy: data_copy['nrang'] = gate_max - gate_min + 1] *)
Definition update_nrang (gate_min gate_max : Z) (fields : list (pykey * pyfield))
  : list (pykey * pyfield) :=
  map (fun kv => if pykey_eqb kv.1 (KStr "nrang")
                 then (kv.1, Scalar (gate_max - gate_min + 1)) else kv) fields.

(** One iteration: [None] stands for [continue]. *)
Definition filter_record (gate_min gate_max : Z) (r : Scan.t) : option Scan.t :=
  match Scan.slist r with
  | None => None
  | Some gate_list =>
      if (length gate_list =? 0)%nat then None
      else
        let mask := slist_mask gate_min gate_max gate_list in
        if negb (existsb id mask) then None
        else Some {| Scan.bmnum := Scan.bmnum r;
                     Scan.slist := Some (filter_sequence mask gate_list);
                     Scan.gflg := filter_sequence mask <$> Scan.gflg r;
                     Scan.fields :=
                       update_nrang gate_min gate_max
                         (map (fun kv => (kv.1, filter_field mask kv.2)) (Scan.fields r)) |}
  end.

Definition filter_fitacf_gates (data : list Scan.t) (gate_min gate_max : Z)
  : list Scan.t :=
  omap (filter_record gate_min gate_max) data.

(** ** What the functions are compared with *)

(** The finite values of the parameter in one record. *)
Definition finite_values (parameter : string) (r : Scan.t) : list pyfloat :=
  match item parameter r with
  | Some (Array values) | Some (Listed values) => List.filter is_finite values
  | _ => []
  end.

Definition is_scalar (f : option pyfield) : bool :=
  match f with
  | Some (Scalar _) => true
  | _ => false
  end.

(** The record is of beam [n]. *)
Definition of_beam (n : Z) (r : Scan.t) : bool :=
  match Scan.bmnum r with
  | Some beam => n =? beam
  | None => false
  end.

(** The pairs of a gate and a value that stand at the same index of
    [slist] and of the parameter in one record. *)
Definition gate_points (parameter : string) (r : Scan.t) : list (Z * pyfloat) :=
  match Scan.slist r, item parameter r with
  | Some l, Some (Array values) | Some l, Some (Listed values) => zip l values
  | _, _ => []
  end.

(** The four lists go by pairs: a gate for every value, each pair with
    the property [P]. *)
Definition paired (P : Z * pyfloat -> Prop) (st : scatter_lists) : Prop :=
  length (gates st) = length (vals st)
  /\ length (gates_gs st) = length (vals_gs st)
  /\ Forall P (zip (gates st) (vals st))
  /\ Forall P (zip (gates_gs st) (vals_gs st)).

(** The two lists hold finite values only, and [vals_gs] is empty unless
    [groundscatter] is set. *)
Definition finite_points (groundscatter : bool) (st : points) : Prop :=
  Forall (fun value => is_finite value = true) st.1
  /\ Forall (fun value => is_finite value = true) st.2
  /\ (groundscatter = false -> st.2 = []).

(** ** Sample records *)

(** A record of beam 7 with velocities at gates 10, 11 and 40, the second
    one missing, the third one flagged as ground scatter. *)
Definition beam_7 : Scan.t :=
  {| Scan.bmnum := Some 7; Scan.slist := Some [10; 11; 40];
     Scan.gflg := Some [0; 0; 1];
     Scan.fields := [(KStr "nrang", Scalar 75);
                     (KStr "v", Array [Fin 120; NaN; Fin (-30)]);
                     (KStr "ptab", Array [Fin 0; Fin 9; Fin 12])] |}.

(** A record of beam 8 with no scatter. *)
Definition beam_8 : Scan.t :=
  {| Scan.bmnum := Some 8; Scan.slist := None; Scan.gflg := None;
     Scan.fields := [(KStr "nrang", Scalar 75)] |}.

(** A record whose [gflg] is shorter than [v]. *)
Definition short_gflg : Scan.t :=
  {| Scan.bmnum := Some 7; Scan.slist := Some [10; 11];
     Scan.gflg := Some [0];
     Scan.fields := [(KStr "v", Array [Fin 120; Fin 80])] |}.

(** * [group_files] (concatenate.py, lines 513-601)

    The function on a list of paths; a pattern is expanded by [glob] and
    then goes the same way.  Paths are made of ASCII characters and
    [os.path] is that of a POSIX system. *)

Inductive group_error :=
  | FileNotFoundError (msg : string)
  | NameError (msg : string).

(** [group_by], once looked up in [{'year': 4, 'month': 6, 'day': 8}]. *)
Inductive grouping :=
  | Yearly
  | Monthly
  | Daily.

Definition grouping_of (group_by : string) : option grouping :=
  if String.eqb group_by "year" then Some Yearly
  else if String.eqb group_by "month" then Some Monthly
  else if String.eqb group_by "day" then Some Daily
  else None.

Definition date_len (g : grouping) : nat :=
  match g with
  | Yearly => 4
  | Monthly => 6
  | Daily => 8
  end.

(** The keys of the returned dict: a string for 'year', a tuple of two
    strings for 'month', of three for 'day'. *)
Inductive group_key :=
  | ByYear (y : string)
  | ByMonth (y m : string)
  | ByDay (y m d : string).

Definition group_key_eqb (a b : group_key) : bool :=
  match a, b with
  | ByYear y, ByYear y' => String.eqb y y'
  | ByMonth y m, ByMonth y' m' => String.eqb y y' && String.eqb m m'
  | ByDay y m d, ByDay y' m' d' => String.eqb y y' && String.eqb m m' && String.eqb d d'
  | _, _ => false
  end.

(** [files.sort()]: ascending, as Python compares strings. *)
Definition path_le (a b : string) : Prop := String.leb a b = true.

Global Instance path_le_dec (a b : string) : Decision (path_le a b) :=
  decide (String.leb a b = true).

(** [os.path.basename]: what follows the last slash; [candidate] is what
    follows the last slash met so far. *)
Fixpoint after_last_slash (path candidate : string) : string :=
  match path with
  | EmptyString => candidate
  | String c rest =>
      if Ascii.eqb c "/" then after_last_slash rest rest
      else after_last_slash rest candidate
  end.

Definition basename (path : string) : string := after_last_slash path path.

(** [char.isdigit()] *)
Definition is_digit (c : ascii) : bool :=
  (48 <=? nat_of_ascii c)%nat && (nat_of_ascii c <=? 57)%nat.

(** The loop over the characters of the basename, with its [break]. *)
Fixpoint scan_digits (length_wanted : nat) (name date : string) : string :=
  match name with
  | EmptyString => date
  | String c rest =>
      if is_digit c then
        if (String.length (date ++ String c EmptyString) =? length_wanted)%nat
        then date ++ String c EmptyString
        else scan_digits length_wanted rest (date ++ String c EmptyString)
      else scan_digits length_wanted rest date
  end.

(** [date[:4]], [(date[:4], date[4:6])] or [(date[:4], date[4:6], date[6:8])] *)
Definition key_of (g : grouping) (date : string) : group_key :=
  match g with
  | Yearly => ByYear (substring 0 4 date)
  | Monthly => ByMonth (substring 0 4 date) (substring 4 2 date)
  | Daily => ByDay (substring 0 4 date) (substring 4 2 date) (substring 6 2 date)
  end.

(** [if key not in groups: groups[key] = []] and [groups[key].append(file)] *)
Fixpoint append_to_group (key : group_key) (file : string)
    (groups : list (group_key * list string)) : list (group_key * list string) :=
  match groups with
  | [] => [(key, [file])]
  | (k, members) :: groups' =>
      if group_key_eqb k key then (k, (members ++ [file])%list) :: groups'
      else (k, members) :: append_to_group key file groups'
  end.

Fixpoint group_all (g : grouping) (files : list string)
    (groups : list (group_key * list string))
  : group_error + list (group_key * list string) :=
  match files with
  | [] => inr groups
  | file :: files' =>
      let date := scan_digits (date_len g) (basename file) EmptyString in
      if negb (String.length date =? date_len g)%nat
      then inl (NameError ("No date found in file: " ++ basename file))
      else group_all g files' (append_to_group (key_of g date) file groups)
  end.

Definition group_files (filepath : list string) (group_by : string)
  : group_error + list (group_key * list string) :=
  let files := merge_sort path_le filepath in
  if (length files =? 0)%nat then inl (FileNotFoundError "Files not found: []")
  else
    match grouping_of group_by with
    | None => inl (NameError ("Invalid grouping method: " ++ group_by))
    | Some g => group_all g files []
    end.

(** The date of a file, when its basename has enough digits, and its key. *)
Definition date_of (g : grouping) (file : string) : option string :=
  let date := scan_digits (date_len g) (basename file) EmptyString in
  if (String.length date =? date_len g)%nat then Some date else None.

Definition file_key (g : grouping) (file : string) : option group_key :=
  key_of g <$> date_of g file.

(** The invariant of the loop of [group_files]: the groups hold the files
    seen, each once, under distinct keys, every file under its key. *)
Definition grouped (g : grouping) (seen : list string)
    (groups : list (group_key * list string)) : Prop :=
  concat (map snd groups) ≡ₚ seen
  /\ NoDup (map fst groups)
  /\ Forall (fun kv => kv.2 <> []
                       /\ Forall (fun file => file_key g file = Some kv.1) kv.2) groups.

(** The digits of a name, in order. *)
Fixpoint digits_of (name : string) : string :=
  match name with
  | EmptyString => EmptyString
  | String c rest => if is_digit c then String c (digits_of rest) else digits_of rest
  end.

Fixpoint no_slash (name : string) : bool :=
  match name with
  | EmptyString => true
  | String c rest => negb (Ascii.eqb c "/") && no_slash rest
  end.

(** * [plot_fan_plots] (fan.py): the list of scan times (lines 102-119)

    A naive [datetime.datetime] is counted in microseconds from
    0001-01-01 00:00:00; [start_time] and [end_time] are such objects, and
    [interval] is an integer. *)

(** 9999-12-31 23:59:59.999999 *)
Definition last_instant : Z := 315537897599999999.

(** [timedelta(minutes = interval)], in microseconds; [None] stands for
    its OverflowError. *)
Definition timedelta_minutes (interval : Z) : option Z :=
  let delta := interval * 60000000 in
  if (-86399999913600000000 <=? delta) && (delta <=? 86399999999999999999)
  then Some delta else None.

(** [time + interval]; [None] stands for OverflowError('date value out of
    range'). *)
Definition later (time delta : Z) : option Z :=
  if (0 <=? time + delta) && (time + delta <=? last_instant)
  then Some (time + delta) else None.

Inductive fan_times :=
  | ScanTimes (times : list Z)
  | FanValueError (msg : string)
  | FanOverflowError
  | StillLooping.

(** The [while] loop, for at most [fuel] evaluations of its condition;
    [last] is [times[-1]]. *)
Fixpoint generate_times (fuel : nat) (delta end_time last : Z) (times : list Z)
  : fan_times :=
  match fuel with
  | O => StillLooping
  | S fuel' =>
      match later last delta with
      | None => FanOverflowError
      | Some next =>
          if next <=? end_time
          then generate_times fuel' delta end_time next (times ++ [next])%list
          else ScanTimes times
      end
  end.

(** The keys of the dict [parameters]. *)
Definition fan_parameters : list string := ["v"; "p_l"; "w_l"; "elv"].

(** [plot_fan_plots] up to the list [times] that the plots are made for. *)
Definition plot_fan_times (fuel : nat) (parameter : string)
    (start_time end_time interval : Z) : fan_times :=
  if negb (existsb (String.eqb parameter) fan_parameters)
  then FanValueError "Invalid parameter"
  else match timedelta_minutes interval with
       | None => FanOverflowError
       | Some delta => generate_times fuel delta end_time start_time [start_time]
       end.

(** * Definitions for the further properties *)

(** The twelve buckets of [date_bin = 'month'] and of [date_bin = 'hour']. *)
Definition month_buckets : list datetime :=
  map (fun m => {| year := 1; month := m; day := 1; hour := 0 |})
      [1; 2; 3; 4; 5; 6; 7; 8; 9; 10; 11; 12].

Definition hour_buckets : list datetime :=
  map at_hour [0; 2; 4; 6; 8; 10; 12; 14; 16; 18; 20; 22].

(** The bucket of the record is [d]. *)
Definition in_bucket (date_bin : string) (d : datetime) (r : fitacf) : bool :=
  match assign_date date_bin r None with
  | Ok (Some d') => datetime_eqb d' d
  | _ => false
  end.

(** What the records of bucket [d] credit to the band of index [i]. *)
Definition cell_total (b : qband) (omitted : list qband) (bands : list qband)
    (date_bin : string) (data : list fitacf) (i : nat) (d : datetime) : nat :=
  sum_list (map (fun r => if in_bucket date_bin d r
                          then credit b omitted bands i r else 0%nat) data).

(** The second loop of [plot_freq_scan_2d_hist], cell by cell. *)
Definition cells_inv (b : qband) (omitted : option (list qband)) (bands : list qband)
    (date_bin : string) (dates : list datetime)
    (seen : list fitacf) (st : list (list nat) * option datetime) : Prop :=
  length st.1 = length bands
  /\ Forall (fun row => length row = length dates) st.1
  /\ forall i j d, (i < length bands)%nat -> dates !! j = Some d ->
       cell st.1 i j = Some (cell_total b (omitted_of omitted) bands date_bin seen i d).

(** * Properties *)

Local Open Scope list_scope.

(** Rewrite with the outcome of a stage and move on to the next one. *)
Ltac stage H := rewrite H; cbn [bind].

(** ** Comparisons of numbers *)

Lemma Qlt_bool_iff (x y : Q) : Qlt_bool x y = true <-> (x < y)%Q.
Proof.
  unfold Qlt_bool. rewrite negb_true_iff.
  split.
  - intros H. apply Qnot_le_lt. intros Hle.
    apply Qle_bool_iff in Hle. congruence.
  - intros H. destruct (Qle_bool y x) eqn:E; [|done].
    apply Qle_bool_iff in E. exfalso. by apply (Qlt_not_le x y).
Qed.

Lemma strictly_inside_iff (b : qband) (x : Q) :
  strictly_inside b x = true <-> (b.1 < x)%Q /\ (x < b.2)%Q.
Proof.
  unfold strictly_inside. rewrite andb_true_iff, !Qlt_bool_iff. tauto.
Qed.

Lemma holds_iff (v : qband) (f : Q) :
  holds v f = true <-> (v.1 <= f)%Q /\ (f <= v.2)%Q.
Proof.
  unfold holds. rewrite andb_true_iff, !Qle_bool_iff. tauto.
Qed.

Lemma within_iff (b v : qband) :
  within b v = true <-> (b.1 <= v.1)%Q /\ (v.2 <= b.2)%Q.
Proof.
  unfold within. rewrite andb_true_iff, !Qle_bool_iff. tauto.
Qed.

Lemma between_numeric (v : qband) (f : Q) : between (nband v) f = Ok (holds v f).
Proof.
  unfold between, holds, nband; simpl. by destruct (Qle_bool v.1 f).
Qed.

Lemma any_between_numeric (l : list qband) (f : Q) :
  any_between f (map nband l) = Ok (existsb (fun v => holds v f) l).
Proof.
  induction l as [|v l IH]; simpl; [done|].
  rewrite between_numeric; simpl.
  by destruct (holds v f).
Qed.

Lemma out_of_range_numeric (b : qband) (f : Q) :
  out_of_range (nband b) f = Ok (negb (strictly_inside b f)).
Proof.
  unfold out_of_range, strictly_inside, Qlt_bool, nband; simpl.
  by destruct (Qle_bool f b.1); simpl; [|destruct (Qle_bool b.2 f)].
Qed.

Lemma find_band_numeric (bands : list qband) (f : Q) (i : nat) :
  find_band f (map nband bands) i = Ok ((fun k => (i + k)%nat) <$> owner bands f).
Proof.
  revert i. induction bands as [|v bands IH]; intros i; simpl; [done|].
  rewrite between_numeric; simpl.
  destruct (holds v f); simpl.
  - by rewrite Nat.add_0_r.
  - rewrite IH. destruct (owner bands f); simpl; [|done].
    do 2 f_equal. lia.
Qed.

Lemma owner_lt (bands : list qband) (f : Q) (i : nat) :
  owner bands f = Some i -> (i < length bands)%nat.
Proof.
  revert i. induction bands as [|v bands IH]; intros i; simpl; [done|].
  destruct (holds v f).
  - intros [= <-]. lia.
  - destruct (owner bands f) as [k|]; simpl; [|done].
    intros [= <-]. specialize (IH k eq_refl). lia.
Qed.

Lemma count_ionospheric_zeros (g : list Z) : count_ionospheric g = zeros g.
Proof.
  unfold count_ionospheric, zeros.
  assert (H : forall n, fold_left (fun num_pts flag => if flag =? 0 then S num_pts else num_pts) g n
                        = (n + length (filter (fun flag => flag = 0%Z) g))%nat).
  { induction g as [|x g IH]; intros n; simpl; [lia|].
    rewrite IH. rewrite filter_cons.
    destruct (Z.eqb_spec x 0); destruct (decide (x = 0)); simpl; lia. }
  by rewrite H.
Qed.

Lemma sample_numeric (b : qband) (omitted : option (list qband)) (r : fitacf) :
  sample (nband b) (nremove omitted) r = Ok (contribution b (omitted_of omitted) r).
Proof.
  unfold sample, contribution.
  destruct (channel r =? 2); simpl; [|done].
  destruct (tfreq r) as [f| |]; [|done|done].
  rewrite out_of_range_numeric; simpl.
  destruct (strictly_inside b f); simpl; [|by destruct (gflg r)].
  destruct omitted as [l|]; simpl.
  - rewrite any_between_numeric; simpl.
    destruct (existsb _ l); simpl; [by destruct (gflg r)|].
    destruct (gflg r); [|done]. by rewrite count_ionospheric_zeros.
  - destruct (gflg r); [|done]. by rewrite count_ionospheric_zeros.
Qed.

(** ** Loops over the records *)

Section ForEach.
Context {S A : Type}.
Variable step : S -> A -> result S.
(** An invariant of the state, indexed by the records already seen. *)
Variable inv : list A -> S -> Prop.
Variable all : list A.
Hypothesis step_ok : forall seen a s,
  inv seen s -> a ∈ all -> exists s', step s a = Ok s' /\ inv (seen ++ [a]) s'.

Lemma for_each_invariant (l seen : list A) (s : S) :
  inv seen s -> Forall (fun a => a ∈ all) l ->
  exists s', for_each step s l = Ok s' /\ inv (seen ++ l) s'.
Proof.
  revert seen s. induction l as [|a l IH]; intros seen s Hs Hl; simpl.
  - exists s. by rewrite app_nil_r.
  - apply Forall_cons in Hl as [Ha Hl].
    destruct (step_ok seen a s Hs Ha) as (s' & -> & Hs'); simpl.
    destruct (IH _ _ Hs' Hl) as (s'' & Hrun & Hs'').
    exists s''. split; [done|]. by rewrite <- app_assoc in Hs''.
Qed.
End ForEach.

Section ForEachOk.
Context {S A : Type}.
Variable step : S -> A -> result S.
Variable inv : list A -> S -> Prop.
Hypothesis step_keeps : forall seen a s s',
  inv seen s -> step s a = Ok s' -> inv (seen ++ [a]) s'.

Lemma for_each_ok_invariant (l seen : list A) (s s' : S) :
  inv seen s -> for_each step s l = Ok s' -> inv (seen ++ l) s'.
Proof.
  revert seen s. induction l as [|a l IH]; intros seen s Hs; simpl.
  - intros [= <-]. by rewrite app_nil_r.
  - destruct (step s a) as [s1|e] eqn:Hstep; simpl; [|done].
    intros Hrun. rewrite (cons_middle a seen l), app_assoc.
    eapply IH; [|done]. by eapply step_keeps.
Qed.
End ForEachOk.

Lemma list_eq_tabulate {A} (f : nat -> A) (l : list A) (n : nat) :
  length l = n -> (forall i, (i < n)%nat -> l !! i = Some (f i)) -> l = map f (seq 0 n).
Proof.
  intros Hlen Hl. apply list_eq. intros i.
  rewrite list_lookup_fmap.
  destruct (decide (i < n)%nat) as [Hi|Hi].
  - rewrite Hl by done. by rewrite lookup_seq_lt.
  - rewrite lookup_ge_None_2 by lia.
    by rewrite lookup_seq_ge by lia.
Qed.

Lemma sum_list_append (l1 l2 : list nat) :
  sum_list (l1 ++ l2) = (sum_list l1 + sum_list l2)%nat.
Proof. induction l1 as [|x l1 IH]; simpl; [done|]. rewrite IH. lia. Qed.

Lemma band_total_snoc b omitted bands seen r i :
  band_total b omitted bands (seen ++ [r]) i
  = (band_total b omitted bands seen i + credit b omitted bands i r)%nat.
Proof.
  unfold band_total. rewrite map_app, sum_list_append. simpl. lia.
Qed.

Lemma credit_owner b omitted bands r f n i :
  contribution b omitted r = Some (f, n) -> owner bands f = Some i ->
  credit b omitted bands i r = n.
Proof. unfold credit. intros -> ->. by rewrite decide_True. Qed.

Lemma credit_other b omitted bands r f n i :
  contribution b omitted r = Some (f, n) -> owner bands f <> Some i ->
  credit b omitted bands i r = 0%nat.
Proof. unfold credit. intros -> H. by rewrite decide_False. Qed.

Lemma credit_none b omitted bands r i :
  contribution b omitted r = None -> credit b omitted bands i r = 0%nat.
Proof. unfold credit. by intros ->. Qed.

(** ** The extractor of [plot_freq_scan_hist] *)

Lemma hist_step_numeric b omitted bands seen hist r :
  length hist = length bands ->
  (forall i, (i < length bands)%nat ->
             hist !! i = Some (band_total b (omitted_of omitted) bands seen i)) ->
  exists hist',
    hist_step (nband b) (nremove omitted) (map nband bands) hist r = Ok hist'
    /\ length hist' = length bands
    /\ forall i, (i < length bands)%nat ->
         hist' !! i = Some (band_total b (omitted_of omitted) bands (seen ++ [r]) i).
Proof.
  intros Hlen Hhist. unfold hist_step.
  rewrite sample_numeric; simpl.
  destruct (contribution b (omitted_of omitted) r) as [[f n]|] eqn:Hc.
  - rewrite find_band_numeric; simpl.
    destruct (owner bands f) as [k|] eqn:Hk; simpl.
    + eexists. split; [done|]. split; [by rewrite length_alter|].
      intros i Hi. rewrite band_total_snoc.
      destruct (decide (i = k)) as [->|Hne].
      * rewrite list_lookup_alter_eq, Hhist by done; simpl.
        by rewrite (credit_owner _ _ _ _ f n k).
      * rewrite list_lookup_alter_ne, Hhist by done.
        rewrite (credit_other _ _ _ _ f n i) by congruence.
        by rewrite Nat.add_0_r.
    + exists hist. split; [done|]. split; [done|].
      intros i Hi. rewrite band_total_snoc, Hhist by done.
      rewrite (credit_other _ _ _ _ f n i) by congruence.
      by rewrite Nat.add_0_r.
  - exists hist. split; [done|]. split; [done|].
    intros i Hi. rewrite band_total_snoc, Hhist by done.
    rewrite credit_none by done. by rewrite Nat.add_0_r.
Qed.

Lemma generate_hist_numeric b omitted bands data :
  generate_hist (nband b) (nremove omitted) (map nband bands) data
  = Ok (expected_hist b (omitted_of omitted) bands data).
Proof.
  unfold generate_hist. rewrite length_map.
  destruct (for_each_invariant
              (hist_step (nband b) (nremove omitted) (map nband bands))
              (fun seen hist =>
                 length hist = length bands
                 /\ forall i, (i < length bands)%nat ->
                      hist !! i = Some (band_total b (omitted_of omitted) bands seen i))
              data) with (l := data) (seen := @nil fitacf)
              (s := replicate (length bands) 0%nat)
    as (hist & Hrun & Hlen & Hhist).
  - intros seen r hist [Hlen Hhist] _.
    destruct (hist_step_numeric b omitted bands seen hist r Hlen Hhist)
      as (hist' & ? & ? & ?).
    by exists hist'.
  - split; [by rewrite length_replicate|].
    intros i Hi. by rewrite lookup_replicate_2.
  - by apply Forall_forall.
  - rewrite Hrun. f_equal. by apply list_eq_tabulate.
Qed.

(** ** Dates *)

Lemma datetime_eqb_eq (a b : datetime) : datetime_eqb a b = true <-> a = b.
Proof.
  unfold datetime_eqb. rewrite !andb_true_iff, !Z.eqb_eq.
  destruct a, b; simpl. split.
  - intros [[[-> ->] ->] ->]. done.
  - intros [= -> -> -> ->]. done.
Qed.

Lemma existsb_datetime (d : datetime) (dates : list datetime) :
  existsb (datetime_eqb d) dates = true <-> d ∈ dates.
Proof.
  rewrite existsb_exists. split.
  - intros (x & Hx & Heq). apply datetime_eqb_eq in Heq as ->.
    by apply list_elem_of_In.
  - intros Hd. exists d. split; [by apply list_elem_of_In|by apply datetime_eqb_eq].
Qed.

Lemma index_of_elem (d : datetime) (dates : list datetime) (i : nat) :
  d ∈ dates ->
  exists k, index_of d dates i = Ok k /\ (i <= k < i + length dates)%nat.
Proof.
  revert i. induction dates as [|d' dates IH]; intros i Hd; simpl.
  - by apply elem_of_nil in Hd.
  - destruct (datetime_eqb d' d) eqn:E.
    + exists i. split; [done|lia].
    + apply elem_of_cons in Hd as [->|Hd].
      * assert (datetime_eqb d' d' = true) by by apply datetime_eqb_eq.
        congruence.
      * destruct (IH (S i) Hd) as (k & -> & Hk). exists k. split; [done|lia].
Qed.

(** With [date_bin = 'hour'] the second loop binds [date] to the hour of a
    record whose hour is even, and leaves it as it was at an odd hour. *)
Lemma reassign_date_even_hour (r : fitacf) (date : option datetime) :
  time_hr r mod 2 = 0 -> 0 <= time_hr r <= 23 ->
  reassign_date "hour" r date
  = Ok (Some {| year := 1; month := 1; day := 1; hour := time_hr r |}).
Proof.
  intros Heven Hrange. unfold reassign_date, py_datetime; simpl.
  apply Z.eqb_eq in Heven as ->.
  destruct (Z.leb_spec 0 (time_hr r)); [|lia].
  destruct (Z.leb_spec (time_hr r) 23); [|lia]. done.
Qed.

Lemma reassign_date_odd_hour (r : fitacf) (date : option datetime) :
  time_hr r mod 2 <> 0 -> reassign_date "hour" r date = Ok date.
Proof.
  intros Hodd. unfold reassign_date; simpl.
  by destruct (Z.eqb_spec (time_hr r mod 2) 0).
Qed.

Lemma settles_mono (date_bin : string) (dates dates' : list datetime) (r : fitacf) :
  dates ⊆ dates' -> settles date_bin dates r -> settles date_bin dates' r.
Proof.
  intros Hsub [(d & Hd & H)|H]; [left|by right].
  exists d. split; [by apply Hsub|done].
Qed.

Lemma settles_known (date_bin : string) (dates : list datetime) (r : fitacf)
    (date : option datetime) :
  settles date_bin dates r -> known dates date ->
  exists date', reassign_date date_bin r date = Ok date' /\ known dates date'.
Proof.
  intros [(d & Hd & H)|H] Hk.
  - exists (Some d). split; [done|]. by exists d.
  - by exists date.
Qed.

(** When the first loop gets through a record of channel 2, the variable is
    bound to a collected date, and the second loop will settle there. *)
Lemma assign_date_settles (date_bin : string) (r : fitacf) (date date' : option datetime)
    (d : datetime) :
  assign_date date_bin r date = Ok date' -> use_date date' = Ok d ->
  date' = Some d /\ forall dates, d ∈ dates -> settles date_bin dates r.
Proof.
  unfold assign_date, use_date, settles, reassign_date.
  intros Ha Hu.
  assert (date' = Some d) as -> by (destruct date'; congruence).
  split; [done|]. intros dates Hd.
  repeat match type of Ha with
  | (if ?c then _ else _) = _ => destruct c
  | bind ?m _ = _ => destruct m; simpl in Ha
  end; try discriminate.
  all: try (left; exists d; split; [done|]; intros; simpl; congruence).
  by right.
Qed.

Lemma dates_step_invariant (date_bin : string) (seen : list fitacf) (r : fitacf)
    (st st' : list datetime * option datetime) :
  (forall x, x ∈ seen -> channel x = 2 -> known st.1 st.2 /\ settles date_bin st.1 x) ->
  dates_step date_bin st r = Ok st' ->
  forall x, x ∈ seen ++ [r] -> channel x = 2 ->
            known st'.1 st'.2 /\ settles date_bin st'.1 x.
Proof.
  intros IH. unfold dates_step.
  destruct (Z.eqb_spec (channel r) 2) as [Hch|Hch]; simpl.
  - destruct (assign_date date_bin r st.2) as [date'|] eqn:Ha; simpl; [|done].
    destruct (use_date date') as [d|] eqn:Hu; simpl; [|done].
    destruct (assign_date_settles _ _ _ _ _ Ha Hu) as [-> Hset].
    intros Hst'.
    assert (d ∈ st'.1 /\ st.1 ⊆ st'.1 /\ st'.2 = Some d) as (Hd & Hsub & Hdate).
    { destruct (existsb (datetime_eqb d) st.1) eqn:E; injection Hst' as <-; simpl.
      - apply existsb_datetime in E. done.
      - split; [apply elem_of_app; right; by apply list_elem_of_singleton|].
        split; [|done]. intros y Hy. apply elem_of_app. by left. }
    intros x Hx Hcx. split; [exists d; by rewrite Hdate|].
    apply elem_of_app in Hx as [Hx|Hx].
    + eapply settles_mono; [done|]. by apply IH.
    + apply list_elem_of_singleton in Hx as ->. by apply Hset.
  - intros [= <-] x Hx Hcx.
    apply elem_of_app in Hx as [Hx|Hx]; [by apply IH|].
    apply list_elem_of_singleton in Hx as ->. done.
Qed.

Lemma gather_dates_settles (date_bin : string) (data : list fitacf)
    (dates : list datetime) (date : option datetime) :
  gather_dates date_bin data = Ok (dates, date) ->
  forall r, r ∈ data -> channel r = 2 -> known dates date /\ settles date_bin dates r.
Proof.
  intros Hrun.
  apply (for_each_ok_invariant (dates_step date_bin)
           (fun seen st => forall x, x ∈ seen -> channel x = 2 ->
                                     known st.1 st.2 /\ settles date_bin st.1 x)
           (dates_step_invariant date_bin) data [] ([], None) (dates, date)).
  - intros x Hx. by apply elem_of_nil in Hx.
  - done.
Qed.

(** ** The extractor of [plot_freq_scan_2d_hist] *)

Lemma sum_list_alter_add (row : list nat) (k n : nat) :
  (k < length row)%nat ->
  sum_list (alter (fun c => (c + n)%nat) k row) = (sum_list row + n)%nat.
Proof.
  revert k. induction row as [|x row IH]; intros k Hk; simpl in *; [lia|].
  destruct k as [|k]; simpl; [lia|].
  change (list_alter (fun c => (c + n)%nat) k row)
    with (alter (fun c => (c + n)%nat) k row).
  rewrite IH by lia. lia.
Qed.

Lemma contribution_channel b omitted r x :
  contribution b omitted r = Some x -> channel r = 2.
Proof.
  unfold contribution. destruct (Z.eqb_spec (channel r) 2); [done|discriminate].
Qed.

Section Hist2d.
Variable date_bin : string.
Variable b : qband.
Variable omitted : option (list qband).
Variable bands : list qband.
Variable dates : list datetime.
Variable date0 : option datetime.
Variable data : list fitacf.
Hypothesis collected : forall r, r ∈ data -> channel r = 2 ->
  known dates date0 /\ settles date_bin dates r.

Lemma hist2d_inv_skip seen r st :
  (forall i, credit b (omitted_of omitted) bands i r = 0%nat) ->
  hist2d_inv b omitted bands dates date0 seen st ->
  hist2d_inv b omitted bands dates date0 (seen ++ [r]) st.
Proof.
  intros Hzero (Hlen & Hrows & Hdate & Hsum).
  repeat split; try done.
  intros i Hi. rewrite band_total_snoc, Hzero, Nat.add_0_r. by apply Hsum.
Qed.

Lemma hist2d_step_numeric seen r st :
  hist2d_inv b omitted bands dates date0 seen st -> r ∈ data ->
  exists st',
    hist2d_step date_bin (nband b) (nremove omitted) (map nband bands) dates st r = Ok st'
    /\ hist2d_inv b omitted bands dates date0 (seen ++ [r]) st'.
Proof.
  intros Hinv Hr. unfold hist2d_step.
  rewrite sample_numeric; simpl.
  destruct (contribution b (omitted_of omitted) r) as [[f n]|] eqn:Hc.
  2: { exists st. split; [done|]. apply hist2d_inv_skip; [|done].
       intros i. by apply credit_none. }
  rewrite find_band_numeric; simpl.
  destruct (owner bands f) as [k|] eqn:Hk; simpl.
  2: { exists st. split; [done|]. apply hist2d_inv_skip; [|done].
       intros i. apply (credit_other _ _ _ _ f n); [done|congruence]. }
  destruct Hinv as (Hlen & Hrows & Hdate & Hsum).
  destruct (collected r Hr (contribution_channel _ _ _ _ Hc)) as [Hk0 Hset].
  assert (known dates st.2) as Hknown by (by destruct Hdate as [->|]).
  destruct (settles_known _ _ _ _ Hset Hknown) as (date' & -> & (d & -> & Hd)); simpl.
  destruct (index_of_elem d dates 0 Hd) as (j & -> & Hj); simpl.
  eexists. split; [done|].
  assert (k < length bands)%nat as Hkb by by eapply owner_lt.
  repeat split; simpl.
  - by rewrite length_alter.
  - apply Forall_alter; [done|]. intros row _ Hrow. by rewrite length_alter.
  - right. by exists d.
  - intros i Hi. rewrite band_total_snoc.
    destruct (decide (i = k)) as [->|Hne].
    + rewrite list_lookup_alter_eq.
      specialize (Hsum k Hkb).
      destruct (st.1 !! k) as [row|] eqn:Hrow; simpl in *; [|done].
      injection Hsum as Hsum.
      assert (length row = length dates) as Hrl.
      { eapply Forall_lookup_1 in Hrows; [|done]. done. }
      rewrite sum_list_alter_add by lia.
      by rewrite Hsum, (credit_owner _ _ _ _ f n k).
    + rewrite list_lookup_alter_ne by done.
      rewrite (credit_other _ _ _ _ f n i) by congruence.
      rewrite Nat.add_0_r. by apply Hsum.
Qed.

Lemma generate_hist2d_numeric :
  exists hist2d date',
    generate_hist2d date_bin (nband b) (nremove omitted) (map nband bands)
                    dates date0 data = Ok (hist2d, date')
    /\ length hist2d = length bands
    /\ Forall (fun row => length row = length dates) hist2d
    /\ map sum_list hist2d = expected_hist b (omitted_of omitted) bands data.
Proof.
  unfold generate_hist2d. rewrite length_map.
  destruct (for_each_invariant
              (hist2d_step date_bin (nband b) (nremove omitted) (map nband bands) dates)
              (hist2d_inv b omitted bands dates date0) data hist2d_step_numeric data []
              (replicate (length bands) (replicate (length dates) 0%nat), date0))
    as ([hist2d date'] & Hrun & Hlen & Hrows & _ & Hsum).
  - repeat split; simpl.
    + by rewrite length_replicate.
    + apply Forall_replicate. by rewrite length_replicate.
    + by left.
    + intros i Hi. rewrite lookup_replicate_2 by done. simpl.
      rewrite sum_list_replicate. f_equal. unfold band_total; simpl. lia.
  - by apply Forall_forall.
  - exists hist2d, date'. simpl in *.
    repeat split; try done.
    apply list_eq_tabulate; [by rewrite length_map|].
    intros i Hi. rewrite list_lookup_fmap. by apply Hsum.
Qed.
End Hist2d.

(** ** The contract in the words of the specification *)

Lemma existsb_holds_false (omitted : list qband) (f : Q) :
  existsb (fun v => holds v f) omitted = false
  <-> forall v, v ∈ omitted -> ~ ((v.1 <= f)%Q /\ (f <= v.2)%Q).
Proof.
  rewrite <- not_true_iff_false, existsb_exists. split.
  - intros H v Hv Hin. apply H. exists v.
    split; [by apply list_elem_of_In|by apply holds_iff].
  - intros H (v & Hv & Hin). apply (H v); [by apply list_elem_of_In|by apply holds_iff].
Qed.

Lemma contribution_iff (b : qband) (omitted : list qband) (r : fitacf) (f : Q) (n : nat) :
  contribution b omitted r = Some (f, n)
  <-> channel r = 2
      /\ tfreq r = Fin f
      /\ ((b.1 < f)%Q /\ (f < b.2)%Q)
      /\ (forall v, v ∈ omitted -> ~ ((v.1 <= f)%Q /\ (f <= v.2)%Q))
      /\ exists g, gflg r = Some g /\ n = zeros g.
Proof.
  unfold contribution. split.
  - destruct (Z.eqb_spec (channel r) 2) as [Hch|]; [|done].
    destruct (tfreq r) as [f'| |]; [|done|done].
    destruct (gflg r) as [g|]; [|done].
    destruct (strictly_inside b f') eqn:Hin; simpl; [|done].
    destruct (existsb _ omitted) eqn:Hom; simpl; [done|].
    intros [= -> <-].
    split; [done|]. split; [done|].
    split; [by apply strictly_inside_iff|].
    split; [by apply existsb_holds_false|]. by exists g.
  - intros (Hch & -> & Hin & Hom & g & -> & ->).
    apply Z.eqb_eq in Hch as ->.
    apply strictly_inside_iff in Hin as ->.
    apply existsb_holds_false in Hom as ->. done.
Qed.

Lemma owner_first (bands : list qband) (f : Q) (i : nat) :
  owner bands f = Some i
  <-> (exists v, bands !! i = Some v /\ (v.1 <= f)%Q /\ (f <= v.2)%Q)
      /\ forall j w, (j < i)%nat -> bands !! j = Some w ->
                     ~ ((w.1 <= f)%Q /\ (f <= w.2)%Q).
Proof.
  revert i. induction bands as [|v bands IH]; intros i; simpl.
  - split; [done|]. by intros [(v & Hv & _) _].
  - destruct (holds v f) eqn:Hv.
    + split.
      * intros [= <-]. split; [exists v; split; [done|by apply holds_iff]|].
        intros j w Hj. lia.
      * intros [(w & Hw & Hin) Hfirst]. destruct i as [|i]; [done|].
        exfalso. apply (Hfirst 0%nat v); [lia|done|by apply holds_iff].
    + assert (~ ((v.1 <= f)%Q /\ (f <= v.2)%Q)) as Hnot.
      { rewrite <- holds_iff. congruence. }
      split.
      * destruct (owner bands f) as [k|] eqn:Hk; simpl; [|done].
        intros [= <-]. destruct (proj1 (IH k) eq_refl) as [Hex Hfirst].
        split; [done|]. intros [|j] w Hj; simpl.
        -- by intros [= <-].
        -- apply Hfirst. lia.
      * intros [(w & Hw & Hin) Hfirst]. destruct i as [|i]; simpl in Hw.
        -- injection Hw as <-. done.
        -- rewrite (proj2 (IH i)); [done|]. split; [by exists w|].
           intros j w' Hj Hw'. apply (Hfirst (S j) w'); [lia|done].
Qed.

(** C1. Sample extractor contract, for both entry points.  The histogram of
    [plot_freq_scan_hist] and the row sums of the matrix of
    [plot_freq_scan_2d_hist] hold, for each band of the filtered list, the
    sum over all records of the record's credit to that band.  A record
    takes part if and only if its channel is 2, its tfreq is a finite number
    strictly between the boundary's low and high and inside no omitted
    interval (bounds included), and it has a gflg sequence; it then
    credits the number of positions where gflg == 0 to the first band of
    the list whose closed interval holds tfreq, and nothing to any other
    band; a record that does not take part, or whose tfreq no band holds,
    credits nothing.  The 2D statement takes the dates as the first loop of
    the function collected them. *)
Theorem extractor_contract (b : qband) (omitted : option (list qband))
    (bands : list qband) (date_bin : string) (data : list fitacf)
    (dates : list datetime) (date : option datetime) :
  gather_dates date_bin data = Ok (dates, date) ->
  generate_hist (nband b) (nremove omitted) (map nband bands) data
    = Ok (map (fun i => sum_list (map (credit b (omitted_of omitted) bands i) data))
              (seq 0 (length bands)))
  /\ (exists hist2d date',
        generate_hist2d date_bin (nband b) (nremove omitted) (map nband bands)
                        dates date data = Ok (hist2d, date')
        /\ map sum_list hist2d
           = map (fun i => sum_list (map (credit b (omitted_of omitted) bands i) data))
                 (seq 0 (length bands)))
  /\ (forall r f n,
        contribution b (omitted_of omitted) r = Some (f, n)
        <-> channel r = 2
            /\ tfreq r = Fin f
            /\ ((b.1 < f)%Q /\ (f < b.2)%Q)
            /\ (forall v, v ∈ omitted_of omitted -> ~ ((v.1 <= f)%Q /\ (f <= v.2)%Q))
            /\ exists g, gflg r = Some g /\ n = zeros g)
  /\ (forall f i,
        owner bands f = Some i
        <-> (exists v, bands !! i = Some v /\ (v.1 <= f)%Q /\ (f <= v.2)%Q)
            /\ forall j w, (j < i)%nat -> bands !! j = Some w ->
                           ~ ((w.1 <= f)%Q /\ (f <= w.2)%Q))
  /\ (forall r f n i,
        contribution b (omitted_of omitted) r = Some (f, n) ->
        (owner bands f = Some i -> credit b (omitted_of omitted) bands i r = n)
        /\ (owner bands f <> Some i -> credit b (omitted_of omitted) bands i r = 0%nat))
  /\ (forall r i,
        contribution b (omitted_of omitted) r = None ->
        credit b (omitted_of omitted) bands i r = 0%nat).
Proof.
  intros Hdates. split; [apply generate_hist_numeric|]. split.
  { destruct (generate_hist2d_numeric date_bin b omitted bands dates date data
                (gather_dates_settles _ _ _ _ Hdates))
      as (hist2d & date' & Hrun & _ & _ & Hsum).
    by exists hist2d, date'. }
  split; [intros r f n; apply contribution_iff|].
  split; [intros f i; apply owner_first|].
  split.
  - intros r f n i Hc. split; intros Hown.
    + by eapply credit_owner.
    + by eapply credit_other.
  - intros r i Hc. by apply credit_none.
Qed.

(** ** The two band filters *)

Lemma gather_bands_numeric (b : qband) (tb : list (pykey * qband)) :
  let kept := List.filter (fun kv => strictly_inside b (center kv.2)) tb in
  gather_bands (nband b) (ntable tb)
  = Ok (map fst kept, map (fun kv => nband kv.2) kept,
        map (fun kv => ANum (center kv.2)) kept).
Proof.
  induction tb as [|[key v] tb IH]; simpl; [done|].
  simpl in IH. rewrite IH; simpl.
  unfold strictly_inside, Qlt_bool, center; simpl.
  destruct (Qle_bool ((v.1 + v.2) / 2) b.1); simpl; [done|].
  by destruct (Qle_bool b.2 ((v.1 + v.2) / 2)).
Qed.

Lemma gather_bands_2d_numeric (b : qband) (tb : list (pykey * qband)) :
  let kept := List.filter (fun kv => within b kv.2) tb in
  gather_bands_2d (nband b) (ntable tb)
  = bind (int_keys (map fst kept))
         (fun keys => Ok (keys, map (fun kv => nband kv.2) kept)).
Proof.
  induction tb as [|[key v] tb IH]; simpl; [done|].
  simpl in IH. unfold within, Qlt_bool; simpl.
  destruct (Qle_bool b.1 v.1); simpl; [|done].
  destruct (Qle_bool v.2 b.2); simpl; [|done].
  destruct (py_int key); simpl; [|done].
  rewrite IH. by destruct (int_keys _).
Qed.

(** C7. Asymmetric band filtering.  [plot_freq_scan_hist] keeps exactly the
    bands whose center (low+high)/2 lies strictly inside the boundary, in
    table order, with their keys and centers; [plot_freq_scan_2d_hist]
    keeps exactly the bands with low >= boundary.low and
    high <= boundary.high, in table order, and converts the kept keys with
    [int]. *)
Theorem band_filters (b : qband) (tb : list (pykey * qband)) :
  (let kept := List.filter (fun kv => strictly_inside b (center kv.2)) tb in
   gather_bands (nband b) (ntable tb)
   = Ok (map fst kept, map (fun kv => nband kv.2) kept,
         map (fun kv => ANum (center kv.2)) kept))
  /\ (let kept := List.filter (fun kv => within b kv.2) tb in
      gather_bands_2d (nband b) (ntable tb)
      = bind (int_keys (map fst kept))
             (fun keys => Ok (keys, map (fun kv => nband kv.2) kept)))
  /\ (forall v : qband,
        strictly_inside b (center v) = true
        <-> (b.1 < (v.1 + v.2) / 2)%Q /\ ((v.1 + v.2) / 2 < b.2)%Q)
  /\ (forall v : qband,
        within b v = true <-> (b.1 <= v.1)%Q /\ (v.2 <= b.2)%Q).
Proof.
  split; [apply gather_bands_numeric|].
  split; [apply gather_bands_2d_numeric|].
  split; intros v; [apply strictly_inside_iff|apply within_iff].
Qed.

(** ** Normalisation *)

Lemma nth_alter_ne {A} (f : A -> A) (row : list A) (j j' : nat) (d : A) :
  j' <> j -> nth j' (alter f j row) d = nth j' row d.
Proof.
  intros Hne. rewrite !nth_lookup. by rewrite list_lookup_alter_ne.
Qed.

Lemma column_of_normalize_column_ne (m : list (list Q)) (j j' : nat) :
  j' <> j -> column_of (normalize_column m j) j' = column_of m j'.
Proof.
  intros Hne. unfold normalize_column, column_of.
  destruct (Qlt_bool 0 _); [|done].
  rewrite map_map. apply map_ext. intros row. by apply nth_alter_ne.
Qed.

Lemma cell_normalize_column_ne (m : list (list Q)) (i j j' : nat) :
  j' <> j -> cell (normalize_column m j) i j' = cell m i j'.
Proof.
  intros Hne. unfold normalize_column, cell.
  destruct (Qlt_bool 0 _); [|done].
  change (map ?f m) with (f <$> m). rewrite list_lookup_fmap.
  destruct (m !! i) as [row|]; simpl; [|done].
  by rewrite list_lookup_alter_ne.
Qed.

Lemma cell_normalize_column (m : list (list Q)) (i j : nat) :
  cell (normalize_column m j) i j = scaled m j <$> cell m i j.
Proof.
  unfold normalize_column, cell, scaled.
  destruct (Qlt_bool 0 _).
  - change (map ?f m) with (f <$> m). rewrite list_lookup_fmap.
    destruct (m !! i) as [row|]; simpl; [|done].
    by rewrite list_lookup_alter_eq.
  - destruct (m !! i) as [row|]; simpl; [|done].
    by destruct (row !! j).
Qed.

Lemma scaled_normalize_column_ne (m : list (list Q)) (j j' : nat) (x : Q) :
  j' <> j -> scaled (normalize_column m j) j' x = scaled m j' x.
Proof.
  intros Hne. unfold scaled. by rewrite column_of_normalize_column_ne.
Qed.

Lemma cell_normalize_from (m : list (list Q)) (a n i j : nat) :
  cell (fold_left normalize_column (seq a n) m) i j
  = (if decide (a <= j < a + n)%nat then scaled m j <$> cell m i j else cell m i j).
Proof.
  revert a m. induction n as [|n IH]; intros a m; simpl.
  - rewrite decide_False by lia. done.
  - rewrite IH.
    destruct (decide (j = a)) as [->|Hne].
    + rewrite decide_False by lia. rewrite decide_True by lia.
      apply cell_normalize_column.
    + rewrite cell_normalize_column_ne by done.
      destruct (decide (S a <= j < S a + n)%nat).
      * rewrite decide_True by lia.
        destruct (cell m i j); simpl; [|done].
        by rewrite scaled_normalize_column_ne.
      * by rewrite decide_False by lia.
Qed.

Lemma Qsum_from (l : list Q) (acc : Q) :
  (fold_left Qplus l acc == acc + Qsum l)%Q.
Proof.
  unfold Qsum. revert acc. induction l as [|x l IH]; intros acc; simpl.
  - ring.
  - rewrite (IH (acc + x)%Q), (IH (0 + x)%Q). ring.
Qed.

Lemma Qsum_counts (l : list nat) :
  (Qsum (map of_count l) == of_count (sum_list l))%Q.
Proof.
  induction l as [|c l IH]; simpl.
  - reflexivity.
  - unfold Qsum; simpl. rewrite Qsum_from, IH.
    unfold of_count. rewrite Nat2Z.inj_add, inject_Z_plus. ring.
Qed.

Lemma column_of_counts (h : list (list nat)) (j : nat) :
  column_of (map (map of_count) h) j = map of_count (map (fun row => nth j row 0%nat) h).
Proof.
  unfold column_of. rewrite !map_map. apply map_ext. intros row.
  by rewrite <- (map_nth of_count).
Qed.

Lemma column_sum_counts (h : list (list nat)) (j : nat) :
  (Qsum (column_of (map (map of_count) h) j) == of_count (column_count h j))%Q.
Proof. rewrite column_of_counts. apply Qsum_counts. Qed.

Lemma of_count_pos (n : nat) : (0 < of_count n)%Q <-> n <> 0%nat.
Proof.
  unfold of_count. change 0%Q with (inject_Z 0). rewrite <- Zlt_Qlt. lia.
Qed.

Lemma sum_list_zero (l : list nat) (i c : nat) :
  sum_list l = 0%nat -> l !! i = Some c -> c = 0%nat.
Proof.
  revert i. induction l as [|x l IH]; intros i; simpl; [done|].
  intros Hsum. destruct i as [|i]; simpl.
  - intros [= <-]. lia.
  - apply IH. lia.
Qed.

Lemma cell_counts (h : list (list nat)) (i j : nat) :
  cell (map (map of_count) h) i j = of_count <$> cell h i j.
Proof.
  unfold cell. change (map ?f h) with (f <$> h). rewrite list_lookup_fmap.
  destruct (h !! i) as [row|]; simpl; [|done].
  change (map of_count row) with (of_count <$> row). by rewrite list_lookup_fmap.
Qed.

Lemma column_count_zero (h : list (list nat)) (i j c : nat) :
  column_count h j = 0%nat -> cell h i j = Some c -> c = 0%nat.
Proof.
  unfold column_count, cell. intros Hsum.
  destruct (h !! i) as [row|] eqn:Hrow; [|done].
  intros Hc. apply (sum_list_zero _ i c Hsum).
  change (map ?f h) with (f <$> h). rewrite list_lookup_fmap, Hrow; simpl.
  f_equal. rewrite nth_lookup, Hc. done.
Qed.

(** C8. Normalisation.  With [normalize] set, every bin of the 1D histogram
    is its count divided by the grand total, unless the grand total is
    zero, in which case the raw counts are kept.  In the 2D matrix every
    cell of a column is divided by the sum of that column alone; a column
    whose sum is zero holds only zeros and stays so. *)
Theorem normalization_contract (hist : list nat) (h : list (list nat))
    (ncols i j c : nat) :
  (j < ncols)%nat -> cell h i j = Some c ->
  (sum_list hist <> 0%nat ->
     normalize_hist true hist
     = map (fun x => (of_count x / of_count (sum_list hist))%Q) hist)
  /\ (sum_list hist = 0%nat -> normalize_hist true hist = map of_count hist)
  /\ (Qsum (column_of (map (map of_count) h) j) == of_count (column_count h j))%Q
  /\ (column_count h j <> 0%nat ->
        cell (normalize_columns true ncols (map (map of_count) h)) i j
        = Some (of_count c / Qsum (column_of (map (map of_count) h) j))%Q)
  /\ (column_count h j = 0%nat ->
        c = 0%nat
        /\ cell (normalize_columns true ncols (map (map of_count) h)) i j = Some 0%Q).
Proof.
  intros Hj Hc.
  assert (cell (normalize_columns true ncols (map (map of_count) h)) i j
          = Some (scaled (map (map of_count) h) j (of_count c))) as Hcell.
  { unfold normalize_columns. rewrite cell_normalize_from.
    rewrite decide_True by lia. by rewrite cell_counts, Hc. }
  split; [|split; [|split; [|split]]].
  - intros Hsum. unfold normalize_hist.
    destruct (Nat.eqb_spec (sum_list hist) 0); [done|]. done.
  - intros Hsum. unfold normalize_hist. by rewrite Hsum.
  - apply column_sum_counts.
  - intros Hsum. rewrite Hcell. unfold scaled.
    destruct (Qlt_bool 0 _) eqn:E; [done|].
    exfalso. apply of_count_pos in Hsum.
    rewrite <- column_sum_counts in Hsum.
    apply Qlt_bool_iff in Hsum. congruence.
  - intros Hsum.
    assert (c = 0%nat) as -> by by eapply column_count_zero.
    split; [done|]. rewrite Hcell. unfold scaled.
    destruct (Qlt_bool 0 _) eqn:E; [|done].
    exfalso. apply Qlt_bool_iff in E. rewrite column_sum_counts, Hsum in E.
    by apply Qlt_irrefl in E.
Qed.

(** ** Validation and default boundary on numeric tables *)

Lemma check_numeric (tb : list (pykey * qband)) :
  check_freq_bands (dict_of tb) = Ok (ntable tb).
Proof.
  unfold check_freq_bands, dict_of, ntable.
  induction tb as [|[key v] tb IH]; simpl; [done|]. by rewrite IH.
Qed.

Lemma check_rejects (freq_bands : pyobj) :
  accepted freq_bands = false ->
  check_freq_bands freq_bands = Err (format_error freq_bands).
Proof.
  destruct freq_bands as [items|v]; simpl; [|done].
  induction items as [|[key v] items IH]; simpl; [done|].
  destruct v as [a|l|l]; simpl; try done.
  destruct l as [|lo [|hi [|x l]]]; simpl; try done.
  intros H. by rewrite IH.
Qed.

Lemma band_lt_numeric (x y : qband) : band_lt (nband x) (nband y) = Ok (qband_lt x y).
Proof.
  unfold band_lt, qband_lt, nband; simpl.
  by destruct (Qeq_bool x.1 y.1), (Qeq_bool x.2 y.2).
Qed.

Lemma band_gt_numeric (x y : qband) : band_gt (nband x) (nband y) = Ok (qband_gt x y).
Proof.
  unfold band_gt, qband_gt, nband; simpl.
  by destruct (Qeq_bool x.1 y.1), (Qeq_bool x.2 y.2).
Qed.

Lemma extremum_from_numeric (better : band -> band -> result bool)
    (g : qband -> qband -> bool) (cur : qband) (l : list qband) :
  (forall x y, better (nband x) (nband y) = Ok (g x y)) ->
  extremum_from better (nband cur) (map nband l) = Ok (nband (pick g cur l)).
Proof.
  intros Hg. revert cur. induction l as [|x l IH]; intros cur; simpl; [done|].
  rewrite Hg; simpl. destruct (g x cur); apply IH.
Qed.

Lemma map_snd_ntable (tb : list (pykey * qband)) :
  map snd (ntable tb) = map nband (map snd tb).
Proof. unfold ntable. rewrite !map_map. done. Qed.

Lemma generate_boundary_numeric (boundary : option qband) (tb : list (pykey * qband)) :
  (boundary = None -> tb <> []) ->
  generate_boundary (nband <$> boundary) (ntable tb) = Ok (nband (boundary_of boundary tb)).
Proof.
  intros Hne. destruct boundary as [b|]; simpl; [done|].
  rewrite map_snd_ntable.
  destruct tb as [|[key v] tb]; [by destruct Hne|]. simpl.
  rewrite (extremum_from_numeric _ _ _ _ band_lt_numeric); simpl.
  rewrite (extremum_from_numeric _ _ _ _ band_gt_numeric); simpl.
  unfold default_boundary, nband; simpl.
  by destruct (Qlt_bool _ _), (Qlt_bool _ _).
Qed.

(** C9, as the code has it.  Both entry points fail with the TypeError of
    the format check when the band table is not a dict or when one of its
    values is not a list of exactly two elements (three elements instead of
    two, a tuple, a number); the check comes first: no other argument
    changes the outcome.  The elements of a two-element list are not
    checked to be numbers. *)
Theorem format_check_first (data : list fitacf) (freq_bands : pyobj)
    (date_bin : string) (normalize : bool) (boundary : option band)
    (omit_bands : option omit_arg) (show_txt : bool) :
  accepted freq_bands = false ->
  plot_freq_scan_hist data freq_bands normalize boundary omit_bands show_txt
    = Err (format_error freq_bands)
  /\ plot_freq_scan_2d_hist data freq_bands date_bin normalize boundary omit_bands show_txt
    = Err (format_error freq_bands).
Proof.
  intros H. unfold plot_freq_scan_hist, plot_freq_scan_2d_hist.
  by rewrite (check_rejects _ H).
Qed.

(** ** Omitted identifiers *)

Lemma dict_get_str_int_keyed (s : string) (tb : list (Z * qband)) :
  dict_get (KStr s) (ntable (int_keyed tb)) = None.
Proof. induction tb as [|[z v] tb IH]; simpl; done. Qed.

Lemma lookup_bands_int_keyed (tb : list (Z * qband)) (ids : list pykey) :
  ids <> [] -> lookup_bands (ntable (int_keyed tb)) ids = None.
Proof.
  destruct ids as [|id ids]; [done|]. intros _. simpl.
  by rewrite dict_get_str_int_keyed.
Qed.

Lemma remove_bands_int_keyed (tb : list (Z * qband)) (omit_bands : omit_arg) :
  omit_ids omit_bands <> [] ->
  remove_bands (ntable (int_keyed tb)) (Some omit_bands)
  = Err (TypeError "Invalid frequency bands to omit").
Proof.
  intros H. unfold remove_bands. by rewrite lookup_bands_int_keyed.
Qed.

Lemma int_keys_int_keyed (tb : list (Z * qband)) :
  int_keys (map fst (int_keyed tb)) = Ok (map fst tb).
Proof.
  induction tb as [|[z v] tb IH]; simpl; [done|].
  simpl in IH. by rewrite IH.
Qed.

Lemma filter_int_keyed (p : qband -> bool) (tb : list (Z * qband)) :
  List.filter (fun kv => p kv.2) (int_keyed tb)
  = int_keyed (List.filter (fun kv => p kv.2) tb).
Proof.
  induction tb as [|[z v] tb IH]; simpl; [done|].
  destruct (p v); simpl; by rewrite IH.
Qed.

(** C10. Omitted identifiers are looked up as [freq_bands[str(band)]].
    On a band table whose keys are integers, every request to omit at
    least one band fails in both entry points with the TypeError of the
    omit step, whether or not the identifiers are keys of the table; and an
    integer identifier whose string form is a key of the table resolves
    to the interval of that key. *)
Theorem omit_resolved_by_str (data : list fitacf) (tb : list (Z * qband))
    (date_bin : string) (normalize : bool) (boundary : option qband)
    (omit_bands : omit_arg) (show_txt : bool)
    (table : list (pykey * band)) (z : Z) (v : band) :
  (boundary = None -> tb <> []) ->
  omit_ids omit_bands <> [] ->
  dict_get (KStr (py_str (KInt z))) table = Some v ->
  plot_freq_scan_hist data (dict_of (int_keyed tb)) normalize (nband <$> boundary)
                      (Some omit_bands) show_txt
    = Err (TypeError "Invalid frequency bands to omit")
  /\ plot_freq_scan_2d_hist data (dict_of (int_keyed tb)) date_bin normalize
                            (nband <$> boundary) (Some omit_bands) show_txt
    = Err (TypeError "Invalid frequency bands to omit")
  /\ remove_bands table (Some (OmitInt z)) = Ok (Some [v]).
Proof.
  intros Hb Hids Hget.
  assert (boundary = None -> int_keyed tb <> []) as Hb'.
  { intros Hn. specialize (Hb Hn). by destruct tb. }
  split; [|split].
  - unfold plot_freq_scan_hist.
    stage check_numeric.
    rewrite generate_boundary_numeric by done; cbn [bind].
    stage gather_bands_numeric.
    by rewrite remove_bands_int_keyed.
  - unfold plot_freq_scan_2d_hist.
    stage check_numeric.
    rewrite generate_boundary_numeric by done; cbn [bind].
    stage gather_bands_2d_numeric.
    rewrite (filter_int_keyed (within (boundary_of boundary (int_keyed tb)))).
    stage int_keys_int_keyed.
    by rewrite remove_bands_int_keyed.
  - unfold remove_bands. cbn [omit_ids lookup_bands]. by rewrite Hget.
Qed.

(** ** Ranking *)

Section Argsort.
Variable value : nat -> nat.

Lemma insert_index_perm (i : nat) (l : list nat) :
  insert_index value i l ≡ₚ i :: l.
Proof.
  induction l as [|j l IH]; simpl; [done|].
  destruct (value i <? value j)%nat; [done|].
  rewrite IH. apply Permutation_swap.
Qed.

Lemma insert_index_sorted (i : nat) (l : list nat) :
  StronglySorted (fun x y => (value x <= value y)%nat) l ->
  StronglySorted (fun x y => (value x <= value y)%nat) (insert_index value i l).
Proof.
  induction 1 as [|j l Hl IH Hj]; simpl.
  - repeat constructor.
  - destruct (Nat.ltb_spec (value i) (value j)).
    + constructor; [by constructor|].
      constructor; [lia|].
      eapply Forall_impl; [exact Hj|]. simpl. intros x Hx. lia.
    + constructor; [done|].
      rewrite insert_index_perm. by constructor.
Qed.

Lemma insert_all_perm (l acc : list nat) :
  fold_left (fun sorted i => insert_index value i sorted) l acc ≡ₚ l ++ acc.
Proof.
  revert acc. induction l as [|i l IH]; intros acc; simpl; [done|].
  rewrite IH, insert_index_perm. by rewrite Permutation_middle.
Qed.

Lemma insert_all_sorted (l acc : list nat) :
  StronglySorted (fun x y => (value x <= value y)%nat) acc ->
  StronglySorted (fun x y => (value x <= value y)%nat)
                 (fold_left (fun sorted i => insert_index value i sorted) l acc).
Proof.
  revert acc. induction l as [|i l IH]; intros acc Hacc; simpl; [done|].
  apply IH. by apply insert_index_sorted.
Qed.
End Argsort.

Lemma argsort_perm (a : list nat) : argsort a ≡ₚ seq 0 (length a).
Proof. unfold argsort. rewrite insert_all_perm. by rewrite app_nil_r. Qed.

Lemma argsort_sorted (a : list nat) :
  StronglySorted (fun i j => (nth i a 0 <= nth j a 0)%nat) (argsort a).
Proof. unfold argsort. apply insert_all_sorted. constructor. Qed.

Lemma argsort_lt (a : list nat) : Forall (fun i => (i < length a)%nat) (argsort a).
Proof.
  rewrite argsort_perm. apply Forall_forall. intros i Hi.
  apply elem_of_seq in Hi. lia.
Qed.

Lemma StronglySorted_rev {A} (R : relation A) (l : list A) :
  StronglySorted R l -> StronglySorted (flip R) (rev l).
Proof.
  induction 1 as [|x l Hl IH Hx]; simpl; [constructor|].
  apply StronglySorted_app_2; [|done|repeat constructor].
  intros y z Hy Hz. apply list_elem_of_singleton in Hz as ->.
  apply list_elem_of_In, in_rev, list_elem_of_In in Hy. unfold flip.
  by eapply Forall_forall in Hx.
Qed.

Lemma entries_in_range (bands : list band) (totals : list nat) (keys : list nat) :
  length totals = length bands ->
  Forall (fun i => (i < length bands)%nat) keys ->
  entries bands totals keys = Ok (map (entry_of bands totals) keys).
Proof.
  intros Hlen. induction 1 as [|i keys Hi Hkeys IH]; simpl; [done|].
  destruct (lookup_lt_is_Some_2 bands i Hi) as [v Hv].
  destruct (lookup_lt_is_Some_2 totals i ltac:(lia)) as [c Hc].
  rewrite Hv, Hc, IH; simpl. unfold entry_of.
  by rewrite (nth_lookup_Some _ _ _ _ Hv), (nth_lookup_Some _ _ _ _ Hc).
Qed.

(** The ranked list holds one entry per band, by descending count. *)
Lemma ordered_bands_ranked (bands : list band) (totals : list nat) :
  length totals = length bands ->
  ordered_bands bands totals = Ok (map (entry_of bands totals) (rev (argsort totals)))
  /\ rev (argsort totals) ≡ₚ seq 0 (length bands)
  /\ StronglySorted (fun x y => (y <= x)%Z)
                    (map Count (map (entry_of bands totals) (rev (argsort totals)))).
Proof.
  intros Hlen. split; [|split].
  - apply entries_in_range; [done|].
    rewrite <- Hlen. apply Forall_rev, argsort_lt.
  - by rewrite <- Permutation_rev, argsort_perm, Hlen.
  - rewrite map_map. simpl.
    change (map ?f ?l) with (f <$> l).
    eapply StronglySorted_fmap; [|apply StronglySorted_rev, argsort_sorted].
    unfold flip. intros x y Hxy. simpl. lia.
Qed.

(** ** The greatest band *)

Lemma py_max_numeric (v : qband) (l : list qband) :
  py_max band_gt (map nband (v :: l)) = Ok (nband (pick qband_gt v l)).
Proof. simpl. apply extremum_from_numeric, band_gt_numeric. Qed.

(** ** The two functions on numeric tables, from end to end *)

Lemma dict_get_ntable (k : pykey) (tb : list (pykey * qband)) :
  dict_get k (ntable tb) = nband <$> dict_get k tb.
Proof.
  induction tb as [|[key v] tb IH]; simpl; [done|].
  by destruct (pykey_eqb key k).
Qed.

Lemma lookup_bands_ntable (tb : list (pykey * qband)) (ids : list pykey) :
  lookup_bands (ntable tb) ids = map nband <$> lookup_intervals tb ids.
Proof.
  induction ids as [|id ids IH]; simpl; [done|].
  rewrite dict_get_ntable.
  destruct (dict_get (KStr (py_str id)) tb) as [v|]; simpl; [|done].
  rewrite IH. by destruct (lookup_intervals tb ids).
Qed.

Lemma remove_bands_ntable (tb : list (pykey * qband)) (omit_bands : option omit_arg) :
  remove_bands (ntable tb) omit_bands
  = match resolved tb omit_bands with
    | Some omitted => Ok (nremove omitted)
    | None => Err (TypeError "Invalid frequency bands to omit")
    end.
Proof.
  destruct omit_bands as [o|]; simpl; [|done].
  rewrite lookup_bands_ntable.
  by destruct (lookup_intervals tb (omit_ids o)).
Qed.

Lemma py_max_bands_numeric (l : list qband) :
  l <> [] -> exists v, py_max band_gt (map nband l) = Ok (nband v).
Proof.
  destruct l as [|v l]; [done|]. intros _.
  eexists. apply py_max_numeric.
Qed.

Lemma first_item_ranked (bands : list band) (totals : list nat) :
  bands <> [] -> length totals = length bands ->
  exists best, first_item (map (entry_of bands totals) (rev (argsort totals))) = Ok best.
Proof.
  intros Hne Hlen.
  destruct (map _ _) as [|best l] eqn:E; [|by exists best].
  apply (f_equal length) in E. rewrite length_map, length_rev in E.
  rewrite (Permutation_length (argsort_perm totals)), length_seq in E.
  destruct bands; [done|]. simpl in *. lia.
Qed.

Lemma length_expected_hist b omitted bands data :
  length (expected_hist b omitted bands data) = length bands.
Proof. unfold expected_hist. by rewrite length_map, length_seq. Qed.

(** [plot_freq_scan_hist] on a numeric table: when the omitted identifiers
    are keys, a band is kept and the first and last records give the dates
    of the title, the call draws the histogram of the contract, normalised
    on request, and returns one entry for every kept band, with the total
    of the band, by descending count; the order of equal counts is left to
    NumPy. *)
Lemma plot_freq_scan_hist_numeric (data : list fitacf) (tb : list (pykey * qband))
    (normalize : bool) (boundary : option qband) (omit_bands : option omit_arg)
    (omitted : option (list qband)) (show_txt : bool) :
  (boundary = None -> tb <> []) ->
  resolved tb omit_bands = Some omitted ->
  List.filter (fun kv => strictly_inside (boundary_of boundary tb) (center kv.2)) tb <> [] ->
  month_titles data = Ok tt ->
  let kept := List.filter
                (fun kv => strictly_inside (boundary_of boundary tb) (center kv.2)) tb in
  let hist := expected_hist (boundary_of boundary tb) (omitted_of omitted)
                            (map snd kept) data in
  exists chart ranked,
    plot_freq_scan_hist data (dict_of tb) normalize (nband <$> boundary) omit_bands show_txt
    = Ok (chart, ranked)
    /\ ranked ≡ₚ map (entry_of (map nband (map snd kept)) hist) (seq 0 (length kept))
    /\ StronglySorted (fun x y => (y <= x)%Z) (map Count ranked)
    /\ bar_height chart = normalize_hist normalize hist
    /\ bar_x chart = map (fun v => ANum (center v)) (map snd kept).
Proof.
  intros Hb Hres Hkept Hdata kept hist.
  unfold plot_freq_scan_hist.
  stage check_numeric.
  rewrite generate_boundary_numeric by done; cbn [bind].
  stage gather_bands_numeric. fold kept.
  rewrite remove_bands_ntable, Hres; cbn [bind].
  rewrite <- (map_map snd nband kept).
  stage generate_hist_numeric. fold hist.
  assert (length hist = length (map nband (map snd kept))) as Hlen.
  { unfold hist. by rewrite length_expected_hist, !length_map. }
  destruct (ordered_bands_ranked _ _ Hlen) as (-> & Hperm & Hsorted); cbn [bind].
  assert (map snd kept <> []) as Hq.
  { intros E. by apply map_eq_nil in E. }
  assert (map nband (map snd kept) <> []) as Hq'.
  { intros E. by apply map_eq_nil in E. }
  destruct (py_max_bands_numeric _ Hq) as (widest & ->); cbn [bind].
  unfold py_sub at 1; cbn [nband fst snd bind].
  destruct (first_item_ranked (map nband (map snd kept)) hist Hq' Hlen) as (best & ->).
  cbn [bind].
  stage Hdata.
  eexists _, _. split; [reflexivity|]. cbn [bar_height bar_x].
  split; [|split; [exact Hsorted|]].
  - rewrite !length_map in Hperm. by apply Permutation_map.
  - split; [done|]. by rewrite map_map.
Qed.

(** [plot_freq_scan_2d_hist] on a numeric table: when the kept keys convert
    to integers, the omitted identifiers are keys, the first loop collects
    the dates, and the first and last records give the dates of the title,
    the call returns one entry for every kept band, with the row sum of
    the matrix for the band, which is the total of the contract, by
    descending count; the order of equal counts is left to NumPy. *)
Lemma plot_freq_scan_2d_hist_numeric (data : list fitacf) (tb : list (pykey * qband))
    (date_bin : string) (normalize : bool) (boundary : option qband)
    (omit_bands : option omit_arg) (omitted : option (list qband)) (show_txt : bool)
    (keys : list Z) (dates : list datetime) (date : option datetime) :
  (boundary = None -> tb <> []) ->
  resolved tb omit_bands = Some omitted ->
  int_keys (map fst (List.filter (fun kv => within (boundary_of boundary tb) kv.2) tb))
    = Ok keys ->
  gather_dates date_bin data = Ok (dates, date) ->
  format_dates date_bin data = Ok tt ->
  data <> [] ->
  known_date_bin date_bin = true ->
  (show_txt = true ->
   List.filter (fun kv => within (boundary_of boundary tb) kv.2) tb <> []) ->
  let kept := List.filter (fun kv => within (boundary_of boundary tb) kv.2) tb in
  let hist := expected_hist (boundary_of boundary tb) (omitted_of omitted)
                            (map snd kept) data in
  exists heat hist2d ranked,
    plot_freq_scan_2d_hist data (dict_of tb) date_bin normalize (nband <$> boundary)
                           omit_bands show_txt
    = Ok (heat, ranked)
    /\ ranked ≡ₚ map (entry_of (map nband (map snd kept)) hist) (seq 0 (length kept))
    /\ StronglySorted (fun x y => (y <= x)%Z) (map Count ranked)
    /\ map sum_list hist2d = hist
    /\ image heat = color_map (normalize_columns normalize (length dates)
                                                 (map (map of_count) hist2d))
    /\ xticks heat = dates
    /\ yticks heat = keys.
Proof.
  intros Hb Hres Hkeys Hdates Htitles Hdata Hbin Htxt kept hist.
  unfold plot_freq_scan_2d_hist.
  stage check_numeric.
  rewrite generate_boundary_numeric by done; cbn [bind].
  stage gather_bands_2d_numeric. fold kept.
  unfold kept at 1. stage Hkeys.
  rewrite remove_bands_ntable, Hres; cbn [bind].
  stage Hdates.
  rewrite <- (map_map snd nband kept).
  destruct (generate_hist2d_numeric date_bin (boundary_of boundary tb) omitted
              (map snd kept) dates date data (gather_dates_settles _ _ _ _ Hdates))
    as (hist2d & date' & -> & Hrows & _ & Hsum). cbn [bind].
  rewrite Hsum. fold hist.
  assert (length hist = length (map nband (map snd kept))) as Hlen.
  { unfold hist. by rewrite length_expected_hist, !length_map. }
  destruct (ordered_bands_ranked _ _ Hlen) as (-> & Hperm & Hsorted); cbn [bind].
  stage Htitles.
  destruct data as [|r data]; [done|]. cbn [first_item bind].
  stage Hbin.
  assert (exists u, (if show_txt
                     then bind (first_item (map (entry_of (map nband (map snd kept)) hist)
                                                (rev (argsort hist))))
                               (fun _ => Ok tt)
                     else Ok tt) = Ok u) as [u ->].
  { destruct show_txt; [|by exists tt].
    assert (map nband (map snd kept) <> []) as Hq.
    { intros E. apply map_eq_nil, map_eq_nil in E. by apply Htxt. }
    destruct (first_item_ranked _ hist Hq Hlen) as (best & ->). by exists tt. }
  cbn [bind]. eexists _, hist2d, _. split; [reflexivity|].
  split; [|done]. rewrite !length_map in Hperm. by apply Permutation_map.
Qed.


(** ** No sample survives the filters *)

Lemma band_total_no_sample (b : qband) (omitted bands : list qband) (data : list fitacf)
    (i : nat) :
  Forall (no_sample b omitted bands) data -> band_total b omitted bands data i = 0%nat.
Proof.
  unfold band_total. induction 1 as [|r data Hr Hdata IH]; simpl; [done|].
  rewrite IH, Nat.add_0_r. unfold credit. unfold no_sample in Hr.
  destruct (contribution b omitted r) as [[f n]|]; [|done].
  destruct (decide (owner bands f = Some i)) as [Howner|]; [|done].
  destruct Hr as [->|Hnone]; [done|congruence].
Qed.

Lemma foreign_no_sample (b : qband) (omitted bands : list qband) (r : fitacf) :
  channel r <> 2 -> no_sample b omitted bands r.
Proof.
  intros Hch. unfold no_sample.
  destruct (contribution b omitted r) as [[f n]|] eqn:Hc; [|done].
  by apply contribution_channel in Hc.
Qed.

Lemma entries_of_zeros (kept : list (pykey * qband)) :
  map (entry_of (map nband (map snd kept)) (replicate (length kept) 0%nat))
      (seq 0 (length kept))
  = empty_entries kept.
Proof.
  apply list_eq. intros i. unfold empty_entries.
  change (map ?f ?l) with (f <$> l).
  rewrite list_lookup_fmap, list_lookup_imap.
  destruct (kept !! i) as [kv|] eqn:Hkv; simpl.
  - rewrite lookup_seq_lt by (by eapply lookup_lt_Some). simpl.
    unfold entry_of. f_equal. f_equal.
    + rewrite nth_lookup, !list_lookup_fmap, Hkv. done.
    + rewrite nth_lookup, lookup_replicate_2 by (by eapply lookup_lt_Some). done.
  - rewrite lookup_seq_ge; [done|]. by apply lookup_ge_None.
Qed.

(** C6, as the code has it.  [plot_freq_scan_hist] does not fail when no
    ionospheric-scatter sample survives the filters.  For a numeric band
    table of which the boundary keeps at least one band, omitted
    identifiers that resolve, and a list of records that is not empty and
    whose first and last records carry a valid year and month for the
    title: whenever every record fails a filter, has no position with
    gflg == 0, or has a tfreq that no kept band holds, and in particular
    whenever every record has a channel other than 2, the call returns
    the ranked list of all kept bands, one entry per band with its
    position, its frequency range and the count 0, in the order NumPy
    gives to equal counts, and the bars it draws are all of height 0.
    No error stands for the lack of samples. *)
Theorem empty_extraction_returns (data : list fitacf) (tb : list (pykey * qband))
    (normalize : bool) (boundary : option qband) (omit_bands : option omit_arg)
    (omitted : option (list qband)) (show_txt : bool) :
  (boundary = None -> tb <> []) ->
  resolved tb omit_bands = Some omitted ->
  month_titles data = Ok tt ->
  let kept := List.filter
                (fun kv => strictly_inside (boundary_of boundary tb) (center kv.2)) tb in
  kept <> [] ->
  let returns_empty_ranking :=
    exists chart ranked,
      plot_freq_scan_hist data (dict_of tb) normalize (nband <$> boundary) omit_bands
                          show_txt
      = Ok (chart, ranked)
      /\ ranked ≡ₚ empty_entries kept
      /\ Forall (fun height => height = 0%Q) (bar_height chart) in
  (Forall (no_sample (boundary_of boundary tb) (omitted_of omitted) (map snd kept)) data ->
   returns_empty_ranking)
  /\ (Forall (fun r => channel r <> 2) data -> returns_empty_ranking).
Proof.
  intros Hb Hres Htitles kept Hkept returns_empty_ranking.
  assert (Forall (no_sample (boundary_of boundary tb) (omitted_of omitted) (map snd kept))
                 data -> returns_empty_ranking) as Hgeneral.
  { intros Hnone.
    destruct (plot_freq_scan_hist_numeric data tb normalize boundary omit_bands omitted
                show_txt Hb Hres Hkept Htitles)
      as (chart & ranked & Hrun & Hperm & _ & Hheight & _).
    fold kept in Hperm, Hheight.
    assert (expected_hist (boundary_of boundary tb) (omitted_of omitted) (map snd kept) data
            = replicate (length kept) 0%nat) as Hzero.
    { unfold expected_hist. rewrite length_map.
      apply list_eq. intros i.
      change (map ?f ?l) with (f <$> l). rewrite list_lookup_fmap.
      destruct (decide (i < length kept)%nat) as [Hi|Hi].
      - rewrite lookup_seq_lt, lookup_replicate_2 by done. simpl.
        by rewrite band_total_no_sample.
      - rewrite lookup_seq_ge by lia. symmetry. apply lookup_ge_None.
        rewrite length_replicate. lia. }
    rewrite Hzero in Hperm, Hheight.
    exists chart, ranked. split; [exact Hrun|]. split.
    - by rewrite Hperm, entries_of_zeros.
    - rewrite Hheight. unfold normalize_hist.
      rewrite sum_list_replicate, Nat.mul_0_r, andb_false_r.
      apply Forall_forall. intros h Hh.
      apply list_elem_of_fmap in Hh as (c & -> & Hc).
      apply elem_of_replicate in Hc as [-> _]. done. }
  split; [exact Hgeneral|].
  intros Hforeign. apply Hgeneral.
  eapply Forall_impl; [exact Hforeign|]. intros r. apply foreign_no_sample.
Qed.

(** An omitted identifier that is not a key stops both functions with the
    TypeError of the omit step, before any record is read. *)
Lemma unknown_omit_rejected (data : list fitacf) (tb : list (pykey * qband))
    (date_bin : string) (normalize : bool) (boundary : option qband)
    (omit_bands : option omit_arg) (show_txt : bool) (keys : list Z) :
  (boundary = None -> tb <> []) ->
  resolved tb omit_bands = None ->
  int_keys (map fst (List.filter (fun kv => within (boundary_of boundary tb) kv.2) tb))
    = Ok keys ->
  plot_freq_scan_hist data (dict_of tb) normalize (nband <$> boundary) omit_bands show_txt
    = Err (TypeError "Invalid frequency bands to omit")
  /\ plot_freq_scan_2d_hist data (dict_of tb) date_bin normalize (nband <$> boundary)
                            omit_bands show_txt
    = Err (TypeError "Invalid frequency bands to omit").
Proof.
  intros Hb Hres Hkeys. split.
  - unfold plot_freq_scan_hist.
    stage check_numeric.
    rewrite generate_boundary_numeric by done; cbn [bind].
    stage gather_bands_numeric.
    by rewrite remove_bands_ntable, Hres.
  - unfold plot_freq_scan_2d_hist.
    stage check_numeric.
    rewrite generate_boundary_numeric by done; cbn [bind].
    stage gather_bands_2d_numeric.
    stage Hkeys.
    by rewrite remove_bands_ntable, Hres.
Qed.

(** A record whose tfreq lies in an omitted interval, bounds included,
    credits nothing to any band. *)
Lemma omitted_interval_not_counted (b : qband) (omitted bands : list qband)
    (r : fitacf) (f : Q) (v : qband) (i : nat) :
  tfreq r = Fin f -> v ∈ omitted -> (v.1 <= f)%Q -> (f <= v.2)%Q ->
  credit b omitted bands i r = 0%nat.
Proof.
  intros Hf Hv Hlo Hhi. apply credit_none.
  destruct (contribution b omitted r) as [[f' n]|] eqn:Hc; [|done].
  apply contribution_iff in Hc as (_ & Hf' & _ & Hom & _).
  rewrite Hf in Hf'. injection Hf' as <-.
  exfalso. by apply (Hom v).
Qed.

(** ** The default boundary *)

Lemma Qeq_bool_false_iff (x y : Q) : Qeq_bool x y = false <-> ~ (x == y)%Q.
Proof. rewrite <- not_true_iff_false, Qeq_bool_iff. done. Qed.

Lemma qband_lt_iff (x y : qband) :
  qband_lt x y = true
  <-> (x.1 < y.1)%Q \/ ((x.1 == y.1)%Q /\ (x.2 < y.2)%Q).
Proof.
  unfold qband_lt.
  destruct (Qeq_bool x.1 y.1) eqn:E1; simpl.
  - apply Qeq_bool_iff in E1.
    destruct (Qeq_bool x.2 y.2) eqn:E2; simpl.
    + apply Qeq_bool_iff in E2. split; [done|]. lra.
    + rewrite Qlt_bool_iff. split; [by right|]. lra.
  - apply Qeq_bool_false_iff in E1. rewrite Qlt_bool_iff. split; [by left|]. lra.
Qed.

Lemma qband_gt_iff (x y : qband) :
  qband_gt x y = true
  <-> (y.1 < x.1)%Q \/ ((x.1 == y.1)%Q /\ (y.2 < x.2)%Q).
Proof.
  unfold qband_gt.
  destruct (Qeq_bool x.1 y.1) eqn:E1; simpl.
  - apply Qeq_bool_iff in E1.
    destruct (Qeq_bool x.2 y.2) eqn:E2; simpl.
    + apply Qeq_bool_iff in E2. split; [done|]. lra.
    + rewrite Qlt_bool_iff. split; [by right|]. lra.
  - apply Qeq_bool_false_iff in E1. rewrite Qlt_bool_iff. split; [by left|]. lra.
Qed.

Lemma lex_le_refl (x : qband) : lex_le x x.
Proof. right. split; [reflexivity|apply Qle_refl]. Qed.

Lemma lex_le_trans (x y z : qband) : lex_le x y -> lex_le y z -> lex_le x z.
Proof. unfold lex_le. intros [?|[? ?]] [?|[? ?]]; [left|left|left|right]; lra. Qed.

Lemma pick_lowest (cur : qband) (l : list qband) :
  pick qband_lt cur l ∈ cur :: l
  /\ forall x, x ∈ cur :: l -> lex_le (pick qband_lt cur l) x.
Proof.
  unfold pick. revert cur. induction l as [|y l IH]; intros cur; simpl.
  - split; [by apply list_elem_of_singleton|].
    intros x Hx. apply list_elem_of_singleton in Hx as ->. apply lex_le_refl.
  - destruct (IH (if qband_lt y cur then y else cur)) as [Hin Hle].
    split.
    + apply elem_of_cons in Hin as [->|Hin].
      * destruct (qband_lt y cur); [right; by left|by left].
      * right. by right.
    + intros x Hx.
      assert (lex_le (if qband_lt y cur then y else cur) cur
              /\ lex_le (if qband_lt y cur then y else cur) y) as [Hc Hy].
      { destruct (qband_lt y cur) eqn:E.
        - split; [|apply lex_le_refl].
          apply qband_lt_iff in E. unfold lex_le. lra.
        - split; [apply lex_le_refl|].
          assert (~ ((y.1 < cur.1)%Q \/ ((y.1 == cur.1)%Q /\ (y.2 < cur.2)%Q))) as Hn.
          { rewrite <- qband_lt_iff. congruence. }
          unfold lex_le. lra. }
      apply elem_of_cons in Hx as [->|Hx].
      * eapply lex_le_trans; [|exact Hc]. apply Hle. by left.
      * apply elem_of_cons in Hx as [->|Hx].
        -- eapply lex_le_trans; [|exact Hy]. apply Hle. by left.
        -- apply Hle. by right.
Qed.

Lemma pick_greatest (cur : qband) (l : list qband) :
  pick qband_gt cur l ∈ cur :: l
  /\ forall x, x ∈ cur :: l -> lex_le x (pick qband_gt cur l).
Proof.
  unfold pick. revert cur. induction l as [|y l IH]; intros cur; simpl.
  - split; [by apply list_elem_of_singleton|].
    intros x Hx. apply list_elem_of_singleton in Hx as ->. apply lex_le_refl.
  - destruct (IH (if qband_gt y cur then y else cur)) as [Hin Hle].
    split.
    + apply elem_of_cons in Hin as [->|Hin].
      * destruct (qband_gt y cur); [right; by left|by left].
      * right. by right.
    + intros x Hx.
      assert (lex_le cur (if qband_gt y cur then y else cur)
              /\ lex_le y (if qband_gt y cur then y else cur)) as [Hc Hy].
      { destruct (qband_gt y cur) eqn:E.
        - split; [|apply lex_le_refl].
          apply qband_gt_iff in E. unfold lex_le. lra.
        - split; [apply lex_le_refl|].
          assert (~ ((cur.1 < y.1)%Q \/ ((y.1 == cur.1)%Q /\ (cur.2 < y.2)%Q))) as Hn.
          { rewrite <- qband_gt_iff. congruence. }
          unfold lex_le. lra. }
      apply elem_of_cons in Hx as [->|Hx].
      * eapply lex_le_trans; [exact Hc|]. apply Hle. by left.
      * apply elem_of_cons in Hx as [->|Hx].
        -- eapply lex_le_trans; [exact Hy|]. apply Hle. by left.
        -- apply Hle. by right.
Qed.

(** On bands with low <= high the default boundary starts at the least of
    the lows; it ends at the high of the band that is greatest in
    lexicographic order, which is the greatest of the highs when the highs
    grow with the lows, as they do for bands that do not overlap. *)
Lemma default_boundary_extent (v : qband) (l : list qband) :
  Forall (fun x => (x.1 <= x.2)%Q) (v :: l) ->
  (exists x, x ∈ v :: l /\ (default_boundary v l).1 = x.1)
  /\ (forall x, x ∈ v :: l -> ((default_boundary v l).1 <= x.1)%Q)
  /\ (exists g, g ∈ v :: l /\ ((default_boundary v l).2 == g.2)%Q
                /\ forall x, x ∈ v :: l -> lex_le x g)
  /\ ((forall x y, x ∈ v :: l -> y ∈ v :: l -> (x.1 < y.1)%Q -> (x.2 <= y.2)%Q) ->
      forall x, x ∈ v :: l -> (x.2 <= (default_boundary v l).2)%Q).
Proof.
  intros Hwf.
  destruct (pick_lowest v l) as [Hlin Hlle].
  destruct (pick_greatest v l) as [Hgin Hgle].
  assert (forall x, x ∈ v :: l -> (x.1 <= x.2)%Q) as Hwf'.
  { intros x Hx. by eapply Forall_forall in Hwf. }
  assert ((default_boundary v l).1 = (pick qband_lt v l).1) as Hlo.
  { unfold default_boundary; simpl.
    destruct (Qlt_bool _ _) eqn:E; [|done].
    apply Qlt_bool_iff in E. specialize (Hwf' _ Hlin). lra. }
  assert ((default_boundary v l).2 == (pick qband_gt v l).2)%Q as Hhi.
  { unfold default_boundary; simpl.
    destruct (Qlt_bool _ _) eqn:E; [reflexivity|].
    assert (~ ((pick qband_gt v l).1 < (pick qband_gt v l).2)%Q) as Hn.
    { rewrite <- Qlt_bool_iff. congruence. }
    specialize (Hwf' _ Hgin). lra. }
  split; [by exists (pick qband_lt v l)|].
  split.
  { intros x Hx. rewrite Hlo. destruct (Hlle x Hx) as [?|[? ?]]; lra. }
  split; [by exists (pick qband_gt v l)|].
  intros Hmono x Hx. rewrite Hhi.
  destruct (Hgle x Hx) as [Hlt|[_ Hle]]; [|done].
  by apply (Hmono x (pick qband_gt v l)).
Qed.

(** * The two functions on sample inputs *)

(** Four records of two points each, two in each of two bands: the raw
    histogram is [4, 4] and the bars are 4/8 high. *)
Example two_bands_evenly_filled :
  generate_hist (nband (khz 8000 12000)) None
                [nband (khz 8000 10000); nband (khz 10000 12000)]
                [record_at 2 9000 [0; 0] 14; record_at 2 9000 [0; 0] 14;
                 record_at 2 11000 [0; 0] 16; record_at 2 11000 [0; 0] 16]
    = Ok [4; 4]%nat
  /\ bar_height <$> drawn (plot_freq_scan_hist
           [record_at 2 9000 [0; 0] 14; record_at 2 9000 [0; 0] 14;
            record_at 2 11000 [0; 0] 16; record_at 2 11000 [0; 0] 16]
           (dict_of [(KStr "0", khz 8000 10000); (KStr "1", khz 10000 12000)])
           true None None true)
    = Ok [(4 # 8)%Q; (4 # 8)%Q].
Proof. split; reflexivity. Qed.

(** A column [3, 1] becomes [3/4, 1/4]; a column of zeros stays. *)
Example column_3_1 :
  normalize_columns true 2 (map (map of_count) [[3; 0]; [1; 0]]%nat)
  = [[(3 # 4)%Q; 0%Q]; [(1 # 4)%Q; 0%Q]].
Proof. reflexivity. Qed.

(** Counts 5, 9 and 2 rank the second band first and the third last. *)
Example ranking_5_9_2 :
  map Band <$> ordered_bands [nband (khz 1 2); nband (khz 2 3); nband (khz 3 4)]
                             [5; 9; 2]%nat
  = Ok [1; 0; 2].
Proof. reflexivity. Qed.

(** C1, on a sample: three records of channel 2 in the three bands, binned
    by hour. *)
Lemma extractor_contract_witness :
  gather_dates "hour" three_records
    = Ok ([at_hour 14; at_hour 16; at_hour 18], Some (at_hour 18))
  /\ generate_hist (nband (khz 8000 14000)) None (map nband (map snd three_bands))
                   three_records
     = Ok [2; 1; 3]%nat
  /\ exists hist2d date',
       generate_hist2d "hour" (nband (khz 8000 14000)) None
                       (map nband (map snd three_bands))
                       [at_hour 14; at_hour 16; at_hour 18] (Some (at_hour 18))
                       three_records = Ok (hist2d, date')
       /\ map sum_list hist2d = [2; 1; 3]%nat.
Proof.
  assert (gather_dates "hour" three_records
          = Ok ([at_hour 14; at_hour 16; at_hour 18], Some (at_hour 18))) as Hdates
    by reflexivity.
  split; [exact Hdates|].
  destruct (extractor_contract (khz 8000 14000) None (map snd three_bands) "hour"
              three_records _ _ Hdates) as (H1 & H2 & _).
  split; [exact H1|exact H2].
Defined.

(** C2 on nested bands: the default boundary of
    [{'0': [8000, 12000], '1': [9000, 10000]}] is (8000, 10000), although
    the highest frequency of the table is 12000; [max] takes the list that
    is greatest in lexicographic order, [9000, 10000], and then its
    greatest element. *)
Theorem default_boundary_of_nested_bands :
  generate_boundary None (ntable nested_bands) = Ok (nband (khz 8000 10000))
  /\ Forall (fun kv => (kv.2.1 <= kv.2.2)%Q) nested_bands
  /\ (khz 8000 12000) ∈ map snd nested_bands.
Proof.
  split; [reflexivity|]. split.
  - repeat constructor; simpl; by apply Qle_bool_iff.
  - apply elem_of_cons. by left.
Qed.

(** C3 on three bands with band 2 omitted: the records of the omitted
    band are not counted, and the band is still in the list the call
    returns, with count 0. *)
Theorem omitted_band_still_ranked :
  returned (plot_freq_scan_hist three_records (dict_of three_bands) true None
                                (Some (OmitInt 2)) true)
  = Ok [ {| Band := 0; Freq_Range := nband (khz 8000 10000); Count := 2 |};
         {| Band := 1; Freq_Range := nband (khz 10000 12000); Count := 1 |};
         {| Band := 2; Freq_Range := nband (khz 12000 14000); Count := 0 |} ]
  /\ returned (plot_freq_scan_2d_hist three_records (dict_of three_bands) "hour" true None
                                      (Some (OmitInt 2)) true)
  = Ok [ {| Band := 0; Freq_Range := nband (khz 8000 10000); Count := 2 |};
         {| Band := 1; Freq_Range := nband (khz 10000 12000); Count := 1 |};
         {| Band := 2; Freq_Range := nband (khz 12000 14000); Count := 0 |} ].
Proof. split; reflexivity. Qed.

(** C4 on a record at 14 h followed by a record at 13 h: the two points of
    the record at 13 h are added to the bucket of 14 h, the value the
    variable [date] still has; and a record at 13 h alone stops the call
    with an unbound variable. *)
Theorem odd_hour_counted_in_last_bucket :
  generate_hist2d "hour" (nband (khz 8000 10000)) None [nband (khz 8000 10000)]
                  [at_hour 14] (Some (at_hour 14))
                  [record_at 2 9000 [0] 14; record_at 2 9000 [0; 0] 13]
    = Ok ([[3%nat]], Some (at_hour 14))
  /\ drawn (plot_freq_scan_2d_hist
              [record_at 2 9000 [0] 14; record_at 2 9000 [0; 0] 13]
              (dict_of one_band) "hour" false None None true)
     = Ok {| image := [[Fin 3]]; xticks := [at_hour 14]; yticks := [0] |}
  /\ plot_freq_scan_2d_hist [record_at 2 9000 [0; 0] 13]
                            (dict_of one_band) "hour" false None None true
     = Err unbound_date.
Proof. repeat split; reflexivity. Qed.

(** C5 on the table [{'5': ..., '7': ...}]: the entries carry the positions
    0 and 1 of the bands in the filtered list, not the keys 5 and 7. *)
Theorem band_is_position_not_key :
  returned (plot_freq_scan_hist [record_at 2 11000 [0] 14] (dict_of bands_5_7)
                                true None None true)
  = Ok [ {| Band := 1; Freq_Range := nband (khz 10000 12000); Count := 1 |};
         {| Band := 0; Freq_Range := nband (khz 8000 10000); Count := 0 |} ]
  /\ returned (plot_freq_scan_2d_hist [record_at 2 11000 [0] 14] (dict_of bands_5_7)
                                      "hour" true None None true)
  = Ok [ {| Band := 1; Freq_Range := nband (khz 10000 12000); Count := 1 |};
         {| Band := 0; Freq_Range := nband (khz 8000 10000); Count := 0 |} ]
  /\ int_keys (map fst bands_5_7) = Ok [5; 7].
Proof. repeat split; reflexivity. Qed.

(** C6 as stated fails: a single record of channel 1 does not stop
    [plot_freq_scan_hist]; the call returns the band with count 0. *)
Lemma foreign_channel_returns :
  Forall (fun r => channel r <> 2) [record_at 1 9000 [0; 0] 14]
  /\ returned (plot_freq_scan_hist [record_at 1 9000 [0; 0] 14] (dict_of one_band)
                                   true None None true)
     = Ok [ {| Band := 0; Freq_Range := nband (khz 8000 10000); Count := 0 |} ].
Proof. split; [by repeat constructor|reflexivity]. Qed.

Lemma empty_extraction_returns_witness :
  exists chart ranked,
    plot_freq_scan_hist [record_at 1 9000 [0; 0] 14; record_at 3 11000 [0] 15]
                        (dict_of three_bands) true None (Some (OmitInt 2)) true
    = Ok (chart, ranked)
    /\ ranked ≡ₚ [ {| Band := 0; Freq_Range := nband (khz 8000 10000); Count := 0 |};
                   {| Band := 1; Freq_Range := nband (khz 10000 12000); Count := 0 |};
                   {| Band := 2; Freq_Range := nband (khz 12000 14000); Count := 0 |} ]
    /\ Forall (fun height => height = 0%Q) (bar_height chart).
Proof.
  apply (empty_extraction_returns
           [record_at 1 9000 [0; 0] 14; record_at 3 11000 [0] 15]
           three_bands true None (Some (OmitInt 2)) (Some [khz 12000 14000]) true).
  - discriminate.
  - reflexivity.
  - reflexivity.
  - vm_compute. discriminate.
  - repeat constructor; simpl; lia.
Defined.

Lemma normalization_contract_witness :
  (sum_list [3; 1]%nat <> 0%nat ->
     normalize_hist true [3; 1]%nat
     = map (fun x => (of_count x / of_count (sum_list [3; 1]%nat))%Q) [3; 1]%nat)
  /\ (column_count [[3; 0]; [1; 0]]%nat 0 <> 0%nat ->
        cell (normalize_columns true 2 (map (map of_count) [[3; 0]; [1; 0]]%nat)) 1 0
        = Some (of_count 1 / Qsum (column_of (map (map of_count) [[3; 0]; [1; 0]]%nat) 0))%Q).
Proof.
  destruct (normalization_contract [3; 1]%nat [[3; 0]; [1; 0]]%nat 2 1 0 1)
    as (H1 & _ & _ & H4 & _).
  - lia.
  - reflexivity.
  - split; [exact H1|exact H4].
Defined.

(** C9 as stated fails: a band whose two elements are strings passes the
    format check, and [plot_freq_scan_2d_hist] returns. *)
Lemma letter_band_accepted :
  numeric_pair (VList [AStr "a"; AStr "b"]) = false
  /\ check_freq_bands letter_bands = Ok [(KStr "0", (AStr "a", AStr "b"))]
  /\ returned (plot_freq_scan_2d_hist [nan_record] letter_bands "hour" true None None true)
     = Ok [ {| Band := 0; Freq_Range := (AStr "a", AStr "b"); Count := 0 |} ].
Proof. repeat split; reflexivity. Qed.

Lemma format_check_first_witness :
  plot_freq_scan_hist three_records triple_bands true None None true
    = Err (TypeError "Invalid frequency band format")
  /\ plot_freq_scan_2d_hist three_records triple_bands "hour" true None None true
    = Err (TypeError "Invalid frequency band format").
Proof.
  apply (format_check_first three_records triple_bands "hour" true None None true).
  reflexivity.
Defined.

Lemma omit_resolved_by_str_witness :
  plot_freq_scan_hist three_records (dict_of (int_keyed int_bands)) true None
                      (Some (OmitList [KInt 1])) true
    = Err (TypeError "Invalid frequency bands to omit")
  /\ plot_freq_scan_2d_hist three_records (dict_of (int_keyed int_bands)) "hour" true
                            None (Some (OmitList [KInt 1])) true
    = Err (TypeError "Invalid frequency bands to omit")
  /\ remove_bands (ntable three_bands) (Some (OmitInt 2))
     = Ok (Some [nband (khz 12000 14000)]).
Proof.
  apply (omit_resolved_by_str three_records int_bands "hour" true None
           (OmitList [KInt 1]) true (ntable three_bands) 2 (nband (khz 12000 14000))).
  - discriminate.
  - discriminate.
  - reflexivity.
Defined.

(** * Further properties of the two functions *)

(** ** The columns of the matrix *)

(** The first loop assigns the bucket of the record, the same whatever
    [date] held, or leaves [date] as it is. *)
Lemma assign_date_cases (date_bin : string) (r : fitacf) (date date' : option datetime) :
  assign_date date_bin r date = Ok date' ->
  (exists d, date' = Some d /\ forall date0, assign_date date_bin r date0 = Ok (Some d))
  \/ (date' = date /\ forall date0, assign_date date_bin r date0 = Ok date0).
Proof.
  unfold assign_date. intros Ha.
  repeat match type of Ha with
  | (if ?c then _ else _) = _ => destruct c
  | bind ?m _ = _ => destruct m as [d|]; simpl in Ha
  end; try discriminate.
  all: try (left; exists d; split; [congruence|done]).
  right. split; [congruence|done].
Qed.

Lemma dates_step_distinct (date_bin : string) (seen : list fitacf) (r : fitacf)
    (st st' : list datetime * option datetime) :
  (NoDup st.1
   /\ (forall d, st.2 = Some d -> d ∈ st.1)
   /\ (forall d, d ∈ st.1 ->
         exists x, x ∈ seen /\ channel x = 2 /\ assign_date date_bin x None = Ok (Some d))
   /\ (forall x d, x ∈ seen -> channel x = 2 ->
         assign_date date_bin x None = Ok (Some d) -> d ∈ st.1)
   /\ (length st.1 <= length (List.filter (fun x => Z.eqb (channel x) 2) seen))%nat) ->
  dates_step date_bin st r = Ok st' ->
  NoDup st'.1
  /\ (forall d, st'.2 = Some d -> d ∈ st'.1)
  /\ (forall d, d ∈ st'.1 ->
        exists x, x ∈ seen ++ [r] /\ channel x = 2
                  /\ assign_date date_bin x None = Ok (Some d))
  /\ (forall x d, x ∈ seen ++ [r] -> channel x = 2 ->
        assign_date date_bin x None = Ok (Some d) -> d ∈ st'.1)
  /\ (length st'.1 <= length (List.filter (fun x => Z.eqb (channel x) 2) (seen ++ [r])))%nat.
Proof.
  intros (Hnd & Hdate & Hfrom & Hall & Hlen). unfold dates_step.
  rewrite List.filter_app, length_app. simpl.
  destruct (Z.eqb_spec (channel r) 2) as [Hch|Hch]; simpl.
  2: { intros [= <-]. split; [done|]. split; [done|]. split; [|split].
       - intros d Hd. destruct (Hfrom d Hd) as (x & Hx & ?).
         exists x. split; [|done]. apply elem_of_app. by left.
       - intros x d Hx Hcx. apply elem_of_app in Hx as [Hx|Hx]; [by apply Hall|].
         apply list_elem_of_singleton in Hx as ->. done.
       - lia. }
  destruct (assign_date date_bin r st.2) as [date'|] eqn:Ha; simpl; [|done].
  destruct (use_date date') as [d|] eqn:Hu; simpl; [|done].
  assert (date' = Some d) as -> by (destruct date'; simpl in Hu; congruence).
  intros Hst'.
  assert (forall d', d' ∈ st.1 ->
            exists x, x ∈ seen ++ [r] /\ channel x = 2
                      /\ assign_date date_bin x None = Ok (Some d')) as Hfrom'.
  { intros d' Hd'. destruct (Hfrom d' Hd') as (x & Hx & ?).
    exists x. split; [|done]. apply elem_of_app. by left. }
  destruct (assign_date_cases _ _ _ _ Ha) as [(d0 & [= <-] & Hfresh)|[Hkept Hstale]].
  - (* the record has a bucket of its own *)
    destruct (existsb (datetime_eqb d) st.1) eqn:E; injection Hst' as <-; simpl.
    + apply existsb_datetime in E.
      split; [done|]. split; [by intros ? [= <-]|]. split; [done|]. split; [|lia].
      intros x d' Hx Hcx Hb. apply elem_of_app in Hx as [Hx|Hx]; [by eapply Hall|].
      apply list_elem_of_singleton in Hx as ->. rewrite Hfresh in Hb. congruence.
    + assert (d ∉ st.1) as Hnew.
      { intros Hin. apply existsb_datetime in Hin. congruence. }
      split; [apply NoDup_app; repeat split; try done;
              [intros y Hy Hy'; apply list_elem_of_singleton in Hy' as ->; done
              |apply NoDup_singleton]|].
      split; [intros ? [= <-]; apply elem_of_app; right; by apply list_elem_of_singleton|].
      split; [|split].
      * intros d' Hd'. apply elem_of_app in Hd' as [Hd'|Hd']; [by apply Hfrom'|].
        apply list_elem_of_singleton in Hd' as ->.
        exists r. split; [apply elem_of_app; right; by apply list_elem_of_singleton|].
        split; [done|apply Hfresh].
      * intros x d' Hx Hcx Hb. apply elem_of_app.
        apply elem_of_app in Hx as [Hx|Hx]; [left; by eapply Hall|].
        apply list_elem_of_singleton in Hx as ->. rewrite Hfresh in Hb.
        right. apply list_elem_of_singleton. congruence.
      * rewrite length_app. simpl. lia.
  - (* the variable keeps the date of an earlier record *)
    assert (d ∈ st.1) as Hd by (apply Hdate; congruence).
    apply existsb_datetime in Hd. rewrite Hd in Hst'. injection Hst' as <-; simpl.
    apply existsb_datetime in Hd.
    split; [done|]. split; [by intros ? [= <-]|]. split; [done|]. split; [|lia].
    intros x d' Hx Hcx Hb. apply elem_of_app in Hx as [Hx|Hx]; [by eapply Hall|].
    apply list_elem_of_singleton in Hx as ->. rewrite Hstale in Hb. discriminate.
Qed.

Lemma gather_dates_collected (date_bin : string) (data : list fitacf)
    (dates : list datetime) (date : option datetime) :
  gather_dates date_bin data = Ok (dates, date) ->
  NoDup dates
  /\ (forall d, d ∈ dates ->
        exists r, r ∈ data /\ channel r = 2
                  /\ assign_date date_bin r None = Ok (Some d))
  /\ (forall r d, r ∈ data -> channel r = 2 ->
                  assign_date date_bin r None = Ok (Some d) -> d ∈ dates)
  /\ (length dates <= length (List.filter (fun r => Z.eqb (channel r) 2) data))%nat.
Proof.
  intros Hrun.
  pose proof (for_each_ok_invariant (dates_step date_bin)
    (fun seen st =>
       NoDup st.1
       /\ (forall d, st.2 = Some d -> d ∈ st.1)
       /\ (forall d, d ∈ st.1 ->
             exists x, x ∈ seen /\ channel x = 2
                       /\ assign_date date_bin x None = Ok (Some d))
       /\ (forall x d, x ∈ seen -> channel x = 2 ->
             assign_date date_bin x None = Ok (Some d) -> d ∈ st.1)
       /\ (length st.1 <= length (List.filter (fun x => Z.eqb (channel x) 2) seen))%nat)
    (dates_step_distinct date_bin) data [] ([], None) (dates, date)) as Hinv.
  destruct Hinv as (Hnd & _ & Hfrom & Hall & Hlen); [|done|].
  { split; [apply NoDup_nil_2|]. split; [done|]. split.
    - intros d Hd. by apply elem_of_nil in Hd.
    - split; [|simpl; lia]. intros x d Hx. by apply elem_of_nil in Hx. }
  simpl in *. done.
Qed.

(** X1. The dates the first loop of [plot_freq_scan_2d_hist] collects are
    pairwise distinct; they are exactly the buckets of the records of
    channel 2 that have one, so there are at most as many as such records. *)
Theorem dates_are_the_buckets (date_bin : string) (data : list fitacf)
    (dates : list datetime) (date : option datetime) :
  gather_dates date_bin data = Ok (dates, date) ->
  NoDup dates
  /\ (forall d, d ∈ dates <->
        exists r, r ∈ data /\ channel r = 2
                  /\ assign_date date_bin r None = Ok (Some d))
  /\ (length dates <= length (List.filter (fun r => Z.eqb (channel r) 2) data))%nat.
Proof.
  intros Hrun.
  destruct (gather_dates_collected _ _ _ _ Hrun) as (Hdistinct & Hfrom & Hall & Hlen).
  split; [exact Hdistinct|]. split; [|exact Hlen].
  intros d. split.
  - apply Hfrom.
  - intros (r & Hr & Hch & Hbucket). by apply (Hall r d).
Qed.

Lemma dates_are_the_buckets_witness :
  NoDup [at_hour 14; at_hour 16; at_hour 18]
  /\ (length [at_hour 14; at_hour 16; at_hour 18] <= 3)%nat.
Proof.
  destruct (dates_are_the_buckets "hour" three_records
              [at_hour 14; at_hour 16; at_hour 18] (Some (at_hour 18)))
    as (H1 & _ & H3).
  - reflexivity.
  - split; [exact H1|exact H3].
Defined.

Lemma month_bucket (r : fitacf) (d : datetime) :
  assign_date "month" r None = Ok (Some d) -> d ∈ month_buckets.
Proof.
  unfold assign_date, py_datetime; simpl.
  destruct (Z.leb_spec 1 (time_mo r)); simpl; [|done].
  destruct (Z.leb_spec (time_mo r) 12); simpl; [|done].
  replace (1 <=? days_in_month 1 (time_mo r)) with true; simpl.
  2: { symmetry. apply Z.leb_le. unfold days_in_month.
       repeat match goal with |- context [if ?c then _ else _] => destruct c end; lia. }
  intros [= <-].
  assert (time_mo r ∈ [1; 2; 3; 4; 5; 6; 7; 8; 9; 10; 11; 12]) as Hm
    by (apply list_elem_of_In; simpl; lia).
  unfold month_buckets. change (map ?f ?l) with (f <$> l).
  by apply (list_elem_of_fmap_2
              (fun m => {| year := 1; month := m; day := 1; hour := 0 |})).
Qed.

Lemma hour_bucket (r : fitacf) (d : datetime) :
  assign_date "hour" r None = Ok (Some d) -> d ∈ hour_buckets.
Proof.
  unfold assign_date, py_datetime; simpl.
  destruct (Z.eqb_spec (time_hr r mod 2) 0) as [Heven|]; simpl; [|done].
  destruct (Z.leb_spec 0 (time_hr r)); simpl; [|done].
  destruct (Z.leb_spec (time_hr r) 23); simpl; [|done].
  intros [= <-].
  assert (time_hr r ∈ [0; 2; 4; 6; 8; 10; 12; 14; 16; 18; 20; 22]) as Hh.
  { pose proof (Z_div_mod_eq_full (time_hr r) 2).
    apply list_elem_of_In; simpl; lia. }
  unfold hour_buckets. change (map ?f ?l) with (f <$> l).
  by apply (list_elem_of_fmap_2 at_hour).
Qed.

Lemma distinct_within (l k : list datetime) :
  NoDup l -> (forall d, d ∈ l -> d ∈ k) -> (length l <= length k)%nat.
Proof.
  intros Hnd Hsub. apply submseteq_length. by apply NoDup_submseteq.
Qed.

(** X2. With [date_bin = 'month'] the year is left out of the bucket, and
    with [date_bin = 'hour'] only even hours make a bucket: in both cases
    the matrix has at most twelve columns, however long the data run. *)
Theorem month_and_hour_columns (date_bin : string) (data : list fitacf)
    (dates : list datetime) (date : option datetime) :
  gather_dates date_bin data = Ok (dates, date) ->
  (date_bin = "month" ->
     (length dates <= 12)%nat
     /\ Forall (fun d => year d = 1 /\ 1 <= month d <= 12 /\ day d = 1 /\ hour d = 0) dates)
  /\ (date_bin = "hour" ->
        (length dates <= 12)%nat
        /\ Forall (fun d => year d = 1 /\ month d = 1 /\ day d = 1
                            /\ 0 <= hour d <= 22 /\ hour d mod 2 = 0) dates).
Proof.
  intros Hrun.
  destruct (gather_dates_collected _ _ _ _ Hrun) as (Hnd & Hiff & _).
  split; intros ->.
  - assert (forall d, d ∈ dates -> d ∈ month_buckets) as Hsub.
    { intros d Hd. apply Hiff in Hd as (r & _ & _ & Hb). by eapply month_bucket. }
    split; [apply (distinct_within _ _ Hnd Hsub)|].
    apply Forall_forall. intros d Hd. specialize (Hsub d Hd).
    unfold month_buckets in Hsub.
    apply list_elem_of_fmap in Hsub as (m & -> & Hm). simpl.
    repeat (apply elem_of_cons in Hm as [->|Hm]; [lia|]). by apply elem_of_nil in Hm.
  - assert (forall d, d ∈ dates -> d ∈ hour_buckets) as Hsub.
    { intros d Hd. apply Hiff in Hd as (r & _ & _ & Hb). by eapply hour_bucket. }
    split; [apply (distinct_within _ _ Hnd Hsub)|].
    apply Forall_forall. intros d Hd. specialize (Hsub d Hd).
    unfold hour_buckets in Hsub.
    apply list_elem_of_fmap in Hsub as (h & -> & Hh). simpl.
    repeat (apply elem_of_cons in Hh as [->|Hh]; [by repeat split|]).
    by apply elem_of_nil in Hh.
Qed.

Lemma month_and_hour_columns_witness :
  (length [at_hour 14; at_hour 16; at_hour 18] <= 12)%nat.
Proof.
  destruct (month_and_hour_columns "hour" three_records
              [at_hour 14; at_hour 16; at_hour 18] (Some (at_hour 18)))
    as (_ & Hhour).
  - reflexivity.
  - by destruct (Hhour eq_refl).
Defined.

(** ** An unknown [date_bin] *)

Lemma assign_date_unknown (date_bin : string) (r : fitacf) (date : option datetime) :
  known_date_bin date_bin = false ->
  assign_date date_bin r date = Err (ValueError ("Invalid date bin type: " ++ date_bin)).
Proof.
  unfold known_date_bin, assign_date. intros H.
  repeat (apply orb_false_iff in H as [H ?]). by rewrite H, H0, H1, H2.
Qed.

Lemma gather_dates_unknown (date_bin : string) (data : list fitacf)
    (st : list datetime * option datetime) :
  known_date_bin date_bin = false ->
  Exists (fun r => channel r = 2) data ->
  for_each (dates_step date_bin) st data
  = Err (ValueError ("Invalid date bin type: " ++ date_bin)).
Proof.
  intros Hbin. induction 1 as [r data Hr|r data Hdata IH]; simpl.
  - unfold dates_step. rewrite Hr. simpl. by rewrite assign_date_unknown.
  - unfold dates_step at 1. destruct (channel r =? 2); simpl; [|apply IH].
    by rewrite assign_date_unknown.
Qed.

Ltac next_stage :=
  match goal with
  | |- context [bind ?m _] =>
      let v := fresh "v" in
      destruct m as [v|?]; cbn [bind];
      [try match type of v with (_ * _)%type => destruct v end|by eauto]
  end.

(** X3. A [date_bin] other than 'year', 'month', 'day' and 'hour' never
    lets [plot_freq_scan_2d_hist] return.  On a numeric band table whose
    kept keys convert and whose omitted identifiers resolve, the first
    record of channel 2 stops the call with ValueError('Invalid date bin
    type: ' + date_bin), in the first loop, before anything is counted. *)
Theorem unknown_date_bin_rejected (data : list fitacf) (date_bin : string)
    (normalize show_txt : bool) :
  known_date_bin date_bin = false ->
  (forall freq_bands boundary omit_bands,
     exists e, plot_freq_scan_2d_hist data freq_bands date_bin normalize boundary
                                      omit_bands show_txt = Err e)
  /\ (forall (tb : list (pykey * qband)) (boundary : option qband) omit_bands omitted keys,
        (boundary = None -> tb <> []) ->
        resolved tb omit_bands = Some omitted ->
        int_keys (map fst (List.filter (fun kv => within (boundary_of boundary tb) kv.2) tb))
          = Ok keys ->
        Exists (fun r => channel r = 2) data ->
        plot_freq_scan_2d_hist data (dict_of tb) date_bin normalize (nband <$> boundary)
                               omit_bands show_txt
        = Err (ValueError ("Invalid date bin type: " ++ date_bin))).
Proof.
  intros Hbin. split.
  - intros freq_bands boundary omit_bands. unfold plot_freq_scan_2d_hist.
    do 9 next_stage. rewrite Hbin. cbn [bind]. eauto.
  - intros tb boundary omit_bands omitted keys Hb Hres Hkeys Hch.
    unfold plot_freq_scan_2d_hist.
    stage check_numeric.
    rewrite generate_boundary_numeric by done; cbn [bind].
    stage gather_bands_2d_numeric.
    stage Hkeys.
    rewrite remove_bands_ntable, Hres; cbn [bind].
    unfold gather_dates. by rewrite gather_dates_unknown.
Qed.

Lemma unknown_date_bin_rejected_witness :
  plot_freq_scan_2d_hist three_records (dict_of three_bands) "week" true None None true
  = Err (ValueError "Invalid date bin type: week").
Proof.
  destruct (unknown_date_bin_rejected three_records "week" true true eq_refl)
    as (_ & Hfirst).
  apply (Hfirst three_bands None None None [0; 1; 2]).
  - discriminate.
  - reflexivity.
  - reflexivity.
  - repeat constructor.
Defined.

(** ** Omitted bands *)

Lemma omitted_band_total (b : qband) (omitted bands : list qband) (data : list fitacf)
    (i : nat) (v : qband) :
  bands !! i = Some v -> v ∈ omitted -> band_total b omitted bands data i = 0%nat.
Proof.
  intros Hi Hv. unfold band_total.
  induction data as [|r data IH]; simpl; [done|].
  rewrite IH, Nat.add_0_r. unfold credit.
  destruct (contribution b omitted r) as [[f n]|] eqn:Hc; [|done].
  destruct (decide (owner bands f = Some i)) as [Ho|]; [|done].
  exfalso.
  apply contribution_iff in Hc as (_ & _ & _ & Hom & _).
  apply owner_first in Ho as [(w & Hw & Hin) _].
  pose proof (eq_trans (eq_sym Hi) Hw) as E. injection E as ->. by apply (Hom w).
Qed.

Lemma row_of_zeros (row : list nat) :
  sum_list row = 0%nat -> row = replicate (length row) 0%nat.
Proof.
  induction row as [|x row IH]; simpl; [done|].
  intros H. assert (x = 0%nat) as -> by lia. f_equal. apply IH. lia.
Qed.

(** X4. A band that is both kept and omitted is never credited: in
    [plot_freq_scan_hist] its accumulator stays 0, and in
    [plot_freq_scan_2d_hist] its row of the matrix holds only zeros,
    whatever the records are (the dates being those of the first loop). *)
Theorem omitted_band_stays_empty (b : qband) (omitted : option (list qband))
    (bands : list qband) (date_bin : string) (data : list fitacf)
    (dates : list datetime) (date : option datetime) (i : nat) (v : qband) :
  gather_dates date_bin data = Ok (dates, date) ->
  bands !! i = Some v -> v ∈ omitted_of omitted ->
  (exists hist,
     generate_hist (nband b) (nremove omitted) (map nband bands) data = Ok hist
     /\ hist !! i = Some 0%nat)
  /\ (exists hist2d date',
        generate_hist2d date_bin (nband b) (nremove omitted) (map nband bands)
                        dates date data = Ok (hist2d, date')
        /\ hist2d !! i = Some (replicate (length dates) 0%nat)).
Proof.
  intros Hdates Hi Hv.
  assert (i < length bands)%nat as Hlt by (by eapply lookup_lt_Some).
  assert (expected_hist b (omitted_of omitted) bands data !! i = Some 0%nat) as Hzero.
  { unfold expected_hist. rewrite list_lookup_fmap, lookup_seq_lt by done. simpl.
    f_equal. by eapply omitted_band_total. }
  split.
  - eexists. split; [apply generate_hist_numeric|done].
  - destruct (generate_hist2d_numeric date_bin b omitted bands dates date data
                (gather_dates_settles _ _ _ _ Hdates))
      as (hist2d & date' & Hrun & Hlen & Hrows & Hsum).
    exists hist2d, date'. split; [done|].
    destruct (lookup_lt_is_Some_2 hist2d i ltac:(lia)) as [row Hrow].
    rewrite Hrow. f_equal.
    rewrite <- (proj1 (Forall_lookup _ _) Hrows i row Hrow).
    apply row_of_zeros.
    assert (map sum_list hist2d !! i = Some (sum_list row)) as Hs.
    { change (map ?f ?l) with (f <$> l). by rewrite list_lookup_fmap, Hrow. }
    rewrite Hsum, Hzero in Hs. by injection Hs.
Qed.

Lemma omitted_band_stays_empty_witness :
  (exists hist,
     generate_hist (nband (khz 8000 14000)) (Some [nband (khz 12000 14000)])
                   (map nband (map snd three_bands)) three_records = Ok hist
     /\ hist !! 2%nat = Some 0%nat)
  /\ (exists hist2d date',
        generate_hist2d "hour" (nband (khz 8000 14000)) (Some [nband (khz 12000 14000)])
                        (map nband (map snd three_bands))
                        [at_hour 14; at_hour 16; at_hour 18] (Some (at_hour 18))
                        three_records = Ok (hist2d, date')
        /\ hist2d !! 2%nat = Some [0; 0; 0]%nat).
Proof.
  apply (omitted_band_stays_empty (khz 8000 14000) (Some [khz 12000 14000])
           (map snd three_bands) "hour" three_records
           [at_hour 14; at_hour 16; at_hour 18] (Some (at_hour 18)) 2 (khz 12000 14000)).
  - reflexivity.
  - reflexivity.
  - simpl. apply list_elem_of_In. by left.
Defined.

(** ** Normalised counts add up to one *)

Lemma Qsum_cons (x : Q) (l : list Q) : (Qsum (x :: l) == x + Qsum l)%Q.
Proof. unfold Qsum at 1. simpl. rewrite Qsum_from. ring. Qed.

Lemma Qsum_map_div (l : list Q) (s : Q) :
  (Qsum (map (fun x => x / s) l) == Qsum l / s)%Q.
Proof.
  induction l as [|x l IH]; simpl.
  - unfold Qsum; simpl. unfold Qdiv. ring.
  - rewrite !Qsum_cons, IH. unfold Qdiv. ring.
Qed.

Lemma column_of_normalize_column (m : list (list Q)) (j : nat) :
  Forall (fun row => (j < length row)%nat) m ->
  column_of (normalize_column m j) j = map (scaled m j) (column_of m j).
Proof.
  intros Hrows. unfold normalize_column, column_of, scaled.
  destruct (Qlt_bool 0 _).
  - rewrite !map_map. apply map_ext_in. intros row Hrow.
    destruct (lookup_lt_is_Some_2 row j) as [x Hx].
    { apply (proj1 (Forall_forall _ _) Hrows). by apply list_elem_of_In. }
    rewrite !nth_lookup, list_lookup_alter_eq, Hx. done.
  - rewrite map_map. done.
Qed.

Lemma normalize_column_rows (m : list (list Q)) (a j : nat) :
  Forall (fun row => (j < length row)%nat) m ->
  Forall (fun row => (j < length row)%nat) (normalize_column m a).
Proof.
  intros H. unfold normalize_column. destruct (Qlt_bool 0 _); [|done].
  apply Forall_forall. intros row Hrow.
  apply list_elem_of_fmap in Hrow as (row0 & -> & Hrow0).
  rewrite length_alter. by apply (proj1 (Forall_forall _ _) H).
Qed.

Lemma column_of_normalize_later (m : list (list Q)) (a n j : nat) :
  (j < a)%nat -> column_of (fold_left normalize_column (seq a n) m) j = column_of m j.
Proof.
  revert a m. induction n as [|n IH]; intros a m Hj; simpl; [done|].
  rewrite IH by lia. apply column_of_normalize_column_ne. lia.
Qed.

Lemma column_of_normalize_from (m : list (list Q)) (a n j : nat) :
  Forall (fun row => (j < length row)%nat) m ->
  (a <= j < a + n)%nat ->
  column_of (fold_left normalize_column (seq a n) m) j = map (scaled m j) (column_of m j).
Proof.
  revert a m. induction n as [|n IH]; intros a m Hrows Hj; simpl; [lia|].
  destruct (decide (j = a)) as [->|Hne].
  - rewrite column_of_normalize_later by lia. by apply column_of_normalize_column.
  - rewrite IH; [|by apply normalize_column_rows|lia].
    rewrite column_of_normalize_column_ne by done.
    apply map_ext. intros x. by apply scaled_normalize_column_ne.
Qed.

(** X5. With [normalize] set, the bars of [plot_freq_scan_hist] add up to
    one as soon as one point was counted, and so does every column of the
    matrix of [plot_freq_scan_2d_hist] in which a point was counted. *)
Theorem normalized_counts_sum_to_one (hist : list nat) (h : list (list nat))
    (ncols j : nat) :
  (sum_list hist <> 0%nat -> (Qsum (normalize_hist true hist) == 1)%Q)
  /\ (Forall (fun row => length row = ncols) h -> (j < ncols)%nat ->
      column_count h j <> 0%nat ->
      (Qsum (column_of (normalize_columns true ncols (map (map of_count) h)) j) == 1)%Q).
Proof.
  split.
  - intros Hsum. unfold normalize_hist.
    destruct (Nat.eqb_spec (sum_list hist) 0) as [|_]; [done|]. simpl.
    rewrite <- (map_map of_count (fun x => (x / of_count (sum_list hist))%Q)).
    rewrite Qsum_map_div, Qsum_counts.
    apply of_count_pos in Hsum. field. intros E. rewrite E in Hsum.
    by apply Qlt_irrefl in Hsum.
  - intros Hrows Hj Hsum. unfold normalize_columns.
    rewrite column_of_normalize_from; [|
      apply Forall_forall; intros row Hrow;
      apply list_elem_of_fmap in Hrow as (row0 & -> & Hrow0);
      rewrite length_map, (proj1 (Forall_forall _ _) Hrows row0 Hrow0); done|lia].
    apply of_count_pos in Hsum. rewrite <- column_sum_counts in Hsum.
    assert (forall x, scaled (map (map of_count) h) j x
                      = (x / Qsum (column_of (map (map of_count) h) j))%Q) as Hscaled.
    { intros x. unfold scaled. by rewrite (proj2 (Qlt_bool_iff _ _) Hsum). }
    rewrite (map_ext _ _ Hscaled), Qsum_map_div.
    field. intros E. rewrite E in Hsum. by apply Qlt_irrefl in Hsum.
Qed.

Lemma normalized_counts_sum_to_one_witness :
  (Qsum (normalize_hist true [2; 1; 3]%nat) == 1)%Q
  /\ (Qsum (column_of (normalize_columns true 2 (map (map of_count) [[3; 0]; [1; 0]]%nat))
                      0) == 1)%Q.
Proof.
  destruct (normalized_counts_sum_to_one [2; 1; 3]%nat [[3; 0]; [1; 0]]%nat 2 0)
    as (H1 & H2).
  split.
  - apply H1. simpl. lia.
  - apply H2; [by repeat constructor|lia|vm_compute; lia].
Defined.

(** ** The histogram of a list of records *)

Lemma sum_list_permutation (l l' : list nat) : l ≡ₚ l' -> sum_list l = sum_list l'.
Proof. induction 1; simpl; lia. Qed.

Lemma map_pointwise_add (f g : nat -> nat) (l : list nat) :
  map (fun i => (f i + g i)%nat) l = zip_with Nat.add (map f l) (map g l).
Proof. induction l as [|i l IH]; simpl; [done|]. by rewrite IH. Qed.

(** X6. The counts of [plot_freq_scan_hist] do not depend on the order of
    the records, and the counts of two lists of records put end to end are
    the sums, band by band, of the counts of each list. *)
Theorem hist_of_joined_records (b : qband) (omitted : option (list qband))
    (bands : list qband) (first second : list fitacf) :
  (exists h1 h2,
     generate_hist (nband b) (nremove omitted) (map nband bands) first = Ok h1
     /\ generate_hist (nband b) (nremove omitted) (map nband bands) second = Ok h2
     /\ generate_hist (nband b) (nremove omitted) (map nband bands) (first ++ second)
        = Ok (zip_with Nat.add h1 h2))
  /\ forall shuffled, first ≡ₚ shuffled ->
       generate_hist (nband b) (nremove omitted) (map nband bands) shuffled
       = generate_hist (nband b) (nremove omitted) (map nband bands) first.
Proof.
  split.
  - eexists _, _. split; [apply generate_hist_numeric|].
    split; [apply generate_hist_numeric|].
    rewrite generate_hist_numeric. f_equal. unfold expected_hist.
    rewrite <- map_pointwise_add. apply map_ext. intros i.
    unfold band_total. by rewrite map_app, sum_list_append.
  - intros shuffled Hperm. rewrite !generate_hist_numeric. f_equal.
    unfold expected_hist. apply map_ext. intros i. unfold band_total.
    apply sum_list_permutation. change (map ?f ?l) with (f <$> l).
    by rewrite Hperm.
Qed.

(** ** The ranked list *)

(** X7. Order Bands: from the bands and their totals the two functions
    build one entry per band; the entries come by descending count, every
    position is listed once, and an entry carries the frequency range and
    the total of the band at the position it names. *)
Theorem ranked_list_contract (bands : list band) (totals : list nat) :
  length totals = length bands ->
  exists ranked,
    ordered_bands bands totals = Ok ranked
    /\ map Band ranked ≡ₚ map Z.of_nat (seq 0 (length bands))
    /\ StronglySorted (fun x y => (y <= x)%Z) (map Count ranked)
    /\ Forall (fun e => exists i c, Band e = Z.of_nat i
                                    /\ bands !! i = Some (Freq_Range e)
                                    /\ totals !! i = Some c
                                    /\ Count e = Z.of_nat c) ranked.
Proof.
  intros Hlen.
  destruct (ordered_bands_ranked bands totals Hlen) as (Hrun & Hperm & Hsorted).
  eexists. split; [exact Hrun|]. split; [|split; [exact Hsorted|]].
  - rewrite map_map. simpl. rewrite <- Hperm. by rewrite <- (map_map id Z.of_nat), map_id.
  - apply Forall_forall. intros e He.
    apply list_elem_of_fmap in He as (i & -> & Hi).
    assert (i < length bands)%nat as Hlt.
    { rewrite Hperm in Hi. apply elem_of_seq in Hi. lia. }
    destruct (lookup_lt_is_Some_2 bands i Hlt) as [v Hv].
    destruct (lookup_lt_is_Some_2 totals i ltac:(lia)) as [c Hc].
    exists i, c. unfold entry_of. simpl.
    by rewrite (nth_lookup_Some _ _ _ _ Hv), (nth_lookup_Some _ _ _ _ Hc).
Qed.

Lemma ranked_list_contract_witness :
  exists ranked,
    ordered_bands (map nband (map snd three_bands)) [2; 1; 3]%nat = Ok ranked
    /\ map Band ranked ≡ₚ [0; 1; 2]
    /\ StronglySorted (fun x y => (y <= x)%Z) (map Count ranked).
Proof.
  destruct (ranked_list_contract (map nband (map snd three_bands)) [2; 1; 3]%nat eq_refl)
    as (ranked & H1 & H2 & H3 & _).
  exists ranked. split; [exact H1|]. split; [exact H2|exact H3].
Defined.

Lemma hist_of_joined_records_witness :
  generate_hist (nband (khz 8000 14000)) None (map nband (map snd three_bands))
                (rev three_records)
  = generate_hist (nband (khz 8000 14000)) None (map nband (map snd three_bands))
                  three_records.
Proof.
  destruct (hist_of_joined_records (khz 8000 14000) None (map snd three_bands)
              three_records []) as (_ & Horder).
  apply Horder. apply Permutation_rev.
Defined.

(** ** The cells of the matrix *)

Section ForEachIn.
Context {S A : Type}.
Variable step : S -> A -> result S.
Variable inv : list A -> S -> Prop.
Variable all : list A.
Hypothesis step_keeps : forall seen a s s',
  inv seen s -> a ∈ all -> step s a = Ok s' -> inv (seen ++ [a]) s'.

Lemma for_each_ok_invariant_in (l seen : list A) (s s' : S) :
  Forall (fun a => a ∈ all) l ->
  inv seen s -> for_each step s l = Ok s' -> inv (seen ++ l) s'.
Proof.
  intros Hl. revert seen s. induction Hl as [|a l Ha Hl IH]; intros seen s Hs; simpl.
  - intros [= <-]. by rewrite app_nil_r.
  - destruct (step s a) as [s1|e] eqn:Hstep; simpl; [|done].
    intros Hrun. rewrite (cons_middle a seen l), app_assoc.
    eapply IH; [|done]. by eapply step_keeps.
Qed.
End ForEachIn.

Lemma index_of_lookup (d : datetime) (dates : list datetime) (i k : nat) :
  index_of d dates i = Ok k -> exists j, k = (i + j)%nat /\ dates !! j = Some d.
Proof.
  revert i. induction dates as [|d' dates IH]; intros i; simpl; [done|].
  destruct (datetime_eqb d' d) eqn:E.
  - intros [= <-]. exists 0%nat. apply datetime_eqb_eq in E as ->. split; [lia|done].
  - intros H. destruct (IH _ H) as (j & -> & Hj). exists (S j). split; [lia|done].
Qed.

Lemma bucket_reassigned (date_bin : string) (r : fitacf) (d : datetime) :
  assign_date date_bin r None = Ok (Some d) ->
  forall date, reassign_date date_bin r date = Ok (Some d).
Proof.
  unfold assign_date, reassign_date. intros H date.
  repeat (destruct (String.eqb date_bin _); [done|]).
  destruct (String.eqb date_bin "hour"); [|done].
  by destruct (time_hr r mod 2 =? 0).
Qed.

Lemma no_bucket_odd_hour (date_bin : string) (r : fitacf) :
  assign_date date_bin r None = Ok None ->
  date_bin = "hour" /\ time_hr r mod 2 <> 0.
Proof.
  unfold assign_date.
  repeat (destruct (String.eqb date_bin _);
          [by destruct (py_datetime _ _ _ _)|]).
  destruct (String.eqb_spec date_bin "hour") as [->|]; [|done].
  destruct (Z.eqb_spec (time_hr r mod 2) 0); [by destruct (py_datetime _ _ _ _)|done].
Qed.

Lemma gather_dates_assigned (date_bin : string) (data : list fitacf)
    (st : list datetime * option datetime) :
  gather_dates date_bin data = Ok st ->
  forall r, r ∈ data -> channel r = 2 ->
            exists date date', assign_date date_bin r date = Ok date'.
Proof.
  intros Hrun.
  apply (for_each_ok_invariant (dates_step date_bin)
           (fun seen _ => forall x, x ∈ seen -> channel x = 2 ->
                                    exists date date', assign_date date_bin x date = Ok date'))
    with (l := data) (seen := []) (s := ([], None)) (s' := st); [| |done].
  - intros seen r s s' Hseen Hstep x Hx Hch.
    apply elem_of_app in Hx as [Hx|Hx]; [by apply Hseen|].
    apply list_elem_of_singleton in Hx as ->.
    unfold dates_step in Hstep. rewrite Hch in Hstep. simpl in Hstep.
    destruct (assign_date date_bin r s.2) as [date'|] eqn:E; [|done].
    by exists s.2, date'.
  - intros x Hx. by apply elem_of_nil in Hx.
Qed.

Lemma cell_total_snoc b omitted bands date_bin seen r i d :
  cell_total b omitted bands date_bin (seen ++ [r]) i d
  = (cell_total b omitted bands date_bin seen i d
     + (if in_bucket date_bin d r then credit b omitted bands i r else 0))%nat.
Proof.
  unfold cell_total. rewrite map_app, sum_list_append. simpl. lia.
Qed.

Section Cells.
Variable date_bin : string.
Variable b : qband.
Variable omitted : option (list qband).
Variable bands : list qband.
Variable dates : list datetime.
Variable data : list fitacf.
Hypothesis distinct : NoDup dates.
Hypothesis bucketed : forall r, r ∈ data -> channel r = 2 ->
  exists d, assign_date date_bin r None = Ok (Some d).

Lemma cells_inv_skip seen r st :
  (forall i, credit b (omitted_of omitted) bands i r = 0%nat) ->
  cells_inv b omitted bands date_bin dates seen st ->
  cells_inv b omitted bands date_bin dates (seen ++ [r]) st.
Proof.
  intros Hzero (Hlen & Hrows & Hcells).
  repeat split; try done.
  intros i j d Hi Hj. rewrite cell_total_snoc, Hzero.
  destruct (in_bucket date_bin d r); rewrite Nat.add_0_r; by apply Hcells.
Qed.

Lemma hist2d_step_cells seen r st st' :
  cells_inv b omitted bands date_bin dates seen st -> r ∈ data ->
  hist2d_step date_bin (nband b) (nremove omitted) (map nband bands) dates st r = Ok st' ->
  cells_inv b omitted bands date_bin dates (seen ++ [r]) st'.
Proof.
  intros Hinv Hr. unfold hist2d_step.
  rewrite sample_numeric; simpl.
  destruct (contribution b (omitted_of omitted) r) as [[f n]|] eqn:Hc.
  2: { intros [= <-]. apply cells_inv_skip; [|done]. intros i. by apply credit_none. }
  rewrite find_band_numeric; simpl.
  destruct (owner bands f) as [k|] eqn:Hk; simpl.
  2: { intros [= <-]. apply cells_inv_skip; [|done].
       intros i. apply (credit_other _ _ _ _ f n); [done|congruence]. }
  destruct (bucketed r Hr (contribution_channel _ _ _ _ Hc)) as (dr & Hdr).
  rewrite (bucket_reassigned _ _ _ Hdr). simpl.
  destruct (index_of dr dates 0) as [j0|] eqn:Hidx; simpl; [|done].
  intros [= <-].
  apply index_of_lookup in Hidx as (j0' & -> & Hj0). simpl in *.
  destruct Hinv as (Hlen & Hrows & Hcells).
  assert (k < length bands)%nat as Hkb by by eapply owner_lt.
  repeat split; simpl.
  - by rewrite length_alter.
  - apply Forall_alter; [done|]. intros row _ Hrow. by rewrite length_alter.
  - intros i j d Hi Hj. rewrite cell_total_snoc.
    specialize (Hcells i j d Hi Hj). unfold cell in *.
    unfold in_bucket. rewrite Hdr.
    destruct (decide (i = k)) as [->|Hne].
    + rewrite list_lookup_alter_eq.
      destruct (st.1 !! k) as [row|] eqn:Hrow; simpl in *; [|done].
      destruct (decide (j = j0')) as [->|Hj'].
      * rewrite list_lookup_alter_eq, Hcells. simpl.
        assert (d = dr) as -> by congruence.
        rewrite (proj2 (datetime_eqb_eq dr dr) eq_refl).
        by rewrite (credit_owner _ _ _ _ f n k).
      * rewrite list_lookup_alter_ne by done. rewrite Hcells.
        destruct (datetime_eqb dr d) eqn:E; [|by rewrite Nat.add_0_r].
        apply datetime_eqb_eq in E as ->. exfalso. apply Hj'.
        by eapply NoDup_lookup.
    + rewrite list_lookup_alter_ne by done. rewrite Hcells.
      rewrite (credit_other _ _ _ _ f n i) by congruence.
      destruct (datetime_eqb dr d); by rewrite Nat.add_0_r.
Qed.

Lemma generate_hist2d_cells (date : option datetime) hist2d date' :
  generate_hist2d date_bin (nband b) (nremove omitted) (map nband bands) dates date data
    = Ok (hist2d, date') ->
  forall i j d, (i < length bands)%nat -> dates !! j = Some d ->
    cell hist2d i j = Some (cell_total b (omitted_of omitted) bands date_bin data i d).
Proof.
  unfold generate_hist2d. rewrite length_map. intros Hrun.
  apply (for_each_ok_invariant_in _ (cells_inv b omitted bands date_bin dates) data
           hist2d_step_cells data []) in Hrun.
  - by destruct Hrun as (_ & _ & Hcells).
  - by apply Forall_forall.
  - repeat split; simpl.
    + by rewrite length_replicate.
    + apply Forall_replicate. by rewrite length_replicate.
    + intros i j d Hi Hj. unfold cell.
      rewrite lookup_replicate_2 by done.
      rewrite lookup_replicate_2 by (by eapply lookup_lt_Some). done.
Qed.
End Cells.

(** X8. The cells of the matrix of [plot_freq_scan_2d_hist].  When the
    first loop gets through the records and, for [date_bin = 'hour'],
    every record of channel 2 has an even hour, the second loop returns
    and the cell of a band and a collected date holds what the records of
    that date credit to the band: the points with gflg == 0 of the records
    that take part, whose tfreq the band is the first to hold, and whose
    bucket is that date. *)
Theorem cells_of_the_matrix (b : qband) (omitted : option (list qband))
    (bands : list qband) (date_bin : string) (data : list fitacf)
    (dates : list datetime) (date : option datetime) :
  gather_dates date_bin data = Ok (dates, date) ->
  (date_bin = "hour" -> Forall (fun r => channel r = 2 -> time_hr r mod 2 = 0) data) ->
  exists hist2d date',
    generate_hist2d date_bin (nband b) (nremove omitted) (map nband bands)
                    dates date data = Ok (hist2d, date')
    /\ forall i j d, (i < length bands)%nat -> dates !! j = Some d ->
         cell hist2d i j
         = Some (cell_total b (omitted_of omitted) bands date_bin data i d).
Proof.
  intros Hdates Heven.
  destruct (generate_hist2d_numeric date_bin b omitted bands dates date data
              (gather_dates_settles _ _ _ _ Hdates))
    as (hist2d & date' & Hrun & _).
  exists hist2d, date'. split; [done|].
  apply (generate_hist2d_cells date_bin b omitted bands dates data) with (date := date)
                                                                         (date' := date').
  - by destruct (gather_dates_collected _ _ _ _ Hdates).
  - intros r Hr Hch.
    destruct (gather_dates_assigned _ _ _ Hdates r Hr Hch) as (date0 & date1 & Hassign).
    destruct (assign_date_cases _ _ _ _ Hassign) as [(d & _ & Hd)|(_ & Hsame)].
    + by exists d.
    + destruct (no_bucket_odd_hour date_bin r (Hsame None)) as [-> Hodd].
      exfalso. apply Hodd.
      by apply (proj1 (Forall_forall _ _) (Heven eq_refl) r).
  - done.
Qed.

Lemma cells_of_the_matrix_witness :
  exists hist2d date',
    generate_hist2d "hour" (nband (khz 8000 14000)) None (map nband (map snd three_bands))
                    [at_hour 14; at_hour 16; at_hour 18] (Some (at_hour 18))
                    three_records = Ok (hist2d, date')
    /\ cell hist2d 2 2 = Some 3%nat.
Proof.
  destruct (cells_of_the_matrix (khz 8000 14000) None (map snd three_bands) "hour"
              three_records [at_hour 14; at_hour 16; at_hour 18] (Some (at_hour 18)))
    as (hist2d & date' & Hrun & Hcells).
  - reflexivity.
  - intros _. repeat constructor.
  - exists hist2d, date'. split; [exact Hrun|].
    apply (Hcells 2%nat 2%nat (at_hour 18)); [simpl; lia|reflexivity].
Defined.

(** * The data stages of [plot_vector_hist], [plot_2d_hist] and
      [plot_range_scatter] *)

(** ** Check Parameter *)

Lemma check_parameter_raises (parameter : string) (data : list Scan.t) :
  check_parameter parameter data
  = Raises (KeyError ("Unknown vector feild parameter: " ++ parameter))
  <-> Forall (fun r => is_array (item parameter r) = false) data.
Proof.
  unfold check_parameter.
  destruct (existsb _ data) eqn:E.
  - split; [done|]. intros Hall. exfalso.
    apply existsb_exists in E as (r & Hr & Harr).
    apply list_elem_of_In in Hr.
    rewrite (proj1 (Forall_forall _ _) Hall r Hr) in Harr. done.
  - split; [|done]. intros _. apply Forall_forall. intros r Hr.
    destruct (is_array (item parameter r)) eqn:Harr; [|done].
    assert (existsb (fun r => is_array (item parameter r)) data = true) as E'.
    { apply existsb_exists. exists r. split; [by apply list_elem_of_In|done]. }
    congruence.
Qed.

Lemma check_parameter_cases (parameter : string) (data : list Scan.t) :
  check_parameter parameter data = Returns tt
  \/ check_parameter parameter data
     = Raises (KeyError ("Unknown vector feild parameter: " ++ parameter)).
Proof. unfold check_parameter. destruct (existsb _ data); [by left|by right]. Qed.

Lemma check_ground_scatter_key_error (parameter : string) (data : list Scan.t)
    (msg : string) :
  check_ground_scatter parameter data = Raises (KeyError msg) ->
  msg = "Ground scatter unavailable" /\ Forall (fun r => Scan.gflg r = None) data.
Proof.
  unfold check_ground_scatter.
  destruct (existsb _ data) eqn:E.
  - by destruct (check_lengths parameter data).
  - intros [= <-]. split; [done|]. apply Forall_forall. intros r Hr.
    destruct (Scan.gflg r) as [g|] eqn:Hg; [|done].
    assert (existsb (fun r => bool_decide (is_Some (Scan.gflg r))) data = true) as E'.
    { apply existsb_exists. exists r. split; [by apply list_elem_of_In|].
      rewrite Hg. by apply bool_decide_eq_true. }
    congruence.
Qed.

(** X9. Check Parameter, in the three functions: the call stops with
    KeyError('Unknown vector feild parameter: ' + parameter) if and only if
    no record holds a NumPy array under the parameter; so it does on an
    empty list of records, and when the parameter is held as Python lists. *)
Theorem unknown_parameter_iff (parameter : string) (data : list Scan.t)
    (groundscatter : bool) (beam_num gate_num : selector) :
  (plot_vector_hist_data parameter data groundscatter beam_num gate_num
   = Raises (KeyError ("Unknown vector feild parameter: " ++ parameter))
   <-> Forall (fun r => is_array (item parameter r) = false) data)
  /\ (plot_range_scatter_data parameter data groundscatter beam_num
      = Raises (KeyError ("Unknown vector feild parameter: " ++ parameter))
      <-> Forall (fun r => is_array (item parameter r) = false) data).
Proof.
  split.
  - rewrite <- check_parameter_raises. unfold plot_vector_hist_data.
    destruct (check_parameter_cases parameter data) as [-> | ->]; [|done].
    cbn [and_then]. split; [|done]. intros H. exfalso.
    destruct groundscatter.
    + destruct (check_ground_scatter parameter data) as [[]|e] eqn:Hgs; cbn [and_then] in H.
      * destruct (check_beam_gate beam_num gate_num) as [[]|e] eqn:Hbg; cbn [and_then] in H.
        -- destruct (gather_data _ _ _ _ _) as [st|e]; [|done].
           unfold check_data in H.
           destruct (no_data st.1); [done|].
           by destruct (true && no_data st.2).
        -- unfold check_beam_gate in Hbg. destruct (_ || _); [|done]. congruence.
      * injection H as ->.
        by destruct (check_ground_scatter_key_error _ _ _ Hgs).
    + cbn [and_then] in H.
      destruct (check_beam_gate beam_num gate_num) as [[]|e] eqn:Hbg; cbn [and_then] in H.
      * destruct (gather_data _ _ _ _ _) as [st|e]; [|done].
        unfold check_data in H. by destruct (no_data st.1).
      * unfold check_beam_gate in Hbg. destruct (_ || _); [|done]. congruence.
  - rewrite <- check_parameter_raises. unfold plot_range_scatter_data.
    destruct (check_parameter_cases parameter data) as [-> | ->]; [|done].
    cbn [and_then]. split; [|done]. intros H. exfalso.
    destruct groundscatter.
    + destruct (check_ground_scatter parameter data) as [[]|e] eqn:Hgs; cbn [and_then] in H.
      * destruct (check_beam beam_num) as [[]|e] eqn:Hbg; cbn [and_then] in H.
        -- destruct (gather_gated_data _ _ _ _) as [st|e]; [|done].
           unfold check_data in H.
           destruct (no_data (vals st)); [done|].
           by destruct (true && no_data (vals_gs st)).
        -- unfold check_beam in Hbg. destruct (_ && _); [|done]. congruence.
      * injection H as ->.
        by destruct (check_ground_scatter_key_error _ _ _ Hgs).
    + cbn [and_then] in H.
      destruct (check_beam beam_num) as [[]|e] eqn:Hbg; cbn [and_then] in H.
      * destruct (gather_gated_data _ _ _ _) as [st|e]; [|done].
        unfold check_data in H. by destruct (no_data (vals st)).
      * unfold check_beam in Hbg. destruct (_ && _); [|done]. congruence.
Qed.

(** ** Check Ground Scatter *)

Lemma check_lengths_passes (parameter : string) (data : list Scan.t) :
  Forall (fun r => is_scalar (item parameter r) = false) data ->
  check_lengths parameter data = Ok tt.
Proof.
  unfold check_lengths. induction 1 as [|r data Hr Hdata IH]; simpl; [done|].
  assert (except_key_error (compare_lengths parameter r) = Ok tt) as ->; [|done].
  unfold compare_lengths.
  destruct (item parameter r) as [[z|a|l]|]; simpl in *; try done.
  - destruct (Scan.gflg r); [|done]. by destruct (negb _).
  - destruct (Scan.gflg r); [|done]. by destruct (negb _).
Qed.

(** X10. Check Ground Scatter never raises its KeyError('Ground scatter
    unavailable for parameter: ...'): the [raise] stands inside the [try]
    whose handler catches KeyError.  The only KeyError of the stage is
    'Ground scatter unavailable', raised when no record has [gflg]; when a
    record has it and no record holds a scalar under the parameter, the
    stage passes whatever the lengths of the arrays are. *)
Theorem length_check_never_fires (parameter : string) (data : list Scan.t) :
  (forall msg, check_ground_scatter parameter data = Raises (KeyError msg) ->
               msg = "Ground scatter unavailable"
               /\ Forall (fun r => Scan.gflg r = None) data)
  /\ (Forall (fun r => is_scalar (item parameter r) = false) data ->
      Exists (fun r => is_Some (Scan.gflg r)) data ->
      check_ground_scatter parameter data = Returns tt).
Proof.
  split; [apply check_ground_scatter_key_error|].
  intros Hscalar Hgflg. unfold check_ground_scatter.
  rewrite check_lengths_passes by done.
  assert (existsb (fun r => bool_decide (is_Some (Scan.gflg r))) data = true) as ->; [|done].
  apply existsb_exists. apply Exists_exists in Hgflg as (r & Hr & Hg).
  exists r. split; [by apply list_elem_of_In|]. by apply bool_decide_eq_true.
Qed.

Lemma length_check_never_fires_witness :
  check_ground_scatter "v" [short_gflg] = Returns tt.
Proof.
  destruct (length_check_never_fires "v" [short_gflg]) as (_ & Hpass).
  apply Hpass.
  - by repeat constructor.
  - apply Exists_cons_hd. by eexists.
Defined.

(** ** Gather Data of [plot_vector_hist] *)

Lemma gather_values_short_gflg (r : Scan.t) (g : list Z) :
  Scan.gflg r = Some g ->
  forall values j st k q,
    values !! k = Some (Fin q) -> (length g <= j + k)%nat ->
    exists st', gather_values true (SelStr "all") r values j st
                = (st', Some (Raised out_of_bounds)).
Proof.
  intros Hg. induction values as [|value rest IH]; intros j st k q Hk Hlen; [done|].
  cbn [gather_values]. unfold other_gate. cbn [is_all String.eqb Ascii.eqb Bool.eqb].
  assert (forall st0, is_finite value = false \/ (exists flag, g !! j = Some flag) ->
            exists st', gather_values true (SelStr "all") r rest (S j) st0
                        = (st', Some (Raised out_of_bounds))) as Hnext.
  { intros st0 Hcase. destruct k as [|k].
    - exfalso. injection Hk as ->. destruct Hcase as [|(flag & Hflag)]; [done|].
      apply lookup_lt_Some in Hflag. lia.
    - apply (IH (S j) st0 k q); [done|lia]. }
  destruct (is_finite value) eqn:Hfin; cbn [negb].
  - unfold flagged. rewrite Hg.
    destruct (g !! j) as [flag|] eqn:Hflag; [|by eexists].
    destruct (flag =? 1); apply Hnext; right; by eexists.
  - apply Hnext. by left.
Qed.

(** X11. A [gflg] shorter than the parameter is not reported by Check
    Ground Scatter; with [groundscatter] set, Gather Data then reads
    [gflg] past its end at the first finite value there, and
    [plot_vector_hist] stops with the IndexError of that access. *)
Theorem short_gflg_index_error (parameter : string) (r : Scan.t)
    (rest : list Scan.t) (values : list pyfloat) (g : list Z) (j : nat) (q : Q) :
  item parameter r = Some (Array values) ->
  Scan.gflg r = Some g ->
  values !! j = Some (Fin q) -> (length g <= j)%nat ->
  Forall (fun x => is_scalar (item parameter x) = false) rest ->
  plot_vector_hist_data parameter (r :: rest) true (SelStr "all") (SelStr "all")
  = Raises (Raised out_of_bounds).
Proof.
  intros Hitem Hg Hj Hlen Hrest.
  unfold plot_vector_hist_data, check_parameter.
  cbn [existsb]. rewrite Hitem. cbn [is_array orb and_then].
  unfold check_ground_scatter. cbn [existsb]. rewrite Hg.
  rewrite bool_decide_eq_true_2 by (by eexists). cbn [orb].
  rewrite check_lengths_passes.
  2: { constructor; [by rewrite Hitem|done]. }
  cbn [and_then]. unfold gather_data. cbn [for_each].
  unfold gather_record at 1. cbn [other_beam is_all String.eqb Ascii.eqb Bool.eqb].
  rewrite Hitem.
  destruct (gather_values_short_gflg r g Hg values 0 ([], []) j q Hj ltac:(lia))
    as (st' & ->).
  done.
Qed.

Lemma short_gflg_index_error_witness :
  plot_vector_hist_data "v" [short_gflg; beam_7] true (SelStr "all") (SelStr "all")
  = Raises (Raised out_of_bounds).
Proof.
  apply (short_gflg_index_error "v" short_gflg [beam_7] [Fin 120; Fin 80] [0] 1 80).
  - reflexivity.
  - reflexivity.
  - reflexivity.
  - simpl. lia.
  - by repeat constructor.
Defined.

Lemma for_each_filter {S A} (step step' : S -> A -> result S) (keep : A -> bool)
    (l : list A) (s : S) :
  (forall s a, keep a = true -> step s a = step' s a) ->
  (forall s a, keep a = false -> step s a = Ok s) ->
  for_each step s l = for_each step' s (List.filter keep l).
Proof.
  intros Hkeep Hdrop. revert s. induction l as [|a l IH]; intros s; simpl; [done|].
  destruct (keep a) eqn:E; simpl.
  - rewrite (Hkeep _ _ E). destruct (step' s a); simpl; [apply IH|done].
  - rewrite (Hdrop _ _ E). simpl. apply IH.
Qed.

Lemma other_beam_selected (n : Z) (r : Scan.t) :
  of_beam n r = true -> other_beam (SelInt n) r = Returns false.
Proof.
  unfold of_beam, other_beam. simpl. destruct (Scan.bmnum r) as [beam|]; [|done].
  simpl. by intros ->.
Qed.

Lemma other_beam_skipped (n : Z) (r : Scan.t) :
  of_beam n r = false ->
  other_beam (SelInt n) r = Returns true
  \/ other_beam (SelInt n) r = Raises (KeyError "bmnum").
Proof.
  unfold of_beam, other_beam. simpl. destruct (Scan.bmnum r) as [beam|]; [|by right].
  simpl. intros ->. by left.
Qed.

(** X12. Selecting a beam is filtering the records: Gather Data with
    [beam_num = n] gives what Gather Data with [beam_num = 'all'] gives on
    the records whose [bmnum] is [n], in the three functions.  A record of
    another beam, or with no [bmnum], adds nothing and raises nothing,
    whatever else it holds. *)
Theorem beam_selection_filters (parameter : string) (groundscatter : bool)
    (n : Z) (gate_num : selector) (data : list Scan.t) :
  gather_data parameter groundscatter (SelInt n) gate_num data
  = gather_data parameter groundscatter (SelStr "all") gate_num
                (List.filter (of_beam n) data)
  /\ gather_gated_data parameter groundscatter (SelInt n) data
     = gather_gated_data parameter groundscatter (SelStr "all")
                         (List.filter (of_beam n) data).
Proof.
  split.
  - unfold gather_data. apply for_each_filter; intros st r Hr.
    + unfold gather_record. by rewrite (other_beam_selected _ _ Hr).
    + unfold gather_record.
      by destruct (other_beam_skipped _ _ Hr) as [-> | ->].
  - unfold gather_gated_data. apply for_each_filter; intros st r Hr.
    + unfold gather_gated_record. by rewrite (other_beam_selected _ _ Hr).
    + unfold gather_gated_record.
      by destruct (other_beam_skipped _ _ Hr) as [-> | ->].
Qed.

Lemma gather_values_all (r : Scan.t) (values : list pyfloat) (j : nat) (st : points) :
  gather_values false (SelStr "all") r values j st
  = ((st.1 ++ List.filter is_finite values, st.2), None).
Proof.
  revert j st. induction values as [|value rest IH]; intros j [ionospheric ground].
  - simpl. by rewrite app_nil_r.
  - cbn [gather_values]. unfold other_gate, flagged.
    cbn [is_all String.eqb Ascii.eqb Bool.eqb].
    destruct (is_finite value) eqn:E; cbn [negb]; rewrite IH; simpl; rewrite E.
    + by rewrite <- app_assoc.
    + done.
Qed.

Lemma gather_record_all (parameter : string) (st : points) (r : Scan.t) :
  is_scalar (item parameter r) = false ->
  continue_on_key_error
    (gather_record parameter false (SelStr "all") (SelStr "all") st r)
  = Ok (st.1 ++ finite_values parameter r, st.2).
Proof.
  intros Hr. unfold gather_record, finite_values.
  cbn [other_beam is_all String.eqb Ascii.eqb Bool.eqb].
  destruct st as [ionospheric ground].
  destruct (item parameter r) as [[z|a|l]|]; simpl in *; try done.
  - by rewrite gather_values_all.
  - by rewrite gather_values_all.
  - by rewrite app_nil_r.
Qed.

Lemma gather_data_all (parameter : string) (data : list Scan.t) :
  Forall (fun r => is_scalar (item parameter r) = false) data ->
  gather_data parameter false (SelStr "all") (SelStr "all") data
  = Ok (flat_map (finite_values parameter) data, []).
Proof.
  unfold gather_data.
  assert (forall st : points,
            Forall (fun r => is_scalar (item parameter r) = false) data ->
            for_each (fun st r => continue_on_key_error
                        (gather_record parameter false (SelStr "all") (SelStr "all") st r))
                     st data
            = Ok (st.1 ++ flat_map (finite_values parameter) data, st.2)) as Hgen.
  { intros st Hall. revert st.
    induction Hall as [|r data Hr Hdata IH]; intros st; simpl.
    - rewrite app_nil_r. by destruct st.
    - rewrite gather_record_all by done. simpl. rewrite IH. simpl.
      by rewrite <- app_assoc. }
  intros Hall. by rewrite Hgen.
Qed.

Lemma no_data_finite (values : list pyfloat) :
  Forall (fun value => is_finite value = true) values ->
  no_data values = (length values =? 0)%nat.
Proof.
  unfold no_data. intros [|value rest Hvalue Hrest]; simpl; [done|].
  by destruct value.
Qed.

Lemma flat_map_finite (parameter : string) (data : list Scan.t) :
  Forall (fun value => is_finite value = true) (flat_map (finite_values parameter) data).
Proof.
  apply Forall_forall. intros value Hv.
  apply list_elem_of_In, in_flat_map in Hv as (r & _ & Hv).
  unfold finite_values in Hv.
  destruct (item parameter r) as [[z|a|l]|]; try done;
    by apply filter_In in Hv as [_ Hv].
Qed.

(** X13. With the default selection ([groundscatter] off, every beam and
    every gate), when no record holds a scalar under the parameter and one
    holds an array, the values of [plot_vector_hist] are the finite values
    of the parameter, record after record in their order, NaN and
    infinities dropped and records without the parameter passed over; the
    call stops with ValueError('No data to plot') exactly when there is no
    such value. *)
Theorem default_selection_takes_finite_values (parameter : string)
    (data : list Scan.t) :
  Forall (fun r => is_scalar (item parameter r) = false) data ->
  Exists (fun r => is_array (item parameter r) = true) data ->
  (flat_map (finite_values parameter) data = [] ->
   plot_vector_hist_data parameter data false (SelStr "all") (SelStr "all")
   = Raises (Raised (ValueError "No data to plot")))
  /\ (flat_map (finite_values parameter) data <> [] ->
      plot_vector_hist_data parameter data false (SelStr "all") (SelStr "all")
      = Returns (flat_map (finite_values parameter) data, [])).
Proof.
  intros Hscalar Harray.
  unfold plot_vector_hist_data, check_parameter.
  assert (existsb (fun r => is_array (item parameter r)) data = true) as ->.
  { apply existsb_exists. apply Exists_exists in Harray as (r & Hr & Ha).
    exists r. split; [by apply list_elem_of_In|done]. }
  cbn [and_then]. rewrite gather_data_all by done.
  unfold check_data. cbn [fst snd andb].
  rewrite (no_data_finite _ (flat_map_finite parameter data)).
  split.
  - by intros ->.
  - intros Hne. by destruct (flat_map (finite_values parameter) data).
Qed.

Lemma default_selection_takes_finite_values_witness :
  plot_vector_hist_data "v" [beam_8; beam_7] false (SelStr "all") (SelStr "all")
  = Returns ([Fin 120; Fin (-30)], []).
Proof.
  destruct (default_selection_takes_finite_values "v" [beam_8; beam_7]) as (_ & H).
  - by repeat constructor.
  - apply Exists_cons_tl, Exists_cons_hd. reflexivity.
  - apply H. discriminate.
Defined.

(** ** What [plot_vector_hist] returns *)

Lemma gather_values_finite (groundscatter : bool) (gate_num : selector) (r : Scan.t)
    (values : list pyfloat) (j : nat) (st st' : points) (exc : option raised) :
  finite_points groundscatter st ->
  gather_values groundscatter gate_num r values j st = (st', exc) ->
  finite_points groundscatter st'.
Proof.
  revert j st. induction values as [|value rest IH]; intros j st Hst; cbn [gather_values].
  - by intros [= <- <-].
  - destruct (other_gate gate_num r j) as [[|]|e]; [by apply IH| |by intros [= <- <-]].
    destruct (is_finite value) eqn:Hfin; cbn [negb]; [|by apply IH].
    destruct (flagged groundscatter r j) as [[|]|e] eqn:Hflag; [| |by intros [= <- <-]].
    + apply IH. destruct Hst as (H1 & H2 & H3).
      repeat split; simpl; [done|by apply Forall_app; split; [|repeat constructor]|].
      intros ->. discriminate.
    + apply IH. destruct Hst as (H1 & H2 & H3).
      repeat split; simpl; [by apply Forall_app; split; [|repeat constructor]|done|done].
Qed.

Lemma gather_data_finite (parameter : string) (groundscatter : bool)
    (beam_num gate_num : selector) (data : list Scan.t) (st : points) :
  gather_data parameter groundscatter beam_num gate_num data = Ok st ->
  finite_points groundscatter st.
Proof.
  unfold gather_data. intros Hrun.
  apply (for_each_ok_invariant _ (fun _ st => finite_points groundscatter st))
    with (l := data) (seen := []) (s := ([], [])) (s' := st) in Hrun; [done| |done].
  intros seen r s s' Hs. unfold gather_record.
  destruct (other_beam beam_num r) as [[|]|[msg|e]]; simpl;
    try (by intros [= <-]); try done.
  destruct (item parameter r) as [[z|a|l]|]; simpl; try (by intros [= <-]); try done.
  - destruct (gather_values _ _ _ a 0 s) as [s1 [[msg|e]|]] eqn:E; simpl;
      try (intros [= <-]; by eapply gather_values_finite); done.
  - destruct (gather_values _ _ _ l 0 s) as [s1 [[msg|e]|]] eqn:E; simpl;
      try (intros [= <-]; by eapply gather_values_finite); done.
Qed.

Lemma of_count_lt (m n : nat) : (m < n)%nat -> (of_count m < of_count n)%Q.
Proof. intros H. unfold of_count. rewrite <- Zlt_Qlt. lia. Qed.

Lemma percentage_bounds (m n : nat) :
  (0 < m)%nat -> (0 < n)%nat ->
  (0 < of_count n / of_count (m + n) * 100)%Q
  /\ (of_count n / of_count (m + n) * 100 < 100)%Q.
Proof.
  intros Hm Hn.
  assert (0 < of_count n)%Q as Hx by (apply of_count_pos; lia).
  assert (of_count n < of_count (m + n))%Q as Hxy by (apply of_count_lt; lia).
  assert (0 < of_count (m + n))%Q as Hy by (apply of_count_pos; lia).
  assert (0 < of_count n / of_count (m + n))%Q as Hlow.
  { apply Qlt_shift_div_l; [done|]. by rewrite Qmult_0_l. }
  assert (of_count n / of_count (m + n) < 1)%Q as Hhigh.
  { apply Qlt_shift_div_r; [done|]. by rewrite Qmult_1_l. }
  revert Hlow Hhigh. generalize (of_count n / of_count (m + n))%Q. intros t Hlow Hhigh.
  split; lra.
Qed.

(** X14. What [plot_vector_hist] counts when it gets past Check Data: the
    values are all finite and there is at least one; with [groundscatter]
    off nothing goes to the ground scatter list; with [groundscatter] on
    both lists have a value, so that ['pct_gs'] lies strictly between 0 and
    100: data with no ground scatter, or nothing but ground scatter, stops
    with 'No data to plot' instead. *)
Theorem returned_points (parameter : string) (data : list Scan.t)
    (groundscatter : bool) (beam_num gate_num : selector) (st : points) :
  plot_vector_hist_data parameter data groundscatter beam_num gate_num = Returns st ->
  Forall (fun value => exists q, value = Fin q) st.1
  /\ (0 < num_pts st)%nat
  /\ (groundscatter = false -> st.2 = [])
  /\ (groundscatter = true ->
      Forall (fun value => exists q, value = Fin q) st.2
      /\ (0 < num_pts_gs st)%nat
      /\ (0 < pct_gs st)%Q /\ (pct_gs st < 100)%Q).
Proof.
  unfold plot_vector_hist_data. intros H.
  destruct (check_parameter parameter data) as [[]|]; [|done]. cbn [and_then] in H.
  destruct (if groundscatter then _ else _) as [[]|]; [|done]. cbn [and_then] in H.
  destruct (check_beam_gate beam_num gate_num) as [[]|]; [|done]. cbn [and_then] in H.
  destruct (gather_data _ _ _ _ _) as [st0|] eqn:Hgather; [|done].
  apply gather_data_finite in Hgather as (H1 & H2 & H3).
  unfold check_data in H. rewrite !no_data_finite in H by done.
  destruct (Nat.eqb_spec (length st0.1) 0) as [|Hn1]; [done|].
  assert (forall l, Forall (fun value => is_finite value = true) l ->
                    Forall (fun value : pyfloat => exists q, value = Fin q) l) as Hfin.
  { intros l Hl. eapply Forall_impl; [exact Hl|].
    intros [q| |]; try done. by exists q. }
  destruct groundscatter; simpl in H.
  - destruct (Nat.eqb_spec (length st0.2) 0) as [|Hn2]; [done|].
    injection H as <-. unfold num_pts, num_pts_gs, pct_gs.
    split; [by apply Hfin|]. split; [lia|]. split; [done|]. intros _.
    split; [by apply Hfin|]. split; [lia|].
    apply percentage_bounds; lia.
  - injection H as <-. unfold num_pts.
    split; [by apply Hfin|]. split; [lia|]. split; [by intros _; apply H3|done].
Qed.

Lemma returned_points_witness :
  (0 < pct_gs ([Fin 120], [Fin (-30)]))%Q /\ (pct_gs ([Fin 120], [Fin (-30)]) < 100)%Q.
Proof.
  destruct (returned_points "v" [beam_8; beam_7] true (SelInt 7) (SelStr "all")
              ([Fin 120], [Fin (-30)]) eq_refl) as (_ & _ & _ & H).
  destruct (H eq_refl) as (_ & _ & Hlow & Hhigh). split; [exact Hlow|exact Hhigh].
Defined.

(** ** Records that lack a key *)

Lemma gather_values_no_key_error (groundscatter : bool) (gate_num : selector)
    (r : Scan.t) :
  is_all gate_num = true \/ is_Some (Scan.slist r) ->
  groundscatter = false \/ is_Some (Scan.gflg r) ->
  forall values j st st' msg,
    gather_values groundscatter gate_num r values j st <> (st', Some (KeyError msg)).
Proof.
  intros Hgate Hflag. induction values as [|value rest IH]; intros j st st' msg;
    cbn [gather_values]; [done|].
  assert (forall e, other_gate gate_num r j = Raises e -> exists e', e = Raised e') as Hg.
  { unfold other_gate. intros e. destruct (is_all gate_num); [done|].
    destruct Hgate as [|[l ->]]; [done|]. destruct (l !! j); [done|].
    intros [= <-]. by eexists. }
  assert (forall e, flagged groundscatter r j = Raises e -> exists e', e = Raised e') as Hf.
  { unfold flagged. intros e. destruct groundscatter; [|done].
    destruct Hflag as [|[g ->]]; [done|]. destruct (g !! j); [done|].
    intros [= <-]. by eexists. }
  destruct (other_gate gate_num r j) as [[|]|e]; [apply IH| |].
  2: { destruct (Hg e eq_refl) as [e' ->]. congruence. }
  destruct (is_finite value); cbn [negb]; [|apply IH].
  destruct (flagged groundscatter r j) as [[|]|e]; [apply IH|apply IH|].
  destruct (Hf e eq_refl) as [e' ->]. congruence.
Qed.

Lemma gather_values_key_error (groundscatter : bool) (gate_num : selector)
    (r : Scan.t) (values : list pyfloat) (j : nat) (st st' : points) (msg : string) :
  gather_values groundscatter gate_num r values j st = (st', Some (KeyError msg)) ->
  st' = st.
Proof.
  revert j. induction values as [|value rest IH]; intros j; cbn [gather_values]; [done|].
  destruct (other_gate gate_num r j) as [[|]|e] eqn:Hgate;
    [apply IH| |by intros [= <-]].
  destruct (is_finite value); cbn [negb]; [|apply IH].
  destruct (flagged groundscatter r j) as [[|]|e] eqn:Hflag; [| |by intros [= <-]].
  all: intros H; exfalso; revert H; apply gather_values_no_key_error.
  all: try (unfold other_gate in Hgate; destruct (is_all gate_num); [by left|right];
            by destruct (Scan.slist r)).
  all: unfold flagged in Hflag; destruct groundscatter; [right|by left];
       by destruct (Scan.gflg r).
Qed.

Lemma gather_gated_key_error (groundscatter : bool) (r : Scan.t)
    (values : list pyfloat) (j : nat) (st st' : scatter_lists) (msg : string) :
  gather_gated groundscatter r values j st = (st', Some (KeyError msg)) ->
  st' = st.
Proof.
  destruct (Scan.slist r) as [l|] eqn:Hl.
  2: { destruct values; simpl; rewrite ?Hl; by intros [= <-]. }
  destruct (decide (groundscatter = true /\ Scan.gflg r = None)) as [[-> Hg]|Hflag].
  - revert j. induction values as [|value rest IH]; intros j; cbn [gather_gated]; [done|].
    rewrite Hl. destruct (l !! j); [|done].
    destruct (is_finite value); cbn [negb]; [|apply IH].
    unfold flagged. rewrite Hg. by intros [= <-].
  - intros H. exfalso. revert j st H.
    induction values as [|value rest IH]; intros j st; cbn [gather_gated]; [done|].
    rewrite Hl. destruct (l !! j); [|done].
    destruct (is_finite value); cbn [negb]; [|apply IH].
    unfold flagged. destruct groundscatter; [|apply IH].
    destruct (Scan.gflg r) as [g|]; [|by destruct Hflag].
    destruct (g !! j) as [flag|]; [|done].
    destruct (flag =? 1); apply IH.
Qed.

(** X15. A record is taken whole or left whole: when the [try] of Gather
    Data ends on a KeyError (no [bmnum] with a beam selected, no [slist]
    where it is read, no [gflg] with [groundscatter], or no parameter),
    none of the values of that record has been appended, in
    [plot_vector_hist] as in [plot_2d_hist] and [plot_range_scatter]. *)
Theorem key_error_leaves_lists (parameter : string) (groundscatter : bool)
    (beam_num gate_num : selector) (r : Scan.t) (msg : string) :
  (forall st st', gather_record parameter groundscatter beam_num gate_num st r
                  = (st', Some (KeyError msg)) -> st' = st)
  /\ (forall st st', gather_gated_record parameter groundscatter beam_num st r
                     = (st', Some (KeyError msg)) -> st' = st).
Proof.
  split; intros st st'.
  - unfold gather_record.
    destruct (other_beam beam_num r) as [[|]|e]; [done| |by intros [= <-]].
    destruct (item parameter r) as [[z|a|l]|]; [done| | |by intros [= <-]];
      apply gather_values_key_error.
  - unfold gather_gated_record.
    destruct (other_beam beam_num r) as [[|]|e]; [done| |by intros [= <-]].
    destruct (item parameter r) as [[z|a|l]|]; [done| | |by intros [= <-]];
      apply gather_gated_key_error.
Qed.

Lemma key_error_leaves_lists_witness :
  exists st',
    gather_record "v" true (SelStr "all") (SelStr "all") ([Fin 120], []) beam_8
    = (st', Some (KeyError "v"))
    /\ st' = ([Fin 120], []).
Proof.
  exists ([Fin 120], []). split; [reflexivity|].
  apply (proj1 (key_error_leaves_lists "v" true (SelStr "all") (SelStr "all")
                  beam_8 "v") ([Fin 120], []) ([Fin 120], [])).
  reflexivity.
Defined.

(** ** The points of [plot_2d_hist] and [plot_range_scatter] *)

Lemma paired_append (P : Z * pyfloat -> Prop) (st : scatter_lists) (gate : Z)
    (value : pyfloat) :
  paired P st -> P (gate, value) ->
  paired P {| vals := vals st ++ [value]; gates := gates st ++ [gate];
              vals_gs := vals_gs st; gates_gs := gates_gs st |}
  /\ paired P {| vals := vals st; gates := gates st;
                 vals_gs := vals_gs st ++ [value]; gates_gs := gates_gs st ++ [gate] |}.
Proof.
  intros (H1 & H2 & H3 & H4) Hp. unfold paired; simpl.
  rewrite !length_app; simpl.
  rewrite !zip_with_app by done. simpl.
  repeat split; try done; try lia; apply Forall_app; by repeat constructor.
Qed.

Lemma gather_gated_paired (P : Z * pyfloat -> Prop) (groundscatter : bool)
    (r : Scan.t) (full : list pyfloat) :
  (forall l j gate value, Scan.slist r = Some l -> l !! j = Some gate ->
                          full !! j = Some value -> is_finite value = true ->
                          P (gate, value)) ->
  forall values before st st' exc,
    full = before ++ values ->
    paired P st ->
    gather_gated groundscatter r values (length before) st = (st', exc) ->
    paired P st'.
Proof.
  intros HP. induction values as [|value rest IH]; intros before st st' exc Hfull Hst;
    cbn [gather_gated].
  - by intros [= <- <-].
  - destruct (Scan.slist r) as [l|] eqn:Hl; [|by intros [= <- <-]].
    destruct (l !! length before) as [gate|] eqn:Hgate; [|by intros [= <- <-]].
    assert (full = (before ++ [value]) ++ rest) as Hfull'.
    { by rewrite <- app_assoc. }
    assert (S (length before) = length (before ++ [value])) as ->.
    { rewrite length_app. simpl. lia. }
    destruct (is_finite value) eqn:Hfin; cbn [negb]; [|by apply IH].
    assert (P (gate, value)) as Hp.
    { apply (HP l (length before)); try done.
      rewrite Hfull. by rewrite list_lookup_middle. }
    destruct (paired_append P st gate value Hst Hp) as [Hio Hgs].
    destruct (flagged groundscatter r (length before)) as [[|]|e];
      [by apply IH|by apply IH|by intros [= <- <-]].
Qed.

Lemma gate_points_lookup (parameter : string) (r : Scan.t) (l : list Z)
    (values : list pyfloat) (j : nat) (gate : Z) (value : pyfloat) :
  Scan.slist r = Some l ->
  item parameter r = Some (Array values) \/ item parameter r = Some (Listed values) ->
  l !! j = Some gate -> values !! j = Some value ->
  (gate, value) ∈ gate_points parameter r.
Proof.
  intros Hl Hitem Hgate Hvalue. unfold gate_points. rewrite Hl.
  assert ((gate, value) ∈ zip l values) as Hin.
  { apply (list_elem_of_lookup_2 _ j). apply lookup_zip_with_Some. by exists gate, value. }
  by destruct Hitem as [-> | ->].
Qed.

Lemma gather_gated_data_paired (parameter : string) (groundscatter : bool)
    (beam_num : selector) (data : list Scan.t) (st : scatter_lists) :
  gather_gated_data parameter groundscatter beam_num data = Ok st ->
  paired (fun pair => is_finite pair.2 = true
                      /\ exists r, r ∈ data /\ pair ∈ gate_points parameter r) st.
Proof.
  unfold gather_gated_data. intros Hrun.
  apply (for_each_ok_invariant _
           (fun seen st =>
              paired (fun pair => is_finite pair.2 = true
                                  /\ exists r, r ∈ seen /\ pair ∈ gate_points parameter r) st))
    with (l := data) (seen := []) (s := no_points) (s' := st) in Hrun; [done| |].
  - intros seen r s s' Hs.
    assert (paired (fun pair => is_finite pair.2 = true
                                /\ exists x, x ∈ seen ++ [r]
                                             /\ pair ∈ gate_points parameter x) s) as Hs'.
    { destruct Hs as (H1 & H2 & H3 & H4). repeat split; try done.
      - eapply Forall_impl; [exact H3|]. intros pair (Hf & x & Hx & Hp).
        split; [done|]. exists x. split; [|done]. apply elem_of_app. by left.
      - eapply Forall_impl; [exact H4|]. intros pair (Hf & x & Hx & Hp).
        split; [done|]. exists x. split; [|done]. apply elem_of_app. by left. }
    clear Hs. unfold gather_gated_record.
    destruct (other_beam beam_num r) as [[|]|[msg|e]]; simpl;
      try (by intros [= <-]); try done.
    assert (forall values,
              item parameter r = Some (Array values)
              \/ item parameter r = Some (Listed values) ->
              continue_on_key_error (gather_gated groundscatter r values 0 s) = Ok s' ->
              paired (fun pair => is_finite pair.2 = true
                                  /\ exists x, x ∈ seen ++ [r]
                                               /\ pair ∈ gate_points parameter x) s')
      as Hvalues.
    { intros values Hitem.
      destruct (gather_gated groundscatter r values 0 s) as [s1 exc] eqn:E.
      intros Hok.
      assert (s1 = s') as <-.
      { destruct exc as [[msg|e]|]; simpl in Hok; congruence. }
      eapply (gather_gated_paired _ groundscatter r values) with (before := []);
        [|done|exact Hs'|exact E].
      intros l j gate value Hl Hgate Hvalue Hfin. split; [done|].
      exists r. split; [apply elem_of_app; right; by apply list_elem_of_singleton|].
      by eapply gate_points_lookup. }
    destruct (item parameter r) as [[z|a|l]|] eqn:Hitem; simpl;
      try (by intros [= <-]); try done.
    + apply Hvalues. by left.
    + apply Hvalues. by right.
  - repeat split; simpl; constructor.
Qed.

(** X16. The points of [plot_range_scatter] and [plot_2d_hist]: when the
    call gets past Check Data, [gates] and [vals] have the same length, as
    have [gates_gs] and [vals_gs], and every point pairs a finite value of
    the parameter with the gate that stands at the same index of [slist]
    in the same record. *)
Theorem points_pair_gate_and_value (parameter : string) (data : list Scan.t)
    (groundscatter : bool) (beam_num : selector) (st : scatter_lists) :
  plot_range_scatter_data parameter data groundscatter beam_num = Returns st ->
  length (gates st) = length (vals st)
  /\ length (gates_gs st) = length (vals_gs st)
  /\ forall pair, pair ∈ zip (gates st) (vals st) ++ zip (gates_gs st) (vals_gs st) ->
       (exists q, pair.2 = Fin q)
       /\ exists r, r ∈ data /\ pair ∈ gate_points parameter r.
Proof.
  unfold plot_range_scatter_data. intros H.
  destruct (check_parameter parameter data) as [[]|]; [|done]. cbn [and_then] in H.
  destruct (if groundscatter then _ else _) as [[]|]; [|done]. cbn [and_then] in H.
  destruct (check_beam beam_num) as [[]|]; [|done]. cbn [and_then] in H.
  destruct (gather_gated_data _ _ _ _) as [st0|] eqn:Hgather; [|done].
  destruct (check_data _ _ _) as [[]|]; [|done]. cbn [and_then] in H.
  injection H as <-.
  apply gather_gated_data_paired in Hgather as (H1 & H2 & H3 & H4).
  split; [done|]. split; [done|].
  intros pair Hpair.
  assert (is_finite pair.2 = true
          /\ exists r, r ∈ data /\ pair ∈ gate_points parameter r) as (Hfin & Hr).
  { apply elem_of_app in Hpair as [Hpair|Hpair].
    - by apply (proj1 (Forall_forall _ _) H3).
    - by apply (proj1 (Forall_forall _ _) H4). }
  split; [|done]. destruct pair.2 as [q| |]; try done. by exists q.
Qed.

Lemma points_pair_gate_and_value_witness :
  length [10; 40] = length [Fin 120; Fin (-30)].
Proof.
  destruct (points_pair_gate_and_value "v" [beam_8; beam_7] false (SelInt 7)
              {| vals := [Fin 120; Fin (-30)]; gates := [10; 40];
                 vals_gs := []; gates_gs := [] |} eq_refl) as (H & _).
  exact H.
Defined.

(** * [filter_fitacf_gates] *)

Lemma masked_zip {A} (p : Z -> bool) (l : list Z) (a : list A) :
  zip (masked (map p l) l) (masked (map p l) a)
  = List.filter (fun pair => p pair.1) (zip l a).
Proof.
  revert a. induction l as [|gate l IH]; intros a; simpl; [done|].
  destruct a as [|x a]; simpl.
  - destruct (p gate); simpl; [done|]. by destruct (masked (map p l) l).
  - destruct (p gate); simpl; by rewrite IH.
Qed.

Lemma masked_filter (p : Z -> bool) (l : list Z) :
  masked (map p l) l = List.filter p l.
Proof.
  induction l as [|gate l IH]; simpl; [done|]. destruct (p gate); by rewrite IH.
Qed.

Lemma masked_map {A B} (f : A -> B) (mask : list bool) (l : list A) :
  masked mask (map f l) = map f (masked mask l).
Proof.
  revert l. induction mask as [|keep mask IH]; intros [|x l]; simpl; try done.
  destruct keep; simpl; by rewrite IH.
Qed.

Lemma masked_all {A} (mask : list bool) (l : list A) :
  Forall (fun keep => keep = true) mask -> length l = length mask -> masked mask l = l.
Proof.
  intros Hmask. revert l. induction Hmask as [|keep mask -> Hmask IH]; intros [|x l];
    simpl; try done.
  intros [= Hlen]. by rewrite IH.
Qed.

Lemma filter_sequence_all {A} (mask : list bool) (l : list A) :
  Forall (fun keep => keep = true) mask -> filter_sequence mask l = l.
Proof.
  intros Hmask. unfold filter_sequence.
  destruct (Nat.eqb_spec (length l) (length mask)); [by apply masked_all|done].
Qed.

Lemma filter_sequence_slist (gate_min gate_max : Z) (l : list Z) :
  filter_sequence (slist_mask gate_min gate_max l) l
  = List.filter (fun gate => (gate_min <=? gate) && (gate <=? gate_max)) l.
Proof.
  unfold filter_sequence, slist_mask. rewrite length_map, Nat.eqb_refl.
  apply masked_filter.
Qed.

Lemma filter_record_slist (gate_min gate_max : Z) (r r' : Scan.t) :
  filter_record gate_min gate_max r = Some r' ->
  exists l, Scan.slist r = Some l
            /\ Scan.slist r'
               = Some (List.filter (fun gate => (gate_min <=? gate) && (gate <=? gate_max)) l)
            /\ List.filter (fun gate => (gate_min <=? gate) && (gate <=? gate_max)) l <> []
            /\ Scan.bmnum r' = Scan.bmnum r.
Proof.
  unfold filter_record. destruct (Scan.slist r) as [l|]; [|done].
  destruct (length l =? 0)%nat; [done|].
  destruct (existsb id (slist_mask gate_min gate_max l)) eqn:E; [|done].
  simpl. intros [= <-]. exists l. simpl. rewrite filter_sequence_slist.
  repeat split; try done.
  apply existsb_exists in E as (keep & Hin & Hkeep). unfold id in Hkeep. subst keep.
  unfold slist_mask in Hin. apply in_map_iff in Hin as (gate & Hgate & Hin).
  intros Hnil.
  assert (In gate (List.filter (fun gate => (gate_min <=? gate) && (gate <=? gate_max)) l))
    as Hkept by (apply filter_In; by split).
  by rewrite Hnil in Hkept.
Qed.

Lemma gates_in_range (gate_min gate_max : Z) (l : list Z) :
  Forall (fun gate => gate_min <= gate <= gate_max)
         (List.filter (fun gate => (gate_min <=? gate) && (gate <=? gate_max)) l).
Proof.
  apply Forall_forall. intros gate Hgate.
  apply list_elem_of_In, filter_In in Hgate as [_ Hgate]. lia.
Qed.

Lemma pykey_eqb_eq (a b : pykey) : pykey_eqb a b = true <-> a = b.
Proof.
  destruct a as [x|s], b as [y|t]; simpl; try (split; [done|discriminate]).
  - rewrite Z.eqb_eq. split; congruence.
  - rewrite String.eqb_eq. split; congruence.
Qed.

Lemma dict_get_filtered (gate_min gate_max : Z) (g : pyfield -> pyfield) (k : pykey)
    (fs : list (pykey * pyfield)) :
  dict_get k (update_nrang gate_min gate_max (map (fun kv => (kv.1, g kv.2)) fs))
  = (if pykey_eqb k (KStr "nrang")
     then (fun _ => Scalar (gate_max - gate_min + 1)) <$> dict_get k fs
     else g <$> dict_get k fs).
Proof.
  unfold update_nrang. induction fs as [|[k' f] fs IH]; simpl.
  - by destruct (pykey_eqb k (KStr "nrang")).
  - destruct (pykey_eqb k' (KStr "nrang")) eqn:E'; simpl.
    + apply pykey_eqb_eq in E' as ->.
      destruct (pykey_eqb (KStr "nrang") k) eqn:E.
      * apply pykey_eqb_eq in E as <-. done.
      * done.
    + destruct (pykey_eqb k' k) eqn:E.
      * apply pykey_eqb_eq in E as <-. by rewrite E'.
      * done.
Qed.

(** X17. What [filter_fitacf_gates] returns: every record of the result
    comes from a record of the input that has an [slist] with a gate
    between [gate_min] and [gate_max]; its [slist] is that of the record
    with the gates outside the limits taken out, so it is not empty and
    holds only gates within the limits, bounds included; its [bmnum] is
    unchanged, and its [nrang], when it has one, is
    [gate_max - gate_min + 1]. *)
Theorem filtered_gates_within_limits (data : list Scan.t) (gate_min gate_max : Z)
    (r' : Scan.t) :
  r' ∈ filter_fitacf_gates data gate_min gate_max ->
  exists r l,
    r ∈ data
    /\ Scan.slist r = Some l
    /\ Scan.slist r'
       = Some (List.filter (fun gate => (gate_min <=? gate) && (gate <=? gate_max)) l)
    /\ (exists gate gate_list, Scan.slist r' = Some (gate :: gate_list))
    /\ (forall gate_list, Scan.slist r' = Some gate_list ->
                          Forall (fun gate => gate_min <= gate <= gate_max) gate_list)
    /\ Scan.bmnum r' = Scan.bmnum r
    /\ (is_Some (item "nrang" r') ->
        item "nrang" r' = Some (Scalar (gate_max - gate_min + 1))).
Proof.
  unfold filter_fitacf_gates. intros Hr'.
  apply list_elem_of_omap in Hr' as (r & Hr & Hsome).
  destruct (filter_record_slist _ _ _ _ Hsome) as (l & Hl & Hl' & Hne & Hbeam).
  exists r, l. split; [done|]. split; [done|]. split; [done|].
  split; [|split; [|split; [done|]]].
  - rewrite Hl'. destruct (List.filter _ l) as [|gate gate_list]; [done|].
    by exists gate, gate_list.
  - intros gate_list. rewrite Hl'. intros [= <-]. apply gates_in_range.
  - unfold filter_record in Hsome. rewrite Hl in Hsome.
    destruct (length l =? 0)%nat; [done|].
    destruct (negb _); [done|]. injection Hsome as <-.
    unfold item. simpl. rewrite dict_get_filtered. simpl.
    destruct (dict_get (KStr "nrang") (Scan.fields r)); simpl; [done|].
    by intros [? ?].
Qed.

Lemma filtered_gates_within_limits_witness :
  exists r l,
    r ∈ [beam_8; beam_7]
    /\ Scan.slist r = Some l
    /\ Some [10; 11] = Some (List.filter (fun gate => (0 <=? gate) && (gate <=? 20)) l).
Proof.
  destruct (filtered_gates_within_limits [beam_8; beam_7] 0 20
              {| Scan.bmnum := Some 7; Scan.slist := Some [10; 11];
                 Scan.gflg := Some [0; 0];
                 Scan.fields := [(KStr "nrang", Scalar 21);
                                 (KStr "v", Array [Fin 120; NaN]);
                                 (KStr "ptab", Array [Fin 0; Fin 9])] |})
    as (r & l & H1 & H2 & H3 & _).
  - vm_compute. apply list_elem_of_In. by left.
  - exists r, l. split; [exact H1|]. split; [exact H2|exact H3].
Defined.

(** X18. [filter_fitacf_gates] keeps a parameter in step with [slist]: for
    a parameter other than 'nrang' held as an array or a list as long as
    [slist], the pairs of a gate and the value at the same index are, in
    the filtered record, the pairs of the record whose gate is within the
    limits, in their order. *)
Theorem filter_keeps_alignment (gate_min gate_max : Z) (r r' : Scan.t)
    (parameter : string) (l : list Z) (values : list pyfloat) :
  filter_record gate_min gate_max r = Some r' ->
  Scan.slist r = Some l ->
  item parameter r = Some (Array values) \/ item parameter r = Some (Listed values) ->
  length values = length l ->
  parameter <> "nrang" ->
  gate_points parameter r'
  = List.filter (fun pair => (gate_min <=? pair.1) && (pair.1 <=? gate_max))
                (gate_points parameter r).
Proof.
  intros Hsome Hl Hitem Hlen Hkey.
  assert (gate_points parameter r = zip l values) as ->.
  { unfold gate_points. rewrite Hl. by destruct Hitem as [-> | ->]. }
  unfold filter_record in Hsome. rewrite Hl in Hsome.
  destruct (length l =? 0)%nat; [done|].
  destruct (negb _); [done|]. injection Hsome as <-.
  set (p := fun gate => (gate_min <=? gate) && (gate <=? gate_max)).
  assert (forall A (a : list A), length a = length l ->
            filter_sequence (slist_mask gate_min gate_max l) a = masked (map p l) a)
    as Hseq.
  { intros A a Ha. unfold filter_sequence, slist_mask.
    by rewrite length_map, Ha, Nat.eqb_refl. }
  unfold gate_points, item in *. cbn [Scan.slist Scan.bmnum Scan.gflg Scan.fields].
  rewrite (Hseq _ l eq_refl).
  destruct (String.eqb parameter "bmnum").
  { destruct (Scan.bmnum r); simpl in Hitem; by destruct Hitem. }
  destruct (String.eqb parameter "slist").
  { rewrite Hl in Hitem. simpl in *.
    assert (values = map of_int l) as -> by (destruct Hitem; congruence).
    rewrite <- masked_map. apply (masked_zip p). }
  destruct (String.eqb parameter "gflg").
  { destruct (Scan.gflg r) as [g|]; simpl in *; [|by destruct Hitem].
    assert (values = map of_int g) as -> by (destruct Hitem; congruence).
    rewrite length_map in Hlen. rewrite (Hseq _ g Hlen).
    rewrite <- masked_map. apply (masked_zip p). }
  rewrite dict_get_filtered.
  assert (pykey_eqb (KStr parameter) (KStr "nrang") = false) as ->.
  { simpl. by apply String.eqb_neq. }
  destruct Hitem as [-> | ->]; simpl; rewrite (Hseq _ values Hlen); apply (masked_zip p).
Qed.

Lemma filter_keeps_alignment_witness :
  gate_points "v" {| Scan.bmnum := Some 7; Scan.slist := Some [10; 11];
                     Scan.gflg := Some [0; 0];
                     Scan.fields := [(KStr "nrang", Scalar 21);
                                     (KStr "v", Array [Fin 120; NaN]);
                                     (KStr "ptab", Array [Fin 0; Fin 9])] |}
  = List.filter (fun pair => (0 <=? pair.1) && (pair.1 <=? 20)) (gate_points "v" beam_7).
Proof.
  apply (filter_keeps_alignment 0 20 beam_7 _ "v" [10; 11; 40] [Fin 120; NaN; Fin (-30)]).
  - reflexivity.
  - reflexivity.
  - by left.
  - reflexivity.
  - discriminate.
Defined.

Lemma slist_mask_kept (gate_min gate_max : Z) (l : list Z) :
  Forall (fun keep => keep = true)
         (slist_mask gate_min gate_max
            (List.filter (fun gate => (gate_min <=? gate) && (gate <=? gate_max)) l)).
Proof.
  unfold slist_mask. apply Forall_forall. intros keep Hkeep.
  apply list_elem_of_In, in_map_iff in Hkeep as (gate & <- & Hgate).
  by apply filter_In in Hgate as [_ Hgate].
Qed.

Lemma filter_field_all (mask : list bool) (f : pyfield) :
  Forall (fun keep => keep = true) mask -> filter_field mask f = f.
Proof.
  intros Hmask. destruct f as [z|a|l]; simpl; [done| |]; by rewrite filter_sequence_all.
Qed.

Lemma update_nrang_again (gate_min gate_max : Z) (fs : list (pykey * pyfield)) :
  update_nrang gate_min gate_max (update_nrang gate_min gate_max fs)
  = update_nrang gate_min gate_max fs.
Proof.
  unfold update_nrang. rewrite map_map. apply map_ext. intros [k f]. simpl.
  destruct (pykey_eqb k (KStr "nrang")) eqn:E; simpl; by rewrite E.
Qed.

Lemma filter_record_fixed (gate_min gate_max : Z) (r r' : Scan.t) :
  filter_record gate_min gate_max r = Some r' ->
  filter_record gate_min gate_max r' = Some r'.
Proof.
  intros Hsome.
  destruct (filter_record_slist _ _ _ _ Hsome) as (l & Hl & Hl' & Hne & _).
  pose proof (slist_mask_kept gate_min gate_max l) as Hmask.
  unfold filter_record in Hsome. rewrite Hl in Hsome.
  destruct (length l =? 0)%nat; [done|].
  destruct (negb _); [done|]. injection Hsome as Hr'.
  rewrite filter_sequence_slist in Hr'.
  remember (List.filter (fun gate => (gate_min <=? gate) && (gate <=? gate_max)) l)
    as kept_gates eqn:Hkept.
  unfold filter_record. rewrite Hl'.
  assert ((length kept_gates =? 0)%nat = false) as -> by (by destruct kept_gates).
  assert (existsb id (slist_mask gate_min gate_max kept_gates) = true) as ->.
  { destruct kept_gates as [|gate rest]; [done|]. simpl in *.
    apply Forall_cons in Hmask as [-> _]. done. }
  cbn [negb]. subst r'. cbn [Scan.bmnum Scan.slist Scan.gflg Scan.fields].
  rewrite (filter_sequence_all _ kept_gates Hmask).
  assert (forall X : option (list Z),
            filter_sequence (slist_mask gate_min gate_max kept_gates) <$> X = X) as ->.
  { intros [g|]; simpl; [|done]. by rewrite (filter_sequence_all _ _ Hmask). }
  assert (forall Y : list (pykey * pyfield),
            map (fun kv => (kv.1, filter_field (slist_mask gate_min gate_max kept_gates) kv.2))
                Y = Y) as ->.
  { intros Y. rewrite <- (map_id Y) at 2. apply map_ext. intros [k f]. simpl.
    by rewrite (filter_field_all _ _ Hmask). }
  by rewrite update_nrang_again.
Qed.

Lemma omap_fixed {A} (f : A -> option A) (l : list A) :
  (forall a a', f a = Some a' -> f a' = Some a') -> omap f (omap f l) = omap f l.
Proof.
  intros Hf. induction l as [|a l IH]; csimpl; [done|].
  destruct (f a) as [a'|] eqn:E; csimpl; [|done].
  by rewrite (Hf _ _ E), IH.
Qed.

(** X19. Filtering twice with the same limits is filtering once. *)
Theorem filter_fitacf_gates_idempotent (data : list Scan.t) (gate_min gate_max : Z) :
  filter_fitacf_gates (filter_fitacf_gates data gate_min gate_max) gate_min gate_max
  = filter_fitacf_gates data gate_min gate_max.
Proof.
  unfold filter_fitacf_gates. apply omap_fixed. apply filter_record_fixed.
Qed.

Lemma gate_points_gates (parameter : string) (r : Scan.t) (pair : Z * pyfloat) :
  pair ∈ gate_points parameter r ->
  exists l, Scan.slist r = Some l /\ pair.1 ∈ l.
Proof.
  unfold gate_points. destruct (Scan.slist r) as [l|]; [|by intros ?%elem_of_nil].
  intros Hpair. exists l. split; [done|].
  assert (pair ∈ zip l (match item parameter r with
                        | Some (Array values) | Some (Listed values) => values
                        | _ => []
                        end)) as Hin.
  { destruct (item parameter r) as [[z|a|k]|]; try done; by apply elem_of_nil in Hpair. }
  destruct pair as [gate value]. by apply elem_of_zip_l in Hin.
Qed.

(** X20. [plot_range_scatter] and [plot_2d_hist] after
    [filter_fitacf_gates]: every gate of the points drawn, ionospheric or
    ground scatter, lies within the limits of the filter. *)
Theorem scatter_of_filtered_data (parameter : string) (data : list Scan.t)
    (gate_min gate_max : Z) (groundscatter : bool) (beam_num : selector)
    (st : scatter_lists) :
  plot_range_scatter_data parameter (filter_fitacf_gates data gate_min gate_max)
                          groundscatter beam_num = Returns st ->
  Forall (fun gate => gate_min <= gate <= gate_max) (gates st)
  /\ Forall (fun gate => gate_min <= gate <= gate_max) (gates_gs st).
Proof.
  unfold plot_range_scatter_data. intros H.
  destruct (check_parameter parameter _) as [[]|]; [|done]. cbn [and_then] in H.
  destruct (if groundscatter then _ else _) as [[]|]; [|done]. cbn [and_then] in H.
  destruct (check_beam beam_num) as [[]|]; [|done]. cbn [and_then] in H.
  destruct (gather_gated_data _ _ _ _) as [st0|] eqn:Hgather; [|done].
  destruct (check_data _ _ _) as [[]|]; [|done]. cbn [and_then] in H.
  injection H as <-.
  apply gather_gated_data_paired in Hgather as (H1 & H2 & H3 & H4).
  assert (forall gs vs,
            length gs = length vs ->
            Forall (fun pair : Z * pyfloat =>
                      is_finite pair.2 = true
                      /\ exists r, r ∈ filter_fitacf_gates data gate_min gate_max
                                   /\ pair ∈ gate_points parameter r) (zip gs vs) ->
            Forall (fun gate => gate_min <= gate <= gate_max) gs) as Hgates.
  { intros gs vs Hlen Hall.
    rewrite <- (fst_zip gs vs) by lia.
    apply Forall_fmap. eapply Forall_impl; [exact Hall|].
    intros pair (_ & r' & Hr' & Hpair). simpl.
    apply gate_points_gates in Hpair as (l' & Hl' & Hin).
    unfold filter_fitacf_gates in Hr'.
    apply list_elem_of_omap in Hr' as (r & _ & Hsome).
    destruct (filter_record_slist _ _ _ _ Hsome) as (l & _ & Hkept & _).
    rewrite Hl' in Hkept. injection Hkept as ->.
    by apply (proj1 (Forall_forall _ _) (gates_in_range gate_min gate_max l)). }
  split; by eapply Hgates.
Qed.

Lemma scatter_of_filtered_data_witness :
  Forall (fun gate => 0 <= gate <= 20) [10].
Proof.
  destruct (scatter_of_filtered_data "v" [beam_8; beam_7] 0 20 false (SelStr "all")
              {| vals := [Fin 120]; gates := [10]; vals_gs := []; gates_gs := [] |}
              eq_refl) as (H & _).
  exact H.
Defined.

(** * The checks of [plot_vector_time_series] *)

Lemma compare_lengths_or_stop_cases (parameter : string) (r : Scan.t) :
  is_scalar (item parameter r) = false ->
  except_key_error (compare_lengths_or_stop parameter r)
  = (if mismatched parameter r
     then Err (ValueError "Ground scatter plot unavailable") else Ok tt).
Proof.
  unfold compare_lengths_or_stop, mismatched.
  destruct (item parameter r) as [[z|a|l]|]; simpl; try done.
  - intros _. destruct (Scan.gflg r) as [g|]; [|done]. by destruct (negb _).
  - intros _. destruct (Scan.gflg r) as [g|]; [|done]. by destruct (negb _).
Qed.

Lemma check_lengths_or_stop (parameter : string) (data : list Scan.t) :
  Forall (fun r => is_scalar (item parameter r) = false) data ->
  for_each (fun _ r => except_key_error (compare_lengths_or_stop parameter r)) tt data
  = (if existsb (mismatched parameter) data
     then Err (ValueError "Ground scatter plot unavailable") else Ok tt).
Proof.
  induction 1 as [|r data Hr Hdata IH]; simpl; [done|].
  rewrite compare_lengths_or_stop_cases by done.
  destruct (mismatched parameter r); simpl; [done|]. apply IH.
Qed.

(** X21. In [plot_vector_time_series] the length check of Check Ground
    Scatter is live: it raises a ValueError, which the handler of the
    [try] does not catch.  With [groundscatter] set, when a record holds
    an array under the parameter and no record a scalar, a record whose
    parameter and [gflg] differ in length stops the call with
    ValueError('Ground scatter plot unavailable'); when a record has
    [gflg] and no record has such a mismatch, the call goes on to the
    check of the beam and gate numbers.  ([plot_vector_hist],
    [plot_2d_hist] and [plot_range_scatter] raise a KeyError at the same
    place and catch it.) *)
Theorem time_series_length_check_fires (parameter : string) (data : list Scan.t)
    (beam_num gate_num : selector) :
  Forall (fun r => is_scalar (item parameter r) = false) data ->
  Exists (fun r => is_array (item parameter r) = true) data ->
  (Exists (fun r => mismatched parameter r = true) data ->
   plot_vector_time_series_checks parameter data beam_num gate_num true
   = Raises (Raised (ValueError "Ground scatter plot unavailable")))
  /\ (Forall (fun r => mismatched parameter r = false) data ->
      Exists (fun r => is_Some (Scan.gflg r)) data ->
      plot_vector_time_series_checks parameter data beam_num gate_num true
      = check_beam_and_gate beam_num gate_num).
Proof.
  intros Hscalar Harray.
  unfold plot_vector_time_series_checks, check_parameter.
  assert (existsb (fun r => is_array (item parameter r)) data = true) as ->.
  { apply existsb_exists. apply Exists_exists in Harray as (r & Hr & Ha).
    exists r. split; [by apply list_elem_of_In|done]. }
  cbn [and_then]. unfold check_ground_scatter_or_stop.
  rewrite check_lengths_or_stop by done.
  split.
  - intros Hmis. apply Exists_exists in Hmis as (r & Hr & Hm).
    assert (existsb (fun r => bool_decide (is_Some (Scan.gflg r))) data = true) as ->.
    { apply existsb_exists. exists r. split; [by apply list_elem_of_In|].
      apply bool_decide_eq_true. unfold mismatched in Hm.
      destruct (Scan.gflg r); [done|]. by destruct (item parameter r) as [[z|a|l]|]. }
    assert (existsb (mismatched parameter) data = true) as ->; [|done].
    apply existsb_exists. exists r. split; [by apply list_elem_of_In|done].
  - intros Hnone Hgflg.
    assert (existsb (fun r => bool_decide (is_Some (Scan.gflg r))) data = true) as ->.
    { apply existsb_exists. apply Exists_exists in Hgflg as (r & Hr & Hg).
      exists r. split; [by apply list_elem_of_In|]. by apply bool_decide_eq_true. }
    assert (existsb (mismatched parameter) data = false) as ->; [|done].
    apply not_true_iff_false. intros E.
    apply existsb_exists in E as (r & Hr & Hm). apply list_elem_of_In in Hr.
    by rewrite (proj1 (Forall_forall _ _) Hnone r Hr) in Hm.
Qed.

Lemma time_series_length_check_fires_witness :
  plot_vector_time_series_checks "v" [beam_7; short_gflg] (SelInt 7) (SelInt 10) true
  = Raises (Raised (ValueError "Ground scatter plot unavailable"))
  /\ plot_vector_time_series_checks "v" [beam_7; beam_8] (SelInt 7) (SelInt 10) true
     = Returns tt.
Proof.
  split.
  - apply (time_series_length_check_fires "v" [beam_7; short_gflg] (SelInt 7) (SelInt 10)).
    + by repeat constructor.
    + by apply Exists_cons_hd.
    + apply Exists_cons_tl, Exists_cons_hd. reflexivity.
  - apply (time_series_length_check_fires "v" [beam_7; beam_8] (SelInt 7) (SelInt 10)).
    + by repeat constructor.
    + by apply Exists_cons_hd.
    + by repeat constructor.
    + apply Exists_cons_hd. by eexists.
Defined.

(** * [group_files] *)

Lemma group_key_eqb_eq (a b : group_key) : group_key_eqb a b = true <-> a = b.
Proof.
  destruct a, b; simpl; try (split; [done|discriminate]);
    rewrite ?andb_true_iff, !String.eqb_eq; split; try congruence.
  - by intros [-> ->].
  - by intros [= -> ->].
  - by intros [[-> ->] ->].
  - by intros [= -> -> ->].
Qed.

Lemma append_to_group_members (key : group_key) (file : string)
    (groups : list (group_key * list string)) :
  concat (map snd (append_to_group key file groups))
  ≡ₚ concat (map snd groups) ++ [file].
Proof.
  induction groups as [|[k members] groups IH]; simpl; [done|].
  destruct (group_key_eqb k key); simpl.
  - rewrite <- !app_assoc. apply Permutation_app_head, Permutation_app_comm.
  - by rewrite IH, app_assoc.
Qed.

Lemma append_to_group_keys (key : group_key) (file : string)
    (groups : list (group_key * list string)) :
  (key ∈ map fst groups /\ map fst (append_to_group key file groups) = map fst groups)
  \/ ((key ∉ map fst groups)
      /\ map fst (append_to_group key file groups) = map fst groups ++ [key]).
Proof.
  induction groups as [|[k members] groups IH]; simpl.
  - right. split; [apply not_elem_of_nil|done].
  - destruct (group_key_eqb k key) eqn:E; simpl.
    + apply group_key_eqb_eq in E as ->. left. split; [apply elem_of_cons; by left|done].
    + assert (key <> k) as Hne.
      { intros ->. rewrite (proj2 (group_key_eqb_eq k k) eq_refl) in E. done. }
      destruct IH as [[Hin ->]|[Hnot ->]].
      * left. split; [apply elem_of_cons; by right|done].
      * right. split; [|done]. intros [?|?]%elem_of_cons; done.
Qed.

Lemma append_to_group_grouped (g : grouping) (seen : list string) (file : string)
    (key : group_key) (groups : list (group_key * list string)) :
  grouped g seen groups -> file_key g file = Some key ->
  grouped g (seen ++ [file]) (append_to_group key file groups).
Proof.
  intros (Hmembers & Hkeys & Hgroups) Hkey. split; [|split].
  - by rewrite append_to_group_members, Hmembers.
  - destruct (append_to_group_keys key file groups) as [[_ ->]|[Hnot ->]]; [done|].
    apply NoDup_app. split; [done|]. split; [|apply NoDup_singleton].
    intros k Hk ->%list_elem_of_singleton. done.
  - clear Hmembers Hkeys.
    induction Hgroups as [|[k members] groups [Hne Hall] Hgroups IH]; simpl.
    + repeat constructor; simpl; [done|done].
    + destruct (group_key_eqb k key) eqn:E.
      * apply group_key_eqb_eq in E as ->. constructor; [|done]. simpl in *. split.
        -- by destruct members.
        -- apply Forall_app. split; [done|]. by repeat constructor.
      * by constructor.
Qed.

Lemma group_all_grouped (g : grouping) (files seen : list string)
    (groups groups' : list (group_key * list string)) :
  grouped g seen groups -> group_all g files groups = inr groups' ->
  grouped g (seen ++ files) groups'.
Proof.
  revert seen groups. induction files as [|file files IH]; intros seen groups Hinv; simpl.
  - intros [= <-]. by rewrite app_nil_r.
  - destruct (Nat.eqb_spec (String.length
                              (scan_digits (date_len g) (basename file) EmptyString))
                           (date_len g)) as [Hlen|]; simpl; [|done].
    intros Hrun. rewrite (cons_middle file seen files), app_assoc.
    eapply IH; [|exact Hrun]. apply append_to_group_grouped; [done|].
    unfold file_key, date_of. apply Nat.eqb_eq in Hlen. by rewrite Hlen.
Qed.

(** X22. What [group_files] returns for a list of paths: the groups hold
    the files of the list, each file once, under pairwise distinct keys;
    no group is empty, and every file stands under the key made of the
    date digits of its own basename. *)
Theorem group_files_partition (filepath : list string) (group_by : string)
    (groups : list (group_key * list string)) :
  group_files filepath group_by = inr groups ->
  exists g,
    grouping_of group_by = Some g
    /\ concat (map snd groups) ≡ₚ filepath
    /\ NoDup (map fst groups)
    /\ Forall (fun kv => kv.2 <> []
                         /\ Forall (fun file => file_key g file = Some kv.1) kv.2) groups.
Proof.
  unfold group_files.
  destruct (length (merge_sort path_le filepath) =? 0)%nat; [done|].
  destruct (grouping_of group_by) as [g|]; [|done].
  intros Hrun. exists g. split; [done|].
  apply (group_all_grouped g _ [] []) in Hrun as (Hmembers & Hkeys & Hgroups).
  - split; [|done]. rewrite Hmembers. simpl. apply merge_sort_Permutation.
  - repeat split; simpl; constructor.
Qed.

Lemma group_files_partition_witness :
  exists g,
    grouping_of "month" = Some g
    /\ concat [["a/20240517.rkn.fitacf"; "b/20240502.rkn.fitacf"]; ["a/20240601.rkn.fitacf"]]
       ≡ₚ ["b/20240502.rkn.fitacf"; "a/20240601.rkn.fitacf"; "a/20240517.rkn.fitacf"].
Proof.
  destruct (group_files_partition
              ["b/20240502.rkn.fitacf"; "a/20240601.rkn.fitacf"; "a/20240517.rkn.fitacf"]
              "month"
              [(ByMonth "2024" "05", ["a/20240517.rkn.fitacf"; "b/20240502.rkn.fitacf"]);
               (ByMonth "2024" "06", ["a/20240601.rkn.fitacf"])])
    as (g & Hg & Hmembers & _).
  - vm_compute. reflexivity.
  - exists g. split; [exact Hg|exact Hmembers].
Defined.

Lemma group_all_returns (g : grouping) (files : list string)
    (groups : list (group_key * list string)) :
  (Forall (fun file => is_Some (date_of g file)) files ->
   exists groups', group_all g files groups = inr groups')
  /\ (forall e, group_all g files groups = inl e ->
        exists file, file ∈ files /\ date_of g file = None
                     /\ e = NameError ("No date found in file: " ++ basename file)).
Proof.
  revert groups. induction files as [|file files IH]; intros groups; simpl.
  - split; [by eexists|done].
  - unfold date_of at 1 2.
    destruct (String.length (scan_digits (date_len g) (basename file) EmptyString)
              =? date_len g)%nat eqn:E; simpl.
    + destruct (IH (append_to_group
                      (key_of g (scan_digits (date_len g) (basename file) EmptyString))
                      file groups)) as [Hok Herr].
      split.
      * intros Hall. apply Forall_cons in Hall as [_ Hall]. by apply Hok.
      * intros e He. destruct (Herr e He) as (f & Hf & Hnone & ->).
        exists f. split; [apply elem_of_cons; by right|done].
    + split.
      * intros Hall. apply Forall_cons in Hall as [[d Hd] _].
        unfold date_of in Hd. by rewrite E in Hd.
      * intros e [= <-]. exists file. split; [apply elem_of_cons; by left|].
        unfold date_of. by rewrite E.
Qed.

Lemma merge_sort_not_empty (filepath : list string) :
  filepath <> [] -> (length (merge_sort path_le filepath) =? 0)%nat = false.
Proof.
  intros Hne. rewrite (Permutation_length (merge_sort_Permutation path_le filepath)).
  by destruct filepath.
Qed.

(** X23. The errors of [group_files] on a list of paths, in their order:
    an empty list raises FileNotFoundError whatever [group_by] is; then a
    [group_by] other than 'year', 'month' and 'day' raises
    NameError('Invalid grouping method: ...'); then the call returns if
    and only if the basename of every file has as many digits as the date
    needs, and otherwise raises NameError('No date found in file: ...')
    naming the basename of a file that has not. *)
Theorem group_files_errors (filepath : list string) (group_by : string) :
  (filepath = [] ->
   group_files filepath group_by = inl (FileNotFoundError "Files not found: []"))
  /\ (filepath <> [] -> grouping_of group_by = None ->
      group_files filepath group_by
      = inl (NameError ("Invalid grouping method: " ++ group_by)))
  /\ (filepath <> [] -> forall g, grouping_of group_by = Some g ->
      ((exists groups, group_files filepath group_by = inr groups)
       <-> Forall (fun file => is_Some (date_of g file)) filepath)
      /\ (forall e, group_files filepath group_by = inl e ->
            exists file, file ∈ filepath /\ date_of g file = None
                         /\ e = NameError ("No date found in file: " ++ basename file))).
Proof.
  split; [by intros ->|]. split.
  - intros Hne Hg. unfold group_files. by rewrite merge_sort_not_empty, Hg.
  - intros Hne g Hg. unfold group_files. rewrite merge_sort_not_empty, Hg by done.
    destruct (group_all_returns g (merge_sort path_le filepath) []) as [Hok Herr].
    pose proof (merge_sort_Permutation path_le filepath) as Hperm.
    split; [split|].
    + intros [groups Hrun]. rewrite <- Hperm.
      apply Forall_forall. intros file Hfile.
      destruct (date_of g file) as [date|] eqn:Hdate; [by eexists|]. exfalso.
      apply (group_all_grouped g _ [] []) in Hrun as (Hmembers & _ & Hgroups).
      2: { repeat split; simpl; constructor. }
      simpl in Hmembers. rewrite <- Hmembers in Hfile.
      apply list_elem_of_In, in_concat in Hfile as (members & Hmem & Hin).
      apply in_map_iff in Hmem as ([k members'] & <- & Hkv). simpl in Hin.
      apply list_elem_of_In in Hkv, Hin.
      apply (proj1 (Forall_forall _ _) Hgroups) in Hkv as [_ Hall]. simpl in Hall.
      apply (proj1 (Forall_forall _ _) Hall) in Hin.
      unfold file_key in Hin. by rewrite Hdate in Hin.
    + intros Hall. apply Hok. by rewrite Hperm.
    + intros e He. destruct (Herr e He) as (file & Hfile & Hnone & ->).
      exists file. split; [by rewrite <- Hperm|done].
Qed.

Lemma group_files_errors_witness :
  group_files [] "week" = inl (FileNotFoundError "Files not found: []")
  /\ group_files ["a/20240517.rkn.fitacf"] "week"
     = inl (NameError "Invalid grouping method: week").
Proof.
  destruct (group_files_errors [] "week") as (Hempty & _).
  destruct (group_files_errors ["a/20240517.rkn.fitacf"] "week") as (_ & Hmethod & _).
  split; [by apply Hempty|]. apply Hmethod; [discriminate|reflexivity].
Defined.

(** [append] does not unfold under [simpl]. *)
Ltac append_step :=
  repeat first
    [ progress change (String ?c ?s ++ ?t)%string with (String c (s ++ t)%string)
    | progress change (EmptyString ++ ?t)%string with t ].

Lemma append_empty (s : string) : (s ++ "")%string = s.
Proof. induction s as [|c s IH]; append_step; [done|]. by rewrite IH. Qed.

Lemma append_one (s : string) (c : ascii) (t : string) :
  ((s ++ String c "") ++ t)%string = (s ++ String c t)%string.
Proof. induction s as [|c' s IH]; append_step; [done|]. by rewrite IH. Qed.

Lemma length_append_one (s : string) (c : ascii) :
  String.length (s ++ String c "") = S (String.length s).
Proof. induction s as [|c' s IH]; append_step; simpl; [done|]. by rewrite IH. Qed.

Lemma substring_none (s : string) : substring 0 0 s = ""%string.
Proof. by destruct s. Qed.

Lemma length_substring (n : nat) (s : string) :
  String.length (substring 0 n s) = Nat.min n (String.length s).
Proof.
  revert s. induction n as [|n IH]; intros s.
  - by rewrite substring_none.
  - destruct s as [|c s]; simpl; [done|]. by rewrite IH.
Qed.

Lemma scan_digits_from (n : nat) (name date : string) :
  (String.length date < n)%nat ->
  scan_digits n name date
  = (date ++ substring 0 (n - String.length date) (digits_of name))%string.
Proof.
  revert date. induction name as [|c rest IH]; intros date Hlen; simpl.
  - destruct (n - String.length date)%nat; simpl; by rewrite append_empty.
  - destruct (is_digit c); [|by apply IH].
    rewrite length_append_one.
    destruct (Nat.eqb_spec (S (String.length date)) n) as [<-|Hne].
    + replace (S (String.length date) - String.length date)%nat with 1%nat by lia.
      simpl. by rewrite substring_none.
    + rewrite IH by (rewrite length_append_one; lia).
      rewrite length_append_one, append_one.
      replace (n - String.length date)%nat with (S (n - S (String.length date))) by lia.
      done.
Qed.

Lemma after_last_slash_none (name candidate : string) :
  no_slash name = true -> after_last_slash name candidate = candidate.
Proof.
  revert candidate. induction name as [|c rest IH]; intros candidate; simpl; [done|].
  destruct (Ascii.eqb c "/"); simpl; [done|]. apply IH.
Qed.

Lemma after_last_slash_directory (directory name candidate : string) :
  no_slash name = true ->
  after_last_slash (directory ++ String "/" name) candidate = name.
Proof.
  intros Hname. revert candidate.
  induction directory as [|c rest IH]; intros candidate; append_step; simpl.
  - by apply after_last_slash_none.
  - destruct (Ascii.eqb c "/"); apply IH.
Qed.

(** X24. The date [group_files] reads from a path: only the part after the
    last slash counts, and there the date is made of the first digits met,
    as many as the grouping needs (4, 6 or 8), wherever they stand and
    whatever lies between them; a basename with fewer digits has no
    date. *)
Theorem date_is_the_first_digits (g : grouping) (directory name : string) :
  no_slash name = true ->
  basename (directory ++ String "/" name) = name
  /\ basename name = name
  /\ date_of g (directory ++ String "/" name) = date_of g name
  /\ date_of g name
     = (if (date_len g <=? String.length (digits_of name))%nat
        then Some (substring 0 (date_len g) (digits_of name)) else None).
Proof.
  intros Hname.
  assert (basename (directory ++ String "/" name) = name) as Hdir
    by (by apply after_last_slash_directory).
  assert (basename name = name) as Hbase by (by apply after_last_slash_none).
  split; [done|]. split; [done|]. unfold date_of. rewrite Hdir, Hbase.
  split; [done|].
  rewrite scan_digits_from by (destruct g; simpl; lia).
  append_step. simpl String.length. rewrite Nat.sub_0_r, length_substring.
  destruct (Nat.leb_spec (date_len g) (String.length (digits_of name))).
  - by rewrite Nat.min_l, Nat.eqb_refl by lia.
  - rewrite Nat.min_r by lia.
    destruct (Nat.eqb_spec (String.length (digits_of name)) (date_len g)); [lia|done].
Qed.

Lemma date_is_the_first_digits_witness :
  date_of Daily "data/2024/v3_20240517.fitacf" = Some "32024051"%string.
Proof.
  destruct (date_is_the_first_digits Daily "data/2024" "v3_20240517.fitacf" eq_refl)
    as (_ & _ & Hpath & Hdate).
  change (date_of Daily ("data/2024" ++ String "/" "v3_20240517.fitacf")
          = Some "32024051"%string).
  rewrite Hpath, Hdate. reflexivity.
Defined.

Lemma path_le_trans (a b c : string) : path_le a b -> path_le b c -> path_le a c.
Proof.
  unfold path_le, String.leb. revert b c.
  induction a as [|x a IH]; intros [|y b] [|z c]; simpl; try done.
  unfold Ascii.compare.
  destruct (N.compare_spec (N_of_ascii x) (N_of_ascii y));
    destruct (N.compare_spec (N_of_ascii y) (N_of_ascii z));
    destruct (N.compare_spec (N_of_ascii x) (N_of_ascii z));
    try done; try lia.
  apply IH.
Qed.

Lemma sorted_paths (filepath : list string) :
  StronglySorted path_le (merge_sort path_le filepath).
Proof.
  apply StronglySorted_merge_sort.
  - intros a b c. apply path_le_trans.
  - intros a b. apply String.leb_total.
Qed.

Lemma StronglySorted_sublist {A} (R : relation A) (k l : list A) :
  k `sublist_of` l -> StronglySorted R l -> StronglySorted R k.
Proof.
  induction 1 as [|x k l Hsub IH|x k l Hsub IH]; intros Hl; [done| |].
  - apply StronglySorted_inv in Hl as [Hl Hx]. constructor; [by apply IH|].
    apply Forall_forall. intros y Hy.
    apply (proj1 (Forall_forall _ _) Hx). by eapply elem_of_sublist.
  - apply StronglySorted_inv in Hl as [Hl _]. by apply IH.
Qed.

Lemma append_to_group_sublists (key : group_key) (file : string) (seen : list string)
    (groups : list (group_key * list string)) :
  Forall (fun kv => kv.2 `sublist_of` seen) groups ->
  Forall (fun kv => kv.2 `sublist_of` seen ++ [file]) (append_to_group key file groups).
Proof.
  induction 1 as [|[k members] groups Hsub Hgroups IH]; simpl.
  - repeat constructor. simpl. by apply sublist_inserts_l.
  - simpl in Hsub.
    assert (Forall (fun kv : group_key * list string => kv.2 `sublist_of` seen ++ [file])
                   groups) as Hrest.
    { eapply Forall_impl; [exact Hgroups|]. intros kv Hkv. by apply sublist_inserts_r. }
    destruct (group_key_eqb k key).
    + constructor; [|done]. simpl. by apply sublist_app.
    + constructor; [|done]. simpl. by apply sublist_inserts_r.
Qed.

Lemma group_all_sublists (g : grouping) (files seen : list string)
    (groups groups' : list (group_key * list string)) :
  Forall (fun kv => kv.2 `sublist_of` seen) groups ->
  group_all g files groups = inr groups' ->
  Forall (fun kv => kv.2 `sublist_of` seen ++ files) groups'.
Proof.
  revert seen groups. induction files as [|file files IH]; intros seen groups Hinv; simpl.
  - intros [= <-]. by rewrite app_nil_r.
  - destruct (negb _); [done|].
    intros Hrun. rewrite (cons_middle file seen files), app_assoc.
    eapply IH; [|exact Hrun]. by apply append_to_group_sublists.
Qed.

(** X25. [group_files] keeps the files in order: the files of every group
    come in ascending order of their paths, as [files.sort()] left them,
    whatever the order of the list given. *)
Theorem groups_keep_the_order (filepath : list string) (group_by : string)
    (groups : list (group_key * list string)) :
  group_files filepath group_by = inr groups ->
  Forall (fun kv => kv.2 `sublist_of` merge_sort path_le filepath
                    /\ StronglySorted path_le kv.2) groups.
Proof.
  unfold group_files.
  destruct (length (merge_sort path_le filepath) =? 0)%nat; [done|].
  destruct (grouping_of group_by) as [g|]; [|done].
  intros Hrun. apply (group_all_sublists g _ [] []) in Hrun; [|constructor].
  simpl in Hrun. eapply Forall_impl; [exact Hrun|].
  intros kv Hkv. split; [done|].
  eapply StronglySorted_sublist; [exact Hkv|apply sorted_paths].
Qed.

Lemma groups_keep_the_order_witness :
  StronglySorted path_le ["a/20240517.rkn.fitacf"; "b/20240502.rkn.fitacf"].
Proof.
  pose proof (groups_keep_the_order
                ["b/20240502.rkn.fitacf"; "a/20240601.rkn.fitacf"; "a/20240517.rkn.fitacf"]
                "month"
                [(ByMonth "2024" "05", ["a/20240517.rkn.fitacf"; "b/20240502.rkn.fitacf"]);
                 (ByMonth "2024" "06", ["a/20240601.rkn.fitacf"])] eq_refl) as H.
  apply Forall_cons in H as [[_ H] _]. exact H.
Defined.

(** * [plot_fan_plots]: the scan times *)

Lemma generate_times_steps (delta end_time : Z) (m : nat) :
  0 < delta -> end_time + delta <= last_instant ->
  forall last times fuel,
    0 <= last <= end_time ->
    Z.to_nat ((end_time - last) / delta) = m ->
    (m < fuel)%nat ->
    generate_times fuel delta end_time last times
    = ScanTimes (times ++ map (fun k => last + Z.of_nat k * delta) (seq 1 m)).
Proof.
  intros Hdelta Hend. induction m as [|m IH]; intros last times fuel Hlast Hm Hfuel.
  - destruct fuel as [|fuel]; [lia|]. simpl.
    assert ((end_time - last) / delta = 0) as Hq.
    { pose proof (Z.div_pos (end_time - last) delta ltac:(lia) Hdelta). lia. }
    apply Z.div_small_iff in Hq as [Hq|Hq]; [|lia|lia].
    unfold later.
    destruct (Z.leb_spec 0 (last + delta)); [|lia].
    destruct (Z.leb_spec (last + delta) last_instant); [|lia]. simpl.
    destruct (Z.leb_spec (last + delta) end_time); [lia|].
    by rewrite app_nil_r.
  - destruct fuel as [|fuel]; [lia|]. simpl.
    assert (1 <= (end_time - last) / delta) as Hq by lia.
    assert (delta <= end_time - last) as Hroom.
    { destruct (Z.lt_ge_cases (end_time - last) delta) as [Hlt|]; [|done].
      rewrite Z.div_small in Hq by lia. lia. }
    unfold later.
    destruct (Z.leb_spec 0 (last + delta)); [|lia].
    destruct (Z.leb_spec (last + delta) last_instant); [|lia]. simpl.
    destruct (Z.leb_spec (last + delta) end_time); [|lia].
    rewrite (IH (last + delta) (times ++ [last + delta]) fuel); [|lia| |lia].
    + f_equal. rewrite <- app_assoc. f_equal. simpl. f_equal; [lia|].
      rewrite <- (seq_shift m 1), map_map. apply map_ext. intros k. lia.
    + replace (end_time - (last + delta)) with (end_time - last + (-1) * delta) by lia.
      rewrite Z.div_add by lia. lia.
Qed.

(** X26. The scan times of [plot_fan_plots], for a parameter it knows and
    a positive [interval]: when [start_time <= end_time] the loop ends,
    and the times are [start_time], [start_time + interval], ... up to
    the last one that is not after [end_time]; when [start_time] is after
    [end_time] the list is [start_time] alone, so that one plot is still
    made.  (The times stay within the range of [datetime].) *)
Theorem scan_times_cover_the_interval (parameter : string)
    (start_time end_time interval : Z) (fuel : nat) :
  existsb (String.eqb parameter) fan_parameters = true ->
  0 < interval -> 0 <= start_time ->
  (start_time <= end_time -> end_time + interval * 60000000 <= last_instant ->
   (Z.to_nat ((end_time - start_time) / (interval * 60000000)) < fuel)%nat ->
   plot_fan_times fuel parameter start_time end_time interval
   = ScanTimes (map (fun k => start_time + Z.of_nat k * (interval * 60000000))
                    (seq 0 (S (Z.to_nat ((end_time - start_time)
                                         / (interval * 60000000)))))))
  /\ (end_time < start_time -> start_time + interval * 60000000 <= last_instant ->
      (0 < fuel)%nat ->
      plot_fan_times fuel parameter start_time end_time interval
      = ScanTimes [start_time]).
Proof.
  intros Hparameter Hinterval Hstart. unfold plot_fan_times. rewrite Hparameter. simpl.
  assert (last_instant = 315537897599999999) as Hlast by reflexivity.
  split.
  - intros Horder Hend Hfuel.
    assert (timedelta_minutes interval = Some (interval * 60000000)) as ->.
    { unfold timedelta_minutes. simpl.
      destruct (Z.leb_spec (-86399999913600000000) (interval * 60000000)); [|lia].
      destruct (Z.leb_spec (interval * 60000000) 86399999999999999999); [done|lia]. }
    rewrite (generate_times_steps (interval * 60000000) end_time
               (Z.to_nat ((end_time - start_time) / (interval * 60000000))));
      try done; try lia.
    simpl. f_equal. f_equal. lia.
  - intros Horder Hend Hfuel.
    assert (timedelta_minutes interval = Some (interval * 60000000)) as ->.
    { unfold timedelta_minutes. simpl.
      destruct (Z.leb_spec (-86399999913600000000) (interval * 60000000)); [|lia].
      destruct (Z.leb_spec (interval * 60000000) 86399999999999999999); [done|lia]. }
    destruct fuel as [|fuel]; [lia|]. simpl. unfold later.
    destruct (Z.leb_spec 0 (start_time + interval * 60000000)); [|lia].
    destruct (Z.leb_spec (start_time + interval * 60000000) last_instant); [|lia]. simpl.
    destruct (Z.leb_spec (start_time + interval * 60000000) end_time); [lia|done].
Qed.

Lemma scan_times_cover_the_interval_witness :
  plot_fan_times 5 "v" 0 7200000000 60 = ScanTimes [0; 3600000000; 7200000000]
  /\ plot_fan_times 5 "v" 7200000000 0 60 = ScanTimes [7200000000].
Proof.
  split.
  - apply (scan_times_cover_the_interval "v" 0 7200000000 60 5); try reflexivity;
      try done; vm_compute; lia.
  - apply (scan_times_cover_the_interval "v" 7200000000 0 60 5); try reflexivity;
      try done; vm_compute; lia.
Defined.

Lemma generate_times_backwards (delta end_time : Z) (fuel : nat) :
  delta <= 0 ->
  forall last times scan,
    last <= end_time ->
    generate_times fuel delta end_time last times <> ScanTimes scan.
Proof.
  intros Hdelta. induction fuel as [|fuel IH]; intros last times scan Hlast; simpl; [done|].
  unfold later. destruct (_ && _); [|done].
  destruct (Z.leb_spec (last + delta) end_time); [|lia].
  apply IH. lia.
Qed.

Lemma generate_times_standing (end_time : Z) (fuel : nat) :
  forall last times,
    0 <= last <= last_instant -> last <= end_time ->
    generate_times fuel 0 end_time last times = StillLooping.
Proof.
  induction fuel as [|fuel IH]; intros last times Hrange Hlast; simpl; [done|].
  unfold later. rewrite Z.add_0_r.
  destruct (Z.leb_spec 0 last); [|lia].
  destruct (Z.leb_spec last last_instant); [|lia]. simpl.
  destruct (Z.leb_spec last end_time); [|lia].
  by apply IH.
Qed.

(** X27. With an [interval] that is zero or negative and
    [start_time <= end_time], [plot_fan_plots] never gets to its plots:
    however many times the loop goes round, the list of times is not
    finished.  With [interval = 0] the loop goes on for ever, appending
    [start_time] again and again. *)
Theorem interval_must_be_positive (parameter : string)
    (start_time end_time interval : Z) (fuel : nat) :
  interval <= 0 -> start_time <= end_time ->
  (forall times,
     plot_fan_times fuel parameter start_time end_time interval <> ScanTimes times)
  /\ (interval = 0 -> 0 <= start_time <= last_instant ->
      existsb (String.eqb parameter) fan_parameters = true ->
      plot_fan_times fuel parameter start_time end_time interval = StillLooping).
Proof.
  intros Hinterval Horder. unfold plot_fan_times. split.
  - intros times. destruct (negb _); [done|].
    unfold timedelta_minutes. destruct (_ && _); [|done].
    apply generate_times_backwards; lia.
  - intros -> Hrange ->. simpl. by apply generate_times_standing.
Qed.

Lemma interval_must_be_positive_witness :
  plot_fan_times 1000 "v" 0 7200000000 0 = StillLooping.
Proof.
  destruct (interval_must_be_positive "v" 0 7200000000 0 1000) as (_ & H);
    [lia|lia|].
  apply H; [reflexivity|vm_compute; split; discriminate|reflexivity].
Defined.

(** * Color Map of [plot_freq_scan_2d_hist] *)

Lemma insert_cell_permutation (x : Q) (l : list Q) : insert_cell x l ≡ₚ x :: l.
Proof.
  induction l as [|y l IH]; simpl; [done|].
  destruct (Qle_bool x y); [done|]. rewrite IH. apply perm_swap.
Qed.

Lemma sort_cells_permutation (l : list Q) : sort_cells l ≡ₚ l.
Proof.
  induction l as [|x l IH]; simpl; [done|].
  by rewrite insert_cell_permutation, IH.
Qed.

Lemma least_cell (l : list Q) :
  l <> [] -> exists least, least ∈ l /\ forall y, y ∈ l -> (least <= y)%Q.
Proof.
  induction l as [|z l IH]; [done|]. intros _.
  destruct l as [|z' l].
  - exists z. split; [apply elem_of_cons; by left|].
    intros y [->|Hy]%elem_of_cons; [lra|by apply elem_of_nil in Hy].
  - destruct (IH ltac:(done)) as (least & Hin & Hall).
    destruct (Qlt_le_dec z least) as [Hlt|Hge].
    + exists z. split; [apply elem_of_cons; by left|].
      intros y [->|Hy]%elem_of_cons; [lra|]. specialize (Hall y Hy). lra.
    + exists least. split; [apply elem_of_cons; by right|].
      intros y [->|Hy]%elem_of_cons; [done|]. by apply Hall.
Qed.

Lemma greatest_cell (l : list Q) :
  l <> [] -> exists greatest, greatest ∈ l /\ forall y, y ∈ l -> (y <= greatest)%Q.
Proof.
  induction l as [|z l IH]; [done|]. intros _.
  destruct l as [|z' l].
  - exists z. split; [apply elem_of_cons; by left|].
    intros y [->|Hy]%elem_of_cons; [lra|by apply elem_of_nil in Hy].
  - destruct (IH ltac:(done)) as (greatest & Hin & Hall).
    destruct (Qlt_le_dec greatest z) as [Hlt|Hge].
    + exists z. split; [apply elem_of_cons; by left|].
      intros y [->|Hy]%elem_of_cons; [lra|]. specialize (Hall y Hy). lra.
    + exists greatest. split; [apply elem_of_cons; by right|].
      intros y [->|Hy]%elem_of_cons; [done|]. by apply Hall.
Qed.

Lemma percentile_half_between (a : list Q) (low high : Q) :
  a <> [] ->
  (forall y, y ∈ a -> (low <= y)%Q /\ (y <= high)%Q) ->
  (low <= percentile_half a)%Q /\ (percentile_half a <= high)%Q.
Proof.
  intros Hne Hall. unfold percentile_half.
  assert (0 < length a)%nat as Hlen by (destruct a; [done|simpl; lia]).
  set (last_index := Z.of_nat (length a) - 1).
  assert (0 <= last_index) as Hlast by (unfold last_index; lia).
  pose proof (sort_cells_permutation a) as Hperm.
  assert (forall k, (k < length a)%nat ->
            (low <= nth k (sort_cells a) 0)%Q /\ (nth k (sort_cells a) 0 <= high)%Q)
    as Hnth.
  { intros k Hk. apply Hall, list_elem_of_In, (Permutation_in _ Hperm), nth_In.
    by rewrite (Permutation_length Hperm). }
  assert (Z.to_nat (last_index / 200) < length a)%nat as Hbelow.
  { assert (last_index / 200 <= last_index) by (apply Z.div_le_upper_bound; lia).
    assert (0 <= last_index / 200) by (apply Z.div_pos; lia).
    unfold last_index in *. lia. }
  destruct (Hnth _ Hbelow) as [Hb1 Hb2].
  destruct (Hnth (Nat.min (S (Z.to_nat (last_index / 200))) (length a - 1)) ltac:(lia))
    as [Ha1 Ha2].
  pose proof (Z.mod_pos_bound last_index 200 ltac:(lia)) as Hmod.
  assert (0 <= (last_index mod 200) # 200)%Q as Hg0 by (unfold Qle; simpl; lia).
  assert ((last_index mod 200) # 200 <= 1)%Q as Hg1 by (unfold Qle; simpl; lia).
  revert Hb1 Hb2 Ha1 Ha2 Hg0 Hg1.
  generalize (nth (Z.to_nat (last_index / 200)) (sort_cells a) 0%Q).
  generalize (nth (Nat.min (S (Z.to_nat (last_index / 200))) (length a - 1))
                  (sort_cells a) 0%Q).
  generalize ((last_index mod 200) # 200)%Q.
  intros g v u Hu1 Hu2 Hv1 Hv2 Hg0 Hg1.
  split; nra.
Qed.

Lemma cell_color_map (m : list (list Q)) (i j : nat) (x : Q) :
  cell m i j = Some x ->
  cell (color_map m) i j
  = Some (match positive_cells m with
          | _ :: _ => if Qlt_bool x (percentile_half (positive_cells m)) then NaN else Fin x
          | [] => if Qeq_bool x 0 then NaN else Fin x
          end).
Proof.
  unfold color_map, cell. intros Hcell.
  destruct (m !! i) as [row|] eqn:Hrow; [|done].
  destruct (positive_cells m) as [|y rest];
    change (map ?f ?l) with (f <$> l);
    rewrite list_lookup_fmap, Hrow; simpl;
    change (map ?f ?l) with (f <$> l);
    by rewrite list_lookup_fmap, Hcell.
Qed.

Lemma positive_cell (m : list (list Q)) (i j : nat) (x : Q) :
  cell m i j = Some x -> (0 < x)%Q -> x ∈ positive_cells m.
Proof.
  unfold cell, positive_cells. intros Hcell Hx.
  destruct (m !! i) as [row|] eqn:Hrow; [|done].
  apply list_elem_of_In, filter_In. split; [|by apply Qlt_bool_iff].
  apply in_concat. exists row. split; apply list_elem_of_In.
  - by eapply list_elem_of_lookup_2.
  - by eapply list_elem_of_lookup_2.
Qed.

Lemma positive_threshold (m : list (list Q)) :
  positive_cells m <> [] -> (0 < percentile_half (positive_cells m))%Q.
Proof.
  intros Hne.
  destruct (least_cell _ Hne) as (least & Hleast & Hlow).
  destruct (greatest_cell _ Hne) as (greatest & _ & Hhigh).
  destruct (percentile_half_between (positive_cells m) least greatest Hne) as [Hbound _].
  { intros y Hy. split; [by apply Hlow|by apply Hhigh]. }
  assert (0 < least)%Q; [|lra].
  unfold positive_cells in Hleast.
  apply list_elem_of_In, filter_In in Hleast as [_ Hleast]. by apply Qlt_bool_iff.
Qed.

(** X28. Color Map of [plot_freq_scan_2d_hist]: in the matrix handed to
    [ax.imshow] a cell that was zero is always NaN (drawn in white), a cell
    that is not NaN still holds its value, which is positive, and a
    positive cell that no other cell exceeds is never masked. *)
Theorem zero_cells_are_masked (m : list (list Q)) (i j : nat) (x : Q) :
  cell m i j = Some x -> (0 <= x)%Q ->
  ((x == 0)%Q -> cell (color_map m) i j = Some NaN)
  /\ (forall y, cell (color_map m) i j = Some (Fin y) -> y = x /\ (0 < x)%Q)
  /\ ((0 < x)%Q -> (forall y, y ∈ positive_cells m -> (y <= x)%Q) ->
      cell (color_map m) i j = Some (Fin x)).
Proof.
  intros Hcell Hx. rewrite (cell_color_map m i j x Hcell).
  pose proof (positive_threshold m) as Hthreshold.
  destruct (positive_cells m) as [|z rest] eqn:Hcells.
  - split; [|split].
    + intros Hzero. apply Qeq_bool_iff in Hzero. by rewrite Hzero.
    + intros y. destruct (Qeq_bool x 0) eqn:E; [done|]. intros [= <-].
      split; [done|]. apply Qeq_bool_false_iff in E.
      destruct (Qlt_le_dec 0 x) as [|Hle]; [done|]. exfalso. apply E. lra.
    + intros Hpos. exfalso.
      pose proof (positive_cell m i j x Hcell Hpos) as Hin.
      rewrite Hcells in Hin. by apply elem_of_nil in Hin.
  - specialize (Hthreshold ltac:(done)).
    split; [|split].
    + intros Hzero.
      assert (Qlt_bool x (percentile_half (z :: rest)) = true) as ->; [|done].
      apply Qlt_bool_iff. lra.
    + intros y. destruct (Qlt_bool x (percentile_half (z :: rest))) eqn:E; [done|].
      intros [= <-]. split; [done|].
      destruct (Qlt_le_dec x (percentile_half (z :: rest))) as [Hlt|Hge].
      * apply Qlt_bool_iff in Hlt. congruence.
      * lra.
    + intros Hpos Hmax.
      destruct (percentile_half_between (z :: rest) 0 x ltac:(done)) as [_ Hle].
      { intros y Hy. split; [|by apply Hmax].
        rewrite <- Hcells in Hy. unfold positive_cells in Hy.
        apply list_elem_of_In, filter_In in Hy as [_ Hy].
        apply Qlt_bool_iff in Hy. lra. }
      destruct (Qlt_bool x (percentile_half (z :: rest))) eqn:E; [|done].
      apply Qlt_bool_iff in E. lra.
Qed.

Lemma zero_cells_are_masked_witness :
  cell (color_map [[3; 0]; [1; 0]]%Q) 0 1 = Some NaN
  /\ cell (color_map [[3; 0]; [1; 0]]%Q) 0 0 = Some (Fin 3).
Proof.
  destruct (zero_cells_are_masked [[3; 0]; [1; 0]]%Q 0 1 0 eq_refl) as (Hzero & _);
    [lra|].
  destruct (zero_cells_are_masked [[3; 0]; [1; 0]]%Q 0 0 3 eq_refl) as (_ & _ & Hmax);
    [lra|].
  split; [apply Hzero; reflexivity|].
  apply Hmax; [lra|].
  intros y Hy. vm_compute in Hy.
  apply elem_of_cons in Hy as [->|Hy]; [lra|].
  apply elem_of_cons in Hy as [->|Hy]; [lra|]. by apply elem_of_nil in Hy.
Defined.
